(** * InvoiceParser: table extraction, reconciliation and validation engine

    A shallow embedding of the Python sources under [python-parser/src]
    (helpers, coordinate table extractor, table extractor, consistency
    validator, response compiler) together with the properties stated for
    them.

    Conventions of the embedding.
    - A Python [str] is a [string]; a character is a code point in the range
      0..255, so every character class below ([isspace], [isalnum], [lower],
      the regular-expression classes) is Python's class restricted to that
      range.
    - [Optional[str]] is [option string]; Python truthiness of such a value
      is [truthy].
    - [decimal.Decimal] is the triple (sign, coefficient, exponent) of the
      General Decimal Arithmetic, with the interpreter's default context
      (28 digits, half-even, traps on InvalidOperation and Overflow).
    - A Python [float] is a binary64 [float].
    - Code that may raise returns a sum whose left side is the exception. *)

From Stdlib Require Import ZArith NArith List String Ascii Bool Lia DecimalString.
From Stdlib Require Import PrimFloat.
From Stdlib Require Uint63 SpecFloat FloatOps FloatAxioms.

Set Warnings "-inexact-float".
From stdpp Require Import gmap strings.

Import ListNotations.
Local Open Scope string_scope.

(** ** Python strings *)

Module PyStr.

Definition code (c : ascii) : N := N_of_ascii c.

(** [str.isspace] on one character; also the class [\s]. *)
Definition isspace (c : ascii) : bool :=
  let n := code c in
  (((9 <=? n) && (n <=? 13)) || ((28 <=? n) && (n <=? 32))
   || (n =? 133) || (n =? 160))%N.

(** The class [\d]. *)
Definition isdigit (c : ascii) : bool :=
  let n := code c in ((48 <=? n) && (n <=? 57))%N.

Definition isupper_ascii (c : ascii) : bool :=
  let n := code c in ((65 <=? n) && (n <=? 90))%N.

Definition islower_ascii (c : ascii) : bool :=
  let n := code c in ((97 <=? n) && (n <=? 122))%N.

(** [str.isalnum] on one character. *)
Definition isalnum (c : ascii) : bool :=
  let n := code c in
  (isdigit c || isupper_ascii c || islower_ascii c
   || (n =? 170) || (n =? 178) || (n =? 179) || (n =? 181) || (n =? 185)
   || (n =? 186) || ((188 <=? n) && (n <=? 190))
   || ((192 <=? n) && (n <=? 214)) || ((216 <=? n) && (n <=? 246))
   || (248 <=? n))%N.

(** The class [\w]. *)
Definition isword (c : ascii) : bool :=
  isalnum c || (code c =? 95)%N.

(** [str.lower] on one character. *)
Definition lower_char (c : ascii) : ascii :=
  let n := code c in
  if (isupper_ascii c
      || (((192 <=? n) && (n <=? 222)) && negb (n =? 215)))%N
  then ascii_of_N (n + 32) else c.

Fixpoint lower (s : string) : string :=
  match s with
  | EmptyString => EmptyString
  | String c s' => String (lower_char c) (lower s')
  end.

Definition upper_char (c : ascii) : ascii :=
  if islower_ascii c then ascii_of_N (code c - 32) else c.

Definition is_empty (s : string) : bool :=
  match s with EmptyString => true | _ => false end.

(** Truthiness of a [str]. *)
Definition nonempty (s : string) : bool := negb (is_empty s).

Fixpoint lstrip (s : string) : string :=
  match s with
  | EmptyString => EmptyString
  | String c s' => if isspace c then lstrip s' else s
  end.

Fixpoint rstrip (s : string) : string :=
  match s with
  | EmptyString => EmptyString
  | String c s' =>
      let r := rstrip s' in
      if isspace c && is_empty r then EmptyString else String c r
  end.

(** [s.strip()] *)
Definition strip (s : string) : string := rstrip (lstrip s).

(** [s.startswith(p)] *)
Definition startswith (p s : string) : bool := String.prefix p s.

(** [sub in s] *)
Fixpoint contains (sub s : string) : bool :=
  String.prefix sub s
  || match s with
     | EmptyString => false
     | String _ s' => contains sub s'
     end.

(** [s.find(sub)], [None] for -1. *)
Fixpoint find (sub s : string) : option nat :=
  if String.prefix sub s then Some 0
  else match s with
       | EmptyString => None
       | String _ s' => option_map S (find sub s')
       end.

(** [s.replace(old, new)] for a one-character [old]. *)
Fixpoint replace_char (old : ascii) (new : string) (s : string) : string :=
  match s with
  | EmptyString => EmptyString
  | String c s' =>
      if Ascii.eqb c old then new ++ replace_char old new s'
      else String c (replace_char old new s')
  end.

(** [s.split(sep)] for a one-character [sep]: never the empty list. *)
Fixpoint split_char (sep : ascii) (s : string) : list string :=
  match s with
  | EmptyString => [EmptyString]
  | String c s' =>
      if Ascii.eqb c sep then EmptyString :: split_char sep s'
      else match split_char sep s' with
           | [] => [String c EmptyString]
           | p :: ps => String c p :: ps
           end
  end.

(** [s[:n]] *)
Definition take (n : nat) (s : string) : string := String.substring 0 n s.

(** [s[n:]] *)
Fixpoint drop (n : nat) (s : string) : string :=
  match n, s with
  | O, _ => s
  | S n', String _ s' => drop n' s'
  | S _, EmptyString => EmptyString
  end.

Fixpoint join (sep : string) (l : list string) : string :=
  match l with
  | [] => EmptyString
  | [x] => x
  | x :: l' => x ++ sep ++ join sep l'
  end.

(** [str(n)] for a non-negative [int]. *)
Definition of_N (n : N) : string :=
  DecimalString.NilZero.string_of_uint (N.to_uint n).

Definition of_nat (n : nat) : string := of_N (N.of_nat n).

End PyStr.

(** Truthiness of an [Optional[str]]. *)
Definition truthy (o : option string) : bool :=
  match o with
  | Some s => PyStr.nonempty s
  | None => false
  end.

(** ** Exceptions and the error monad *)

Inductive exn : Type :=
| InvalidOperation                (* decimal.InvalidOperation *)
| Overflow                        (* decimal.Overflow *)
| AttributeError (msg : string)
| TypeError (msg : string).

(** [str(e)] for an exception raised by decimal arithmetic or by an
    attribute access. *)
Definition exn_str (e : exn) : string :=
  match e with
  | InvalidOperation => "[<class 'decimal.InvalidOperation'>]"
  | Overflow => "[<class 'decimal.Overflow'>]"
  | AttributeError msg => msg
  | TypeError msg => msg
  end.

Definition bind {A B : Type} (m : exn + A) (k : A -> exn + B) : exn + B :=
  match m with
  | inl e => inl e
  | inr a => k a
  end.

Notation "'let*' x ':=' e 'in' k" := (bind e (fun x => k))
  (at level 10, x name, e at level 100, k at level 200).

(** ** [decimal.Decimal] with the default context *)

Module Dec.

Inductive t : Type :=
| Fin (sign : bool) (coeff : N) (exp : Z)
| Inf (sign : bool)
| NaN (sign : bool) (signaling : bool) (payload : N).

Definition prec : Z := 28.
Definition Emax : Z := 999999.
Definition Emin : Z := -999999.
Definition Etiny : Z := Emin - prec + 1.
Definition Etop : Z := Emax - prec + 1.

(** Limits of the exact constructor (MAX_EMAX and MIN_ETINY). *)
Definition MAX_EMAX : Z := 999999999999999999.
Definition MIN_ETINY : Z := -1999999999999999997.

Fixpoint ndigits_fuel (fuel : nat) (n : N) : Z :=
  match fuel with
  | O => 1
  | S f => if (n <? 10)%N then 1 else 1 + ndigits_fuel f (n / 10)%N
  end.

(** [len(self._int)]: the number of digits of the coefficient. *)
Definition ndigits (n : N) : Z := ndigits_fuel (N.to_nat (N.size n)) n.

Definition pow10 (k : Z) : N := (10 ^ Z.to_N k)%N.

(** *** The constructor [Decimal(str)] *)

Definition digit_val (c : ascii) : N := (PyStr.code c - 48)%N.

Fixpoint span_digits (s : string) : string * string :=
  match s with
  | String c s' =>
      if PyStr.isdigit c
      then let (d, r) := span_digits s' in (String c d, r)
      else (EmptyString, s)
  | EmptyString => (EmptyString, EmptyString)
  end.

Fixpoint digits_val (acc : N) (s : string) : N :=
  match s with
  | EmptyString => acc
  | String c s' => digits_val (10 * acc + digit_val c)%N s'
  end.

Definition split_sign (s : string) : bool * string :=
  match s with
  | String "-" s' => (true, s')
  | String "+" s' => (false, s')
  | _ => (false, s)
  end.

Definition in_range (coeff : N) (e : Z) : bool :=
  (MIN_ETINY <=? e)%Z && (e + ndigits coeff - 1 <=? MAX_EMAX)%Z.

Definition parse_exponent (s : string) : option Z :=
  match s with
  | EmptyString => Some 0%Z
  | String c s' =>
      if (Ascii.eqb c "e" || Ascii.eqb c "E")%bool then
        let (neg, s'') := split_sign s' in
        let (ds, rest) := span_digits s'' in
        if PyStr.nonempty ds && PyStr.is_empty rest
        then Some (if neg then - Z.of_N (digits_val 0 ds)
                   else Z.of_N (digits_val 0 ds))%Z
        else None
      else None
  end.

Definition parse_number (sign : bool) (s : string) : option t :=
  let (ip, r1) := span_digits s in
  let (fp, r2) :=
    match r1 with
    | String "." r => span_digits r
    | _ => (EmptyString, r1)
    end in
  if PyStr.is_empty ip && PyStr.is_empty fp then None
  else match parse_exponent r2 with
       | None => None
       | Some e =>
           let coeff := digits_val 0 (ip ++ fp) in
           let e' := (e - Z.of_nat (String.length fp))%Z in
           if in_range coeff e' then Some (Fin sign coeff e') else None
       end.

Definition parse_nan (sign signaling : bool) (digits : string) : option t :=
  let (ds, rest) := span_digits digits in
  if PyStr.is_empty rest then Some (NaN sign signaling (digits_val 0 ds))
  else None.

Definition parse_body (sign : bool) (s : string) : option t :=
  let ls := PyStr.lower s in
  if (String.eqb ls "inf" || String.eqb ls "infinity")%bool
  then Some (Inf sign)
  else if String.prefix "nan" ls then parse_nan sign false (PyStr.drop 3 s)
  else if String.prefix "snan" ls then parse_nan sign true (PyStr.drop 4 s)
  else parse_number sign s.

(** [Decimal(s)]: surrounding whitespace and every underscore are
    dropped; a string outside the grammar raises InvalidOperation. *)
Definition of_string (s : string) : exn + t :=
  let s1 := PyStr.replace_char "_" EmptyString (PyStr.strip s) in
  let (sign, body) := split_sign s1 in
  match parse_body sign body with
  | Some d => inr d
  | None => inl InvalidOperation
  end.

(** [Decimal(n)] for an [int]. *)
Definition of_Z (z : Z) : t := Fin (z <? 0)%Z (Z.abs_N z) 0.

(** [bool(d)] *)
Definition truth (d : t) : bool :=
  match d with
  | Fin _ c _ => negb (c =? 0)%N
  | _ => true
  end.

(** *** Rounding to the context: [_fix] *)

Definition fix_nan (sign signaling : bool) (payload : N) : t :=
  NaN sign signaling (payload mod pow10 prec)%N.

Definition fix_finite (sign : bool) (c : N) (e : Z) : exn + t :=
  if (c =? 0)%N then inr (Fin sign 0 (Z.min (Z.max e Etiny) Emax))
  else
    let exp_min0 := (ndigits c + e - prec)%Z in
    if (Etop <? exp_min0)%Z then inl Overflow
    else
      let exp_min := Z.max exp_min0 Etiny in
      if (e <? exp_min)%Z then
        let k := (exp_min - e)%Z in
        if (ndigits c <? k)%Z then inr (Fin sign 0 exp_min)
        else
          let q := (c / pow10 k)%N in
          let r := (c mod pow10 k)%N in
          let half := (5 * pow10 (k - 1))%N in
          let up := ((half <? r) || ((r =? half) && N.odd q))%N in
          let q' := if up then (q + 1)%N else q in
          let '(q'', e'') :=
            if (prec <? ndigits q')%Z then ((q' / 10)%N, (exp_min + 1)%Z)
            else (q', exp_min) in
          if (Etop <? e'')%Z then inl Overflow
          else inr (Fin sign q'' e'')
      else inr (Fin sign c e).

Definition _fix (d : t) : exn + t :=
  match d with
  | Fin s c e => fix_finite s c e
  | Inf s => inr (Inf s)
  | NaN s sg p => inr (fix_nan s sg p)
  end.

(** [_check_nans]: a signalling NaN raises, a quiet one is the result. *)
Definition check_nans (a b : t) : option (exn + t) :=
  match a, b with
  | NaN _ true _, _ => Some (inl InvalidOperation)
  | _, NaN _ true _ => Some (inl InvalidOperation)
  | NaN s sg p, _ => Some (inr (fix_nan s sg p))
  | _, NaN s sg p => Some (inr (fix_nan s sg p))
  | _, _ => None
  end.

Definition check_nan (a : t) : option (exn + t) :=
  match a with
  | NaN _ true _ => Some (inl InvalidOperation)
  | NaN s sg p => Some (inr (fix_nan s sg p))
  | _ => None
  end.

Definition copy_negate (d : t) : t :=
  match d with
  | Fin s c e => Fin (negb s) c e
  | Inf s => Inf (negb s)
  | NaN s sg p => NaN (negb s) sg p
  end.

Definition signed (s : bool) (c : N) : Z :=
  if s then (- Z.of_N c)%Z else Z.of_N c.

(** [__add__] *)
Definition add (a b : t) : exn + t :=
  match check_nans a b with
  | Some r => r
  | None =>
      match a, b with
      | Inf s1, Inf s2 =>
          if Bool.eqb s1 s2 then inr (Inf s1) else inl InvalidOperation
      | Inf s1, _ => inr (Inf s1)
      | _, Inf s2 => inr (Inf s2)
      | Fin s1 c1 e1, Fin s2 c2 e2 =>
          let e := Z.min e1 e2 in
          if ((c1 =? 0) && (c2 =? 0))%N then fix_finite (s1 && s2) 0 e
          else if (c1 =? 0)%N then
            let e' := Z.max e (e2 - prec - 1) in
            fix_finite s2 (c2 * pow10 (e2 - e'))%N e'
          else if (c2 =? 0)%N then
            let e' := Z.max e (e1 - prec - 1) in
            fix_finite s1 (c1 * pow10 (e1 - e'))%N e'
          else
            let v := (signed s1 (c1 * pow10 (e1 - e))
                      + signed s2 (c2 * pow10 (e2 - e)))%Z in
            fix_finite (v <? 0)%Z (Z.abs_N v) e
      | _, _ => inl InvalidOperation
      end
  end.

(** [__sub__] *)
Definition sub (a b : t) : exn + t :=
  match check_nans a b with
  | Some r => r
  | None => add a (copy_negate b)
  end.

(** [__mul__] *)
Definition mul (a b : t) : exn + t :=
  match check_nans a b with
  | Some r => r
  | None =>
      match a, b with
      | Inf s1, Inf s2 => inr (Inf (xorb s1 s2))
      | Inf s1, Fin s2 c2 _ =>
          if (c2 =? 0)%N then inl InvalidOperation else inr (Inf (xorb s1 s2))
      | Fin s1 c1 _, Inf s2 =>
          if (c1 =? 0)%N then inl InvalidOperation else inr (Inf (xorb s1 s2))
      | Fin s1 c1 e1, Fin s2 c2 e2 =>
          fix_finite (xorb s1 s2) (c1 * c2)%N (e1 + e2)%Z
      | _, _ => inl InvalidOperation
      end
  end.

(** [__abs__] *)
Definition abs (a : t) : exn + t :=
  match check_nan a with
  | Some r => r
  | None =>
      match a with
      | Fin _ c e => fix_finite false c e
      | Inf _ => inr (Inf false)
      | NaN _ _ _ => inl InvalidOperation
      end
  end.

(** [_cmp] on operands that are not NaN. *)
Definition cmp (a b : t) : comparison :=
  match a, b with
  | Inf s1, Inf s2 =>
      if Bool.eqb s1 s2 then Eq else if s1 then Lt else Gt
  | Inf s1, _ => if s1 then Lt else Gt
  | _, Inf s2 => if s2 then Gt else Lt
  | Fin s1 c1 e1, Fin s2 c2 e2 =>
      let e := Z.min e1 e2 in
      (signed s1 (c1 * pow10 (e1 - e)) ?= signed s2 (c2 * pow10 (e2 - e)))%Z
  | _, _ => Eq
  end.

Definition is_nan (a : t) : bool :=
  match a with NaN _ _ _ => true | _ => false end.

(** The ordering operators raise InvalidOperation on a NaN operand. *)
Definition compare_with (f : comparison -> bool) (a b : t) : exn + bool :=
  if is_nan a || is_nan b then inl InvalidOperation else inr (f (cmp a b)).

Definition lt := compare_with (fun c => match c with Lt => true | _ => false end).
Definition le := compare_with (fun c => match c with Gt => false | _ => true end).
Definition gt := compare_with (fun c => match c with Gt => true | _ => false end).
Definition ge := compare_with (fun c => match c with Lt => false | _ => true end).

(** The builtin [max(a, b)]: [b] when [b > a], else [a]. *)
Definition max (a b : t) : exn + t :=
  let* g := gt b a in inr (if g then b else a).

(** *** [str(d)] *)

Definition zeros (n : Z) : string := String.concat "" (repeat "0" (Z.to_nat n)).

Definition signed_str (z : Z) : string :=
  (if (z <? 0)%Z then "-" else "+") ++ PyStr.of_N (Z.abs_N z).

Definition to_string (d : t) : string :=
  match d with
  | Inf s => (if s then "-" else "") ++ "Infinity"
  | NaN s sg p =>
      (if s then "-" else "") ++ (if sg then "sNaN" else "NaN")
      ++ (if (p =? 0)%N then "" else PyStr.of_N p)
  | Fin s c e =>
      let ds := PyStr.of_N c in
      let len := Z.of_nat (String.length ds) in
      let leftdigits := (e + len)%Z in
      let dotplace :=
        if ((e <=? 0) && (-6 <? leftdigits))%Z then leftdigits else 1%Z in
      let intpart :=
        if (dotplace <=? 0)%Z then "0"
        else if (len <=? dotplace)%Z then ds ++ zeros (dotplace - len)
        else PyStr.take (Z.to_nat dotplace) ds in
      let fracpart :=
        if (dotplace <=? 0)%Z then "." ++ zeros (- dotplace) ++ ds
        else if (len <=? dotplace)%Z then ""
        else "." ++ PyStr.drop (Z.to_nat dotplace) ds in
      let exppart :=
        if (leftdigits =? dotplace)%Z then ""
        else "E" ++ signed_str (leftdigits - dotplace) in
      (if s then "-" else "") ++ intpart ++ fracpart ++ exppart
  end.

End Dec.

(** ** Regular expressions ([re.search] with backtracking priorities) *)

Module Re.

Inductive t : Type :=
| Eps
| Chr (p : ascii -> bool)       (* one character of a class *)
| Seq (r1 r2 : t)
| Alt (r1 r2 : t)               (* r1|r2, r1 tried first *)
| Star (r : t)                  (* greedy r*, r never matches empty *)
| Grp (i : nat) (r : t)         (* capturing group number i *)
| WordB.                        (* \b *)

Definition Plus (r : t) : t := Seq r (Star r).
Definition Opt (r : t) : t := Alt r Eps.

Fixpoint Rep (n : nat) (r : t) : t :=
  match n with
  | O => Eps
  | S n' => Seq r (Rep n' r)
  end.

(** r{n,n+k}, greedy *)
Fixpoint UpTo (k : nat) (r : t) : t :=
  match k with
  | O => Eps
  | S k' => Opt (Seq r (UpTo k' r))
  end.

Definition RepRange (n k : nat) (r : t) : t := Seq (Rep n r) (UpTo k r).

Definition Lit (c : ascii) : t := Chr (Ascii.eqb c).

(** A literal, case-insensitive under [re.IGNORECASE]. *)
Definition LitI (c : ascii) : t :=
  Chr (fun x => Ascii.eqb (PyStr.lower_char x) (PyStr.lower_char c)).

Fixpoint Str (s : string) : t :=
  match s with
  | EmptyString => Eps
  | String c s' => Seq (Lit c) (Str s')
  end.

Fixpoint StrI (s : string) : t :=
  match s with
  | EmptyString => Eps
  | String c s' => Seq (LitI c) (StrI s')
  end.

Definition digit : t := Chr PyStr.isdigit.
Definition space : t := Chr PyStr.isspace.

(** The reading head: offset, character before it, text after it. *)
Record head : Type := Head { pos : nat; prev : option ascii; rest : string }.

Definition caps : Type := list (nat * (nat * nat)).

Definition at_boundary (h : head) : bool :=
  let before := match prev h with Some c => PyStr.isword c | None => false end in
  let after := match rest h with String c _ => PyStr.isword c | EmptyString => false end in
  xorb before after.

Fixpoint run {R : Type} (r : t) (h : head) (cs : caps)
         (k : head -> caps -> option R) {struct r} : option R :=
  match r with
  | Eps => k h cs
  | Chr p =>
      match rest h with
      | String c s' => if p c then k (Head (S (pos h)) (Some c) s') cs else None
      | EmptyString => None
      end
  | Seq r1 r2 => run r1 h cs (fun h' cs' => run r2 h' cs' k)
  | Alt r1 r2 =>
      match run r1 h cs k with
      | Some x => Some x
      | None => run r2 h cs k
      end
  | Star r' =>
      (fix loop (n : nat) (h0 : head) (cs0 : caps) {struct n} : option R :=
         match n with
         | O => k h0 cs0
         | S n' =>
             match run r' h0 cs0
                     (fun h1 cs1 =>
                        if Nat.ltb (pos h0) (pos h1) then loop n' h1 cs1 else None) with
             | Some x => Some x
             | None => k h0 cs0
             end
         end) (String.length (rest h)) h cs
  | Grp i r' => run r' h cs (fun h' cs' => k h' ((i, (pos h, pos h')) :: cs'))
  | WordB => if at_boundary h then k h cs else None
  end.

(** A match: its span and the spans of its groups. *)
Record found : Type := Found { start : nat; stop : nat; groups : caps }.

Fixpoint search_from (r : t) (h : head) (fuel : nat) : option found :=
  match run r h [] (fun h' cs => Some (Found (pos h) (pos h') cs)) with
  | Some m => Some m
  | None =>
      match fuel, rest h with
      | S fuel', String c s' => search_from r (Head (S (pos h)) (Some c) s') fuel'
      | _, _ => None
      end
  end.

(** [re.search(r, s)] *)
Definition search (r : t) (s : string) : option found :=
  search_from r (Head 0 None s) (String.length s).

Fixpoint lookup_group (i : nat) (cs : caps) : option (nat * nat) :=
  match cs with
  | [] => None
  | (j, sp) :: cs' => if Nat.eqb i j then Some sp else lookup_group i cs'
  end.

(** [m.group(i)] for a group that took part in the match. *)
Definition group (s : string) (m : found) (i : nat) : string :=
  match lookup_group i (groups m) with
  | Some (a, b) => String.substring a (b - a) s
  | None => EmptyString
  end.

End Re.

(** ** utils/helpers.py *)

(** The argument of [parse_italian_decimal]: [None], a [Decimal], an [int],
    a [bool], a [str], or an object of another type. A [float] argument is
    outside the embedding. *)
Inductive pyval : Type :=
| VNone
| VDecimal (d : Dec.t)
| VInt (z : Z)
| VBool (b : bool)
| VStr (s : string)
| VOther.

(** [r'([-+]?\d*[.,]?\d+)'] *)
Definition numeric_part_re : Re.t :=
  Re.Grp 1
    (Re.Seq (Re.Opt (Re.Chr (fun c => Ascii.eqb c "-" || Ascii.eqb c "+")))
       (Re.Seq (Re.Star Re.digit)
          (Re.Seq (Re.Opt (Re.Chr (fun c => Ascii.eqb c "." || Ascii.eqb c ",")))
             (Re.Plus Re.digit)))).

Definition standardize (cleaned_value : string) : string :=
  if PyStr.contains "," cleaned_value && PyStr.contains "." cleaned_value then
    match PyStr.split_char "," cleaned_value with
    | [integer_part; decimal_part] =>
        PyStr.replace_char "." "" integer_part ++ "." ++ decimal_part
    | _ => PyStr.replace_char "," "." (PyStr.replace_char "." "" cleaned_value)
    end
  else if PyStr.contains "," cleaned_value then
    PyStr.replace_char "," "." cleaned_value
  else cleaned_value.

Definition parse_italian_decimal (text_value : pyval) : exn + option Dec.t :=
  match text_value with
  | VNone => inr None
  | VDecimal d => inr (Some d)
  | VBool b =>
      let* d := Dec.of_string (if b then "True" else "False") in inr (Some d)
  | VInt z => inr (Some (Dec.of_Z z))
  | VOther => inr None
  | VStr text =>
      let cleaned_value := PyStr.strip text in
      if PyStr.is_empty cleaned_value then inr None
      else
        match Dec.of_string (standardize cleaned_value) with
        | inr result => inr (Some result)
        | inl InvalidOperation =>
            match Re.search numeric_part_re cleaned_value with
            | Some m =>
                let fallback_value :=
                  PyStr.replace_char "," "." (Re.group cleaned_value m 1) in
                match Dec.of_string fallback_value with
                | inr result => inr (Some result)
                | inl InvalidOperation => inr None
                | inl e => inl e
                end
            | None => inr None
            end
        | inl e => inl e
        end
  end.

(** The call on a field of type [Optional[str]]. *)
Definition parse_field (o : option string) : exn + option Dec.t :=
  parse_italian_decimal (match o with Some s => VStr s | None => VNone end).

(** ** Python floats *)

Module PyFloat.

(** [a > b], [a >= b] *)
Definition gtb (a b : float) : bool := PrimFloat.ltb b a.
Definition geb (a b : float) : bool := PrimFloat.leb b a.

(** The builtins [min(a, b)] and [max(a, b)]: the second argument only
    when it is strictly smaller (larger). *)
Definition min (a b : float) : float := if PrimFloat.ltb b a then b else a.
Definition max (a b : float) : float := if gtb b a then b else a.

(** [float(n)] for an [int] below 2^53. *)
Definition of_nat (n : nat) : float :=
  PrimFloat.of_uint63 (Uint63.of_Z (Z.of_nat n)).

(** [a / b] for two [int]s below 2^53. *)
Definition int_div (a b : nat) : float := PrimFloat.div (of_nat a) (of_nat b).

(** The integer nearest to m * 2^e * 1000, ties to even. *)
Definition thousandths (m : positive) (e : Z) : Z :=
  match e with
  | Zneg p =>
      let num := (Zpos m * 1000)%Z in
      let den := Zpos (Pos.pow 2 p) in
      let q := (num / den)%Z in
      let r := (num mod den)%Z in
      match (2 * r ?= den)%Z with
      | Gt => (q + 1)%Z
      | Eq => if Z.odd q then (q + 1)%Z else q
      | Lt => q
      end
  | _ => (Zpos m * 2 ^ e * 1000)%Z
  end.

(** [round(x, 3)]: the double nearest to the decimal with three places
    nearest to [x] (ties to even). From 2^43 on, a double is its own
    rounding. *)
Definition round3 (x : float) : float :=
  match FloatOps.Prim2SF x with
  | SpecFloat.S754_finite s m e =>
      if PrimFloat.leb 8796093022208%float (PrimFloat.abs x) then x
      else
        let k := thousandths m e in
        let r := PrimFloat.div (PrimFloat.of_uint63 (Uint63.of_Z k)) 1000%float in
        if s then PrimFloat.opp r else r
  | _ => x
  end.

End PyFloat.

(** ** models/invoice_models.py *)

Module ProductData.
Record t : Type := Make {
  product_code : option string;
  description : option string;
  customs_code : option string;
  unit_of_measure : option string;
  quantity : option string;
  unit_price : option string;
  total_price : option string
}.
(** [ProductData()] *)
Definition new : t := Make None None None None None None None.
End ProductData.

Module DeliveryData.
Record t : Type := Make {
  ddt_series : option string;
  ddt_number : option string;
  ddt_date : option string;
  ddt_reason : option string;
  model_number : option string;
  model_name : option string;
  order_series : option string;
  order_number : option string;
  product_name : option string;
  product_properties : option string;
  products : list ProductData.t
}.
(** [DeliveryData()] *)
Definition new : t := Make None None None None None None None None None None [].

Definition set_products (d : t) (ps : list ProductData.t) : t :=
  Make (ddt_series d) (ddt_number d) (ddt_date d) (ddt_reason d)
       (model_number d) (model_name d) (order_series d) (order_number d)
       (product_name d) (product_properties d) ps.
End DeliveryData.

Module BillData.
Record t : Type := Make {
  bill_number : option string;
  bill_date : option string;
  currency : option string;
  customer_code : option string;
  customer_name : option string;
  customer_address : option string;
  customer_vat_id : option string;
  gross_weight_kg : option string;
  net_weight_kg : option string;
  package_count : option Z;
  shipping_term : option string;
  total_amount : option string
}.
End BillData.

(** A detected table: the rows of a DataFrame whose columns are labelled
    0, 1, 2, ...; every row has one cell per column. Row 0 holds the header
    texts. *)
Definition grid : Type := list (list string).

Module PageData.
Record t : Type := Make {
  page_number : nat;
  raw_text : string;
  tables : list grid;
  products : list ProductData.t;
  delivery_info : option DeliveryData.t;
  all_deliveries : list DeliveryData.t;
  errors : list string
}.
End PageData.

Module ProcessingConfig.
Record t : Type := Make {
  enable_ocr_validation : bool;
  ocr_confidence_threshold : float;
  validate_checksums : bool
}.
(** The defaults of the dataclass. *)
Definition default : t := Make true 0.8%float true.
End ProcessingConfig.

(** ** extractors/coordinate_table_extractor.py *)

Module CoordinateTableExtractor.

Definition start_marker : string := "MS5LH0002 3635".
Definition end_marker : string := "MS5LH0002 3636".

(** A raw row as [extract_table_data] builds it: a dict with the mapped
    column names as keys and the cell texts as values, plus the two
    bookkeeping entries ['row_index'] and ['raw_data']. *)
Record raw_row : Type := RawRow {
  row_index : nat;
  raw_data : list (option string);
  cells : gmap string string
}.

(** [row.get(key)] *)
Definition get (row : raw_row) (key : string) : option string :=
  cells row !! key.

(** [row.get(key, '')] *)
Definition get_or_empty (row : raw_row) (key : string) : string :=
  default "" (get row key).

(** [row[key] = value] *)
Definition set (row : raw_row) (key value : string) : raw_row :=
  RawRow (row_index row) (raw_data row) (<[key := value]> (cells row)).

(** [row.get('product_code', '').strip() and 'MMA' in row.get('product_code', '')] *)
Definition has_product_code (row : raw_row) : bool :=
  PyStr.nonempty (PyStr.strip (get_or_empty row "product_code"))
  && PyStr.contains "MMA" (get_or_empty row "product_code").

(** [if not current_row.get(key) and prev_row.get(key): current_row[key] = prev_row[key]] *)
Definition pull (key : string) (prev_row current_row : raw_row) : raw_row :=
  if negb (truthy (get current_row key)) && truthy (get prev_row key)
  then set current_row key (get_or_empty prev_row key)
  else current_row.

Definition pulled_fields : list string :=
  ["quantity"; "unit_price"; "total_price"; "unit_of_measure"; "voce_dog"].

Definition pull_all (prev_row current_row : raw_row) : raw_row :=
  fold_left (fun row key => pull key prev_row row) pulled_fields current_row.

(** [any(current_row.get(field, '').strip() for field in
    ['quantity', 'unit_price', 'total_price'])] *)
Definition has_meaningful_data (row : raw_row) : bool :=
  existsb (fun field => PyStr.nonempty (PyStr.strip (get_or_empty row field)))
          ["quantity"; "unit_price"; "total_price"].

(** One turn of the [while] loop at index [i]. *)
Definition merge_iteration (raw_rows : list raw_row) (merged_rows : list raw_row)
           (i : nat) : list raw_row :=
  match raw_rows !! i with
  | None => merged_rows
  | Some current_row =>
      if has_product_code current_row then
        let current_row :=
          if Nat.ltb 0 i then
            match raw_rows !! (i - 1) with
            | Some prev_row => pull_all prev_row current_row
            | None => current_row
            end
          else current_row in
        merged_rows ++ [current_row]
      else if Nat.ltb (i + 1) (length raw_rows) then
        match raw_rows !! (i + 1) with
        | Some next_row =>
            if has_product_code next_row then merged_rows
            else merged_rows ++ [current_row]
        | None => merged_rows
        end
      else if has_meaningful_data current_row then merged_rows ++ [current_row]
      else merged_rows
  end.

(** [merged_rows] after the turns for the indices below [n]. *)
Definition merged_upto (raw_rows : list raw_row) (n : nat) : list raw_row :=
  fold_left (merge_iteration raw_rows) (seq 0 n) [].

Definition _merge_paired_rows (raw_rows : list raw_row) : list raw_row :=
  merged_upto raw_rows (length raw_rows).

(** A positioned character of [page.chars]. *)
Record char : Type := Char { text : string; x0 : float; y0 : float }.

Record page : Type := Page { chars : list char; width : float }.

Record marker : Type := Marker { y : float; x : float; nearby : string }.

Record bounds : Type := Bounds { bx0 : float; by0 : float; bx1 : float; by1 : float }.

(** Insertion of [a] behind every element that is not greater: the
    stable sort of [list.sort(key=...)] for keys ordered by [lt]. *)
Fixpoint insert_by {A : Type} (lt : A -> A -> bool) (a : A) (l : list A) : list A :=
  match l with
  | [] => [a]
  | b :: l' => if lt a b then a :: l else b :: insert_by lt a l'
  end.

Definition sort_by {A : Type} (lt : A -> A -> bool) (l : list A) : list A :=
  fold_left (fun acc a => insert_by lt a acc) l [].

(** Comparison of the key tuples [(y0, x0)]. *)
Definition position_lt (a b : char) : bool :=
  if negb (PrimFloat.eqb (y0 a) (y0 b)) then PrimFloat.ltb (y0 a) (y0 b)
  else if negb (PrimFloat.eqb (x0 a) (x0 b)) then PrimFloat.ltb (x0 a) (x0 b)
  else false.

(** [d ** 2], taken as the correctly rounded square: OverflowError, here
    [None], when [d] is finite and its square is not. *)
Definition square (d : float) : option float :=
  let s := PrimFloat.mul d d in
  if PrimFloat.is_infinity s && negb (PrimFloat.is_infinity d) then None else Some s.

(** [((char_x - x) ** 2 + (char_y - y) ** 2) ** 0.5], the last power
    taken as the correctly rounded square root; [None] when a square
    raises OverflowError. *)
Definition distance (c : char) (px py : float) : option float :=
  match square (PrimFloat.sub (x0 c) px) with
  | Some sx =>
      match square (PrimFloat.sub (y0 c) py) with
      | Some sy => Some (PrimFloat.sqrt (PrimFloat.add sx sy))
      | None => None
      end
  | None => None
  end.

(** The loop that collects [nearby_chars]; [None] when a distance raises. *)
Fixpoint nearby_chars (cs : list char) (px py : float) (radius : float)
  : option (list char) :=
  match cs with
  | [] => Some []
  | c :: rest =>
      match distance c px py with
      | Some d =>
          match nearby_chars rest px py radius with
          | Some found => Some (if PrimFloat.leb d radius then c :: found else found)
          | None => None
          end
      | None => None
      end
  end.

(** [_get_text_near_position]: the empty text when an exception is raised. *)
Definition _get_text_near_position (p : page) (px py : float) (radius : float) : string :=
  match nearby_chars (chars p) px py radius with
  | Some found => String.concat "" (map text (sort_by position_lt found))
  | None => ""
  end.

(** The occurrences of [mark]: the characters whose text is part of the
    marker and whose surroundings spell it out. *)
Definition occurrences (mark : string) (p : page) : list marker :=
  flat_map
    (fun c =>
       if PyStr.contains (text c) mark then
         let nearby_text := _get_text_near_position p (x0 c) (y0 c) 50%float in
         if PyStr.contains mark nearby_text
         then [Marker (y0 c) (x0 c) nearby_text]
         else []
       else [])
    (chars p).

Definition marker_lt (a b : marker) : bool := PrimFloat.ltb (y a) (y b).

(** The two marker lists after [sort(key=lambda m: m['y'])]. *)
Definition start_markers (p : page) : list marker :=
  sort_by marker_lt (occurrences start_marker p).
Definition end_markers (p : page) : list marker :=
  sort_by marker_lt (occurrences end_marker p).

Definition buffer : float := 50%float.

Definition box (p : page) (first_start end_mark : marker) : bounds :=
  let y0 := PyFloat.min (y first_start) (y end_mark) in
  let y1 := PyFloat.max (y first_start) (y end_mark) in
  Bounds 0%float y0 (width p) (PrimFloat.add y1 buffer).

(** The choice of the pair among the sorted markers: the first start
    marker with the first end marker below it on the page, else with
    the first end marker above it. *)
Definition select_pair (p : page) (start_markers end_markers : list marker)
  : option bounds :=
  match start_markers, end_markers with
  | first_start :: _, _ :: _ =>
      match List.find (fun m => PyFloat.gtb (y m) (y first_start)) end_markers with
      | Some end_mark => Some (box p first_start end_mark)
      | None =>
          match List.find (fun m => PrimFloat.ltb (y m) (y first_start)) end_markers with
          | Some end_mark => Some (box p first_start end_mark)
          | None => None
          end
      end
  | _, _ => None
  end.

Definition _find_table_boundaries (p : page) : option bounds :=
  select_pair p (start_markers p) (end_markers p).

(** A line of text set on the page: one character every three units. *)
Fixpoint typeset (s : string) (px py : float) : list char :=
  match s with
  | EmptyString => []
  | String c s' => Char (String c EmptyString) px py :: typeset s' (PrimFloat.add px 3%float) py
  end.

End CoordinateTableExtractor.

Module ValidationResult.
(** The dict [corrected_data]. *)
Record corrections : Type := Corrections {
  corrected_products : list ProductData.t;
  correction_notes : list string
}.
Record t : Type := Make {
  page_number : nat;
  is_valid : bool;
  confidence_score : float;
  validation_errors : list string;
  corrected_data : option corrections
}.
End ValidationResult.

(** ** validators/ocr_validator.py *)

Module OCRValidator.

(** The dicts returned by the two checks. *)
Record product_validation : Type := ProductValidation {
  pv_errors : list string;
  consistency_score : float;
  valid_products : nat;
  total_products : nat
}.
Record text_validation : Type := TextValidation {
  tv_errors : list string;
  text_match_score : float
}.

(** [l.append(x)] *)
Definition push {A : Type} (l : list A) (x : A) : list A := (l ++ [x])%list.

(** [f"Product {i + 1}"] *)
Definition product_label (i : nat) : string := "Product " ++ PyStr.of_nat (i + 1).

(** A failure inside [try: ... except Exception: return False]. *)
Definition or_false (r : exn + bool) : bool :=
  match r with inr b => b | inl _ => false end.

Definition _validate_numeric_field (field_value : option string) : bool :=
  if negb (truthy field_value) then false
  else or_false
         (let* parsed := parse_field field_value in
          match parsed with
          | None => inr false
          | Some d => Dec.ge d (Dec.of_Z 0)
          end).

(** Truthiness of a parsed value: [None] and zero are false. *)
Definition parsed_truth (o : option Dec.t) : bool :=
  match o with Some d => Dec.truth d | None => false end.

Definition tolerance_floor : Dec.t := Dec.Fin false 1 (-2).    (* Decimal('0.01') *)
Definition tolerance_rate : Dec.t := Dec.Fin false 1 (-3).     (* Decimal('0.001') *)

(** The body of the [try] of [_validate_price_calculation]. *)
Definition price_calculation (product : ProductData.t) (product_index : nat)
  : exn + option string :=
  let* quantity := parse_field (ProductData.quantity product) in
  let* unit_price := parse_field (ProductData.unit_price product) in
  let* total_price := parse_field (ProductData.total_price product) in
  match quantity, unit_price, total_price with
  | Some q, Some u, Some t =>
      if Dec.truth q && Dec.truth u && Dec.truth t then
        let* calculated_total := Dec.mul q u in
        let* delta := Dec.sub calculated_total t in
        let* difference := Dec.abs delta in
        let* rate := Dec.mul t tolerance_rate in
        let* tolerance := Dec.max tolerance_floor rate in
        let* too_far := Dec.gt difference tolerance in
        if too_far then
          inr (Some (product_label product_index
                     ++ ": Price calculation mismatch. Expected: "
                     ++ Dec.to_string calculated_total
                     ++ ", Found: " ++ Dec.to_string t
                     ++ ", Difference: " ++ Dec.to_string difference))
        else inr None
      else inr (Some (product_label product_index
                      ++ ": Cannot parse pricing fields for calculation"))
  | _, _, _ =>
      inr (Some (product_label product_index
                 ++ ": Cannot parse pricing fields for calculation"))
  end.

Definition _validate_price_calculation (product : ProductData.t) (product_index : nat)
  : option string :=
  match price_calculation product product_index with
  | inr r => r
  | inl e => Some (product_label product_index
                   ++ ": Error validating price calculation: " ++ exn_str e)
  end.

(** One turn of the loop of [_validate_products_consistency], on the
    pair (errors, valid_products). *)
Definition consistency_step (acc : list string * nat) (i : nat) (product : ProductData.t)
  : list string * nat :=
  let (errors, valid) := acc in
  let quantity_valid := _validate_numeric_field (ProductData.quantity product) in
  let unit_price_valid := _validate_numeric_field (ProductData.unit_price product) in
  let total_price_valid := _validate_numeric_field (ProductData.total_price product) in
  if negb (quantity_valid && unit_price_valid && total_price_valid) then
    (push errors (product_label i ++ ": Invalid numeric fields"), valid)
  else if truthy (ProductData.quantity product)
          && truthy (ProductData.unit_price product)
          && truthy (ProductData.total_price product) then
    match _validate_price_calculation product i with
    | Some calc_error =>
        if PyStr.nonempty calc_error then (push errors calc_error, valid)
        else (errors, S valid)
    | None => (errors, S valid)
    end
  else (push errors (product_label i ++ ": Missing critical pricing fields"), valid).

(** [for i, x in enumerate(l)] as a fold, [i] counted from [start]. *)
Fixpoint fold_enumerate {A B : Type} (f : B -> nat -> A -> B) (start : nat)
         (l : list A) (acc : B) : B :=
  match l with
  | [] => acc
  | x :: l' => fold_enumerate f (S start) l' (f acc start x)
  end.

Definition _validate_products_consistency (products : list ProductData.t)
  : product_validation :=
  let (errors, valid) := fold_enumerate consistency_step 0 products ([], 0) in
  let total := length products in
  let score := if Nat.ltb 0 total then PyFloat.int_div valid total else 0%float in
  ProductValidation errors score valid total.

(** The list [variants]; [list(set(variants))] has the same members. *)
Definition _generate_code_variants (product_code : string) : list string :=
  let cleaned :=
    String.string_of_list_ascii
      (List.filter PyStr.isalnum (String.list_ascii_of_string product_code)) in
  ([product_code]
  ++ (if String.eqb cleaned product_code then [] else [cleaned])
  ++ (if PyStr.contains "." product_code
      then [PyStr.replace_char "." " " product_code] else [])
  ++ (if PyStr.contains " " product_code
      then [PyStr.replace_char " " "." product_code] else []))%list.

(** The code or one of its variants stands in the text. *)
Definition code_in_text (product_code raw_text : string) : bool :=
  if PyStr.contains product_code raw_text then true
  else existsb (fun variant => PyStr.contains variant raw_text)
               (_generate_code_variants product_code).

(** One turn of the loop of [_cross_reference_with_text], on the pair
    (errors, found_products). *)
Definition cross_reference_step (raw_text : string) (acc : list string * nat)
           (i : nat) (product : ProductData.t) : list string * nat :=
  let (errors, found) := acc in
  match ProductData.product_code product with
  | Some code =>
      if PyStr.nonempty code then
        if code_in_text code raw_text then (errors, S found)
        else (push errors (product_label i ++ ": Code '" ++ code
                           ++ "' not found in raw text"), found)
      else acc
  | None => acc
  end.

Definition _cross_reference_with_text (products : list ProductData.t) (raw_text : string)
  : text_validation :=
  if PyStr.is_empty raw_text then
    TextValidation ["No raw text available for cross-referencing"] 0%float
  else
    let (errors, found) :=
      fold_enumerate (cross_reference_step raw_text) 0 products ([], 0) in
    let score :=
      match products with
      | [] => 0%float
      | _ => PyFloat.int_div found (length products)
      end in
    TextValidation errors score.

Definition consistency_weight : float := 0.6%float.
Definition text_match_weight : float := 0.4%float.

Definition _calculate_confidence_score (pv : product_validation) (tv : text_validation)
  : float :=
  let overall_score :=
    PrimFloat.add (PrimFloat.mul (consistency_score pv) consistency_weight)
                  (PrimFloat.mul (text_match_score tv) text_match_weight) in
  let error_count := length (pv_errors pv) + length (tv_errors tv) in
  let overall_score :=
    if Nat.ltb 0 error_count then
      let error_penalty :=
        PyFloat.min (PrimFloat.mul 0.2%float (PyFloat.of_nat error_count)) 0.5%float in
      PyFloat.max 0%float (PrimFloat.sub overall_score error_penalty)
    else overall_score in
  PyFloat.round3 overall_score.

Definition _attempt_product_correction (product : ProductData.t) (index : nat)
           (errors : list string) : ProductData.t :=
  let relevant_errors :=
    List.filter (fun e => PyStr.contains (product_label index) e
                     && PyStr.contains "calculation mismatch" e) errors in
  let corrected_total :=
    match relevant_errors with
    | [] => None
    | _ =>
        if truthy (ProductData.quantity product)
           && truthy (ProductData.unit_price product) then
          match (let* quantity := parse_field (ProductData.quantity product) in
                 let* unit_price := parse_field (ProductData.unit_price product) in
                 match quantity, unit_price with
                 | Some q, Some u =>
                     if Dec.truth q && Dec.truth u
                     then let* total := Dec.mul q u in inr (Some (Dec.to_string total))
                     else inr None
                 | _, _ => inr None
                 end) with
          | inr r => r
          | inl _ => None
          end
        else None
    end in
  ProductData.Make
    (ProductData.product_code product)
    (ProductData.description product)
    (ProductData.customs_code product)
    (ProductData.unit_of_measure product)
    (ProductData.quantity product)
    (ProductData.unit_price product)
    (match corrected_total with
     | Some s => Some s
     | None => ProductData.total_price product
     end).

Definition _generate_corrections (products : list ProductData.t) (errors : list string)
  : ValidationResult.corrections :=
  let corrected :=
    fold_enumerate
      (fun acc i product => push acc (_attempt_product_correction product i errors))
      0 products [] in
  let notes :=
    ((if existsb (fun e => PyStr.contains "price calculation mismatch" (PyStr.lower e)) errors
     then ["Price calculation mismatches detected. Consider manual review of unit prices and totals."]
     else [])
    ++ (if existsb (fun e => PyStr.contains "not found in raw text" (PyStr.lower e)) errors
        then ["Some product codes not found in raw text. OCR quality may be poor on this page."]
        else []))%list in
  ValidationResult.Corrections corrected notes.

(** No call inside the [try] of [validate_page_data] raises: the
    helpers handle their own exceptions. *)
Definition validate_page_data (config : ProcessingConfig.t) (page_data : PageData.t)
  : ValidationResult.t :=
  if negb (ProcessingConfig.enable_ocr_validation config) then
    ValidationResult.Make (PageData.page_number page_data) true 0.8%float [] None
  else
    let pv := _validate_products_consistency (PageData.products page_data) in
    let tv := _cross_reference_with_text (PageData.products page_data)
                                         (PageData.raw_text page_data) in
    let validation_errors := (pv_errors pv ++ tv_errors tv)%list in
    let confidence_score := _calculate_confidence_score pv tv in
    let is_valid :=
      PyFloat.geb confidence_score (ProcessingConfig.ocr_confidence_threshold config)
      && Nat.eqb (length validation_errors) 0 in
    let corrected_data :=
      if negb is_valid
      then Some (_generate_corrections (PageData.products page_data) validation_errors)
      else None in
    ValidationResult.Make (PageData.page_number page_data) is_valid confidence_score
                          validation_errors corrected_data.

End OCRValidator.

(** ** extractors/table_extractor.py *)

Module TableExtractor.

Import OCRValidator (push, fold_enumerate).

(** *** Column mapping *)

(** [len(df.columns)] *)
Definition ncols (df : grid) : nat :=
  match df with
  | [] => 0
  | header :: _ => length header
  end.

(** [df.empty] *)
Definition empty (df : grid) : bool := Nat.eqb (length df) 0 || Nat.eqb (ncols df) 0.

Definition a_grave : ascii := ascii_of_nat 224.
Definition qta_fatt : string := String "q" (String "t" (String a_grave " fatt")).

(** The [if]/[elif] chain on one header text. *)
Definition header_role (header_text : string) : option string :=
  if PyStr.contains "prodotto" header_text then Some "product_code_raw"
  else if PyStr.contains "voce dog" header_text then Some "customs_code"
  else if String.eqb header_text "um" then Some "unit_measure"
  else if PyStr.contains qta_fatt header_text then Some "quantity"
  else if PyStr.contains "prezzo unitario" header_text then Some "unit_price"
  else if PyStr.contains "importo" header_text then Some "line_total"
  else None.

(** [col_map.setdefault(key, value)] *)
Definition setdefault (key : string) (value : option nat)
           (col_map : gmap string (option nat)) : gmap string (option nat) :=
  match col_map !! key with
  | Some _ => col_map
  | None => <[key := value]> col_map
  end.

Definition required_cols : list string :=
  ["product_code_raw"; "quantity"; "unit_price"; "line_total"].

(** [cols[i] if len(cols) > i else None] *)
Definition col_or_none (df : grid) (i : nat) : option nat :=
  if Nat.ltb i (ncols df) then Some i else None.

(** The mapping built from the header texts alone. *)
Definition header_mapping (df : grid) : gmap string (option nat) :=
  let header_row_text :=
    map (fun cell => PyStr.strip (PyStr.lower cell)) (hd [] df) in
  fold_enumerate
    (fun col_map i header_text =>
       match header_role header_text with
       | Some role => <[role := Some i]> col_map
       | None => col_map
       end)
    0 header_row_text ∅.

(** [_map_table_columns(df)] for a table that is not empty. *)
Definition _map_table_columns (df : grid) : gmap string (option nat) :=
  let col_map := header_mapping df in
  if negb (forallb (fun k => bool_decide (is_Some (col_map !! k))) required_cols) then
    let col_map := setdefault "product_code_raw" (Some 0) col_map in
    let col_map := setdefault "customs_code" (col_or_none df 2) col_map in
    let col_map := setdefault "unit_measure" (col_or_none df 3) col_map in
    let col_map := setdefault "quantity" (col_or_none df 4) col_map in
    let col_map := setdefault "unit_price" (col_or_none df 5) col_map in
    let col_map := setdefault "line_total" (col_or_none df 6) col_map in
    col_map
  else col_map.

(** [col in col_map and col_map[col] is not None] for every required column. *)
Definition _validate_required_columns (col_map : gmap string (option nat)) : bool :=
  forallb (fun col => match col_map !! col with
                      | Some (Some _) => true
                      | _ => false
                      end) required_cols.

Section RowExtraction.
(** The two row extractors, [_extract_products_structured] and
    [_extract_products_flexible]: what they read from the rows is
    left open here. *)
Variable _extract_products_structured
  : grid -> gmap string (option nat) -> list ProductData.t.
Variable _extract_products_flexible
  : grid -> gmap string (option nat) -> list ProductData.t.

Definition _extract_products_from_table (df : grid)
           (col_map : gmap string (option nat)) : list ProductData.t :=
  if Nat.ltb (length df) 2 then []
  else if _validate_required_columns col_map
       then _extract_products_structured df col_map
       else _extract_products_flexible df col_map.

(** The products of a page; no step of the loop writes to the page's
    error list. *)
Definition _process_tables_to_products (tables : list grid) : list ProductData.t :=
  fold_left
    (fun products df =>
       if empty df then products
       else (products ++ _extract_products_from_table df (_map_table_columns df))%list)
    tables [].

(** [page_data.products = self._process_tables_to_products(page_data.tables, page_number)] *)
Definition process_tables (page_data : PageData.t) : PageData.t :=
  PageData.Make (PageData.page_number page_data) (PageData.raw_text page_data)
                (PageData.tables page_data)
                (_process_tables_to_products (PageData.tables page_data))
                (PageData.delivery_info page_data) (PageData.all_deliveries page_data)
                (PageData.errors page_data).
End RowExtraction.

(** *** Product-delivery association *)

(** [f"{value}"] for an [Optional[str]]. *)
Definition fmt (o : option string) : string := default "None" o.

(** A text of ASCII letters and digits: taken as a regular expression it
    matches itself and nothing else. *)
Definition regex_literal (s : string) : bool :=
  forallb (fun c => PyStr.isdigit c || PyStr.isupper_ascii c || PyStr.islower_ascii c)
          (String.list_ascii_of_string s).

(** The series and the number of a delivery stand for themselves in a
    pattern. The segmenter's patterns, [[A-Z0-9]{8,10}] and [\d{3,5}],
    produce nothing else. *)
Definition literal_key (delivery : DeliveryData.t) : bool :=
  regex_literal (fmt (DeliveryData.ddt_series delivery))
  && regex_literal (fmt (DeliveryData.ddt_number delivery)).

(** [re.search(f"{series}\\s+{number}", page_text)] and
    [re.search(f"\\b{number}\\b", page_text)], for a delivery with a
    [literal_key]: the code puts the series and the number into the
    pattern as they are, so that any other character would be read as
    regular-expression syntax. The statements about these patterns assume
    [literal_key]. *)
Definition ddt_pattern (delivery : DeliveryData.t) : Re.t :=
  Re.Seq (Re.Str (fmt (DeliveryData.ddt_series delivery)))
         (Re.Seq (Re.Plus Re.space)
                 (Re.Str (fmt (DeliveryData.ddt_number delivery)))).
Definition number_pattern (delivery : DeliveryData.t) : Re.t :=
  Re.Seq Re.WordB (Re.Seq (Re.Str (fmt (DeliveryData.ddt_number delivery))) Re.WordB).

Definition delivery_position (page_text : string) (delivery : DeliveryData.t) : nat :=
  match Re.search (ddt_pattern delivery) page_text with
  | Some m => Re.start m
  | None =>
      match Re.search (number_pattern delivery) page_text with
      | Some m => Re.start m
      | None => 0
      end
  end.

Definition _find_delivery_positions_in_text (page_text : string)
           (deliveries : list DeliveryData.t) : list nat :=
  map (delivery_position page_text) deliveries.

(** [re.search(re.escape(code), page_text)]: the first place where the
    code stands; [re.escape(None)] raises TypeError. *)
Definition product_position (page_text : string) (product : ProductData.t) : exn + nat :=
  match ProductData.product_code product with
  | Some code =>
      match PyStr.find code page_text with
      | Some i => inr i
      | None => inr (String.length page_text)
      end
  | None => inl (TypeError "decoding to str: need a bytes-like object, NoneType found")
  end.

Fixpoint _find_product_positions_in_text (page_text : string)
         (products : list ProductData.t) : exn + list nat :=
  match products with
  | [] => inr []
  | product :: rest =>
      let* i := product_position page_text product in
      let* positions := _find_product_positions_in_text page_text rest in
      inr (i :: positions)
  end.

(** One turn of the loop of [_find_closest_preceding_delivery] on the
    pair (best_delivery, best_distance); the delivery is named by its
    index, and [None] is the distance [float('inf')]. *)
Definition closest_step (product_position : nat) (best : option nat * option nat)
           (i : nat) (delivery_pos : nat) : option nat * option nat :=
  if Nat.leb delivery_pos product_position then
    let distance := product_position - delivery_pos in
    match snd best with
    | Some best_distance =>
        if Nat.ltb distance best_distance then (Some i, Some distance) else best
    | None => (Some i, Some distance)
    end
  else best.

Definition _find_closest_preceding_delivery (product_position : nat)
           (delivery_positions : list nat) : option nat :=
  fst (fold_enumerate (closest_step product_position) 0 delivery_positions (None, None)).

(** [deliveries[i].products.append(product)] *)
Definition append_product (deliveries : list DeliveryData.t) (i : nat)
           (product : ProductData.t) : list DeliveryData.t :=
  match deliveries !! i with
  | Some d =>
      <[i := DeliveryData.set_products d (push (DeliveryData.products d) product)]> deliveries
  | None => deliveries
  end.

(** The loop over [zip(products, product_positions)]. *)
Definition associate_each (delivery_positions : list nat)
           (deliveries : list DeliveryData.t)
           (placed : list (ProductData.t * nat)) : list DeliveryData.t :=
  fold_left
    (fun ds '(product, product_pos) =>
       match _find_closest_preceding_delivery product_pos delivery_positions with
       | Some i => append_product ds i product
       | None => append_product ds 0 product
       end)
    placed deliveries.

Definition with_deliveries (page_data : PageData.t) (ds : list DeliveryData.t)
  : PageData.t :=
  PageData.Make (PageData.page_number page_data) (PageData.raw_text page_data)
                (PageData.tables page_data) (PageData.products page_data)
                (hd_error ds) ds (PageData.errors page_data).

(** [_associate_products_with_deliveries(page_data)], called on a page
    whose [delivery_info] is the first of [all_deliveries]. The result
    is the page after the call and the exception raised, if any. *)
Definition _associate_products_with_deliveries (page_data : PageData.t)
  : PageData.t * option exn :=
  let deliveries := PageData.all_deliveries page_data in
  let products := PageData.products page_data in
  match deliveries, products with
  | [], _ | _, [] => (page_data, None)
  | _, _ =>
      let cleared := map (fun d => DeliveryData.set_products d []) deliveries in
      match cleared with
      | [only] =>
          (with_deliveries page_data [DeliveryData.set_products only products], None)
      | _ =>
          let delivery_positions :=
            _find_delivery_positions_in_text (PageData.raw_text page_data) cleared in
          match _find_product_positions_in_text (PageData.raw_text page_data) products with
          | inl e => (with_deliveries page_data cleared, Some e)
          | inr product_positions =>
              (with_deliveries page_data
                 (associate_each delivery_positions cleared
                                 (combine products product_positions)), None)
          end
      end
  end.

End TableExtractor.

Module ExtractionResult.
Record t : Type := Make {
  success : bool;
  bill_data : option BillData.t;
  delivery_data : list DeliveryData.t;
  products : list ProductData.t;
  page_data : list PageData.t;
  validation_results : list ValidationResult.t;
  extraction_method : string;
  raw_text : gmap string string;
  validation_checksum_ok : bool;
  parsing_errors : list string;
  message : string
}.
End ExtractionResult.

(** ** extractors/response_compiler.py *)

Module ResponseCompiler.

Import OCRValidator (push, fold_enumerate).

(** *** Cross-page completion of delivery data *)

Definition upper_or_digit (c : ascii) : bool := PyStr.isupper_ascii c || PyStr.isdigit c.
Definition not_newline (c : ascii) : bool := negb (Ascii.eqb c "010").

(** [[A-Z0-9.]+] *)
Definition model_chars : Re.t :=
  Re.Plus (Re.Chr (fun c => upper_or_digit c || Ascii.eqb c ".")).

(** [r"([A-Z0-9.]+)\s*/\s*([A-Z0-9]{9})\s+(\d+)"],
    [r"([A-Z0-9.]+)\s+([A-Z0-9]{9})\s+(\d+)"],
    [r"([A-Z0-9.]+)\s*/\s*([A-Z0-9]+)\s+(\d+)"] *)
Definition model_order_patterns : list Re.t :=
  [ Re.Seq (Re.Grp 1 model_chars)
      (Re.Seq (Re.Star Re.space) (Re.Seq (Re.Lit "/") (Re.Seq (Re.Star Re.space)
        (Re.Seq (Re.Grp 2 (Re.Rep 9 (Re.Chr upper_or_digit)))
           (Re.Seq (Re.Plus Re.space) (Re.Grp 3 (Re.Plus Re.digit)))))));
    Re.Seq (Re.Grp 1 model_chars)
      (Re.Seq (Re.Plus Re.space)
        (Re.Seq (Re.Grp 2 (Re.Rep 9 (Re.Chr upper_or_digit)))
           (Re.Seq (Re.Plus Re.space) (Re.Grp 3 (Re.Plus Re.digit)))));
    Re.Seq (Re.Grp 1 model_chars)
      (Re.Seq (Re.Star Re.space) (Re.Seq (Re.Lit "/") (Re.Seq (Re.Star Re.space)
        (Re.Seq (Re.Grp 2 (Re.Plus (Re.Chr upper_or_digit)))
           (Re.Seq (Re.Plus Re.space) (Re.Grp 3 (Re.Plus Re.digit))))))) ].

(** [r"Tessuto:\s*([^\n]+)"] *)
Definition properties_pattern : Re.t :=
  Re.Seq (Re.Str "Tessuto:")
    (Re.Seq (Re.Star Re.space) (Re.Grp 1 (Re.Plus (Re.Chr not_newline)))).

(** [r"Tessuto:[^\n]+\n\s*([A-Z]+)\n\s*([A-Z]+)"] *)
Definition product_name_pattern : Re.t :=
  Re.Seq (Re.Str "Tessuto:")
    (Re.Seq (Re.Plus (Re.Chr not_newline))
      (Re.Seq (Re.Lit "010") (Re.Seq (Re.Star Re.space)
        (Re.Seq (Re.Grp 1 (Re.Plus (Re.Chr PyStr.isupper_ascii)))
          (Re.Seq (Re.Lit "010") (Re.Seq (Re.Star Re.space)
            (Re.Grp 2 (Re.Plus (Re.Chr PyStr.isupper_ascii))))))))).

(** The first pattern of the list that matches, with its match. *)
Fixpoint first_match (patterns : list Re.t) (s : string) : option Re.found :=
  match patterns with
  | [] => None
  | r :: rest =>
      match Re.search r s with
      | Some m => Some m
      | None => first_match rest s
      end
  end.

(** The dict [completion_data]: its keys and their values. *)
Definition completion : Type := gmap string string.

Definition _extract_delivery_completion (incomplete_delivery : DeliveryData.t)
           (page_text : string) : option completion :=
  if PyStr.is_empty page_text then None
  else
    let search_text := PyStr.take 1000 page_text in
    let data : completion := ∅ in
    let data :=
      match first_match model_order_patterns search_text with
      | Some m =>
          <["order_number" := PyStr.strip (Re.group search_text m 3)]>
            (<["order_series" := PyStr.strip (Re.group search_text m 2)]>
               (<["model_number" := PyStr.strip (Re.group search_text m 1)]> data))
      | None => data
      end in
    let data :=
      match Re.search properties_pattern search_text with
      | Some m => <["product_properties" := PyStr.strip (Re.group search_text m 1)]> data
      | None => data
      end in
    let data :=
      match Re.search product_name_pattern search_text with
      | Some m =>
          <["model_name" := PyStr.strip (Re.group search_text m 2)]>
            (<["product_name" := PyStr.strip (Re.group search_text m 1)]> data)
      | None => data
      end in
    if bool_decide (data = ∅) then None else Some data.

(** [if completion_data.get(key): ... = completion_data[key]] *)
Definition filled (data : completion) (key : string) (current : option string)
  : option string :=
  if truthy (data !! key) then data !! key else current.

Definition apply_completion (d : DeliveryData.t) (data : completion) : DeliveryData.t :=
  DeliveryData.Make
    (DeliveryData.ddt_series d) (DeliveryData.ddt_number d)
    (DeliveryData.ddt_date d) (DeliveryData.ddt_reason d)
    (filled data "model_number" (DeliveryData.model_number d))
    (filled data "model_name" (DeliveryData.model_name d))
    (filled data "order_series" (DeliveryData.order_series d))
    (filled data "order_number" (DeliveryData.order_number d))
    (filled data "product_name" (DeliveryData.product_name d))
    (filled data "product_properties" (DeliveryData.product_properties d))
    (DeliveryData.products d).

(** [delivery.ddt_series and delivery.ddt_number and
    (not delivery.model_number or not delivery.product_name)] *)
Definition is_incomplete (d : DeliveryData.t) : bool :=
  truthy (DeliveryData.ddt_series d) && truthy (DeliveryData.ddt_number d)
  && (negb (truthy (DeliveryData.model_number d))
      || negb (truthy (DeliveryData.product_name d))).

#[global] Instance ProductData_eq_dec : EqDecision ProductData.t.
Proof. solve_decision. Defined.
#[global] Instance DeliveryData_eq_dec : EqDecision DeliveryData.t.
Proof. solve_decision. Defined.

(** A delivery object in the list [deliveries]: its current value, and
    where it lives when it is an element of a page's [all_deliveries]
    (page index, index in the list). The objects of the pages are distinct
    and share no product list, as [extract_page_data] builds them. *)
Record entry : Type := Entry {
  origin : option (nat * nat);
  value : DeliveryData.t
}.

(** The current values of the objects of every page's [all_deliveries]. *)
Definition store : Type := list (list DeliveryData.t).

(** [incomplete_delivery in page_data.all_deliveries]: the same object, or
    an equal one. *)
Definition on_page (e : entry) (page_index : nat) (current : list DeliveryData.t) : bool :=
  fold_enumerate
    (fun acc k d =>
       acc || bool_decide (origin e = Some (page_index, k))
       || bool_decide (d = value e))
    0 current false.

(** The page number of the first page that holds the delivery. *)
Fixpoint find_source_page (e : entry) (page_index : nat) (pages : list PageData.t)
         (st : store) : option nat :=
  match pages with
  | [] => None
  | page :: rest =>
      if on_page e page_index (default [] (st !! page_index))
      then Some (PageData.page_number page)
      else find_source_page e (S page_index) rest st
  end.

(** The loop over the pages after the source page: the first completion
    found on a page numbered source_page + 1 or source_page + 2, the
    search ending at the first page numbered beyond. *)
Fixpoint search_completion (d : DeliveryData.t) (source_page : nat)
         (pages : list PageData.t) : option completion :=
  match pages with
  | [] => None
  | page :: rest =>
      if Nat.leb (PageData.page_number page) source_page
      then search_completion d source_page rest
      else if Nat.ltb (source_page + 2) (PageData.page_number page) then None
      else match _extract_delivery_completion d (PageData.raw_text page) with
           | Some data => Some data
           | None => search_completion d source_page rest
           end
  end.

(** The object written back to the page it lives on. *)
Definition write_back (st : store) (e : entry) : store :=
  match origin e with
  | Some (i, k) =>
      match st !! i with
      | Some current => <[i := <[k := value e]> current]> st
      | None => st
      end
  | None => st
  end.

(** One turn of the loop over [incomplete_deliveries], on the pair
    (values of the pages' objects, complete_deliveries). *)
Definition complete_one (pages : list PageData.t) (acc : store * list entry)
           (e : entry) : store * list entry :=
  let (st, complete_deliveries) := acc in
  match find_source_page e 0 pages st with
  | None => (st, push complete_deliveries e)
  | Some source_page =>
      match search_completion (value e) source_page pages with
      | Some data =>
          let e' := Entry (origin e) (apply_completion (value e) data) in
          (write_back st e', push complete_deliveries e')
      | None => (st, push complete_deliveries e)
      end
  end.

Definition _merge_cross_page_deliveries (deliveries : list entry)
           (pages : list PageData.t) : list entry :=
  let incomplete_deliveries := List.filter (fun e => is_incomplete (value e)) deliveries in
  let complete_deliveries :=
    List.filter (fun e => negb (is_incomplete (value e))) deliveries in
  snd (fold_left (complete_one pages) incomplete_deliveries
                 (map PageData.all_deliveries pages, complete_deliveries)).

(** *** Collection and deduplication *)

(** The deliveries that one page contributes. In the fallback the page's
    product list becomes the delivery's. *)
Definition page_deliveries (page_index : nat) (page : PageData.t) : list entry :=
  match PageData.all_deliveries page, PageData.delivery_info page with
  | [], Some info =>
      [Entry None (DeliveryData.set_products info (PageData.products page))]
  | all, _ =>
      fold_enumerate (fun acc k d => push acc (Entry (Some (page_index, k)) d)) 0 all []
  end.

Definition collect_deliveries (pages : list PageData.t) : list entry :=
  let deliveries :=
    fold_enumerate (fun acc i page => (acc ++ page_deliveries i page)%list) 0 pages [] in
  match deliveries with
  | [] =>
      [Entry None (DeliveryData.set_products DeliveryData.new
                     (flat_map PageData.products pages))]
  | _ => deliveries
  end.

(** [f"{delivery.ddt_series}_{delivery.ddt_number}"] *)
Definition ddt_key (d : DeliveryData.t) : string :=
  TableExtractor.fmt (DeliveryData.ddt_series d) ++ "_"
  ++ TableExtractor.fmt (DeliveryData.ddt_number d).

(** [existing_delivery.products.extend(delivery.products)] on the element
    [i] of [unique_deliveries]. *)
Definition extend_products (unique_deliveries : list DeliveryData.t) (i : nat)
           (more : list ProductData.t) : list DeliveryData.t :=
  match unique_deliveries !! i with
  | Some existing =>
      <[i := DeliveryData.set_products existing
               (DeliveryData.products existing ++ more)%list]> unique_deliveries
  | None => unique_deliveries
  end.

(** One turn of the deduplication, on the pair (unique_deliveries,
    seen_ddts); [seen_ddts] names a delivery by its index in
    [unique_deliveries]. *)
Definition dedup_step (acc : list DeliveryData.t * gmap string nat)
           (delivery : DeliveryData.t) : list DeliveryData.t * gmap string nat :=
  let (unique_deliveries, seen_ddts) := acc in
  match seen_ddts !! ddt_key delivery with
  | None =>
      (push unique_deliveries delivery,
       <[ddt_key delivery := length unique_deliveries]> seen_ddts)
  | Some i =>
      (extend_products unique_deliveries i (DeliveryData.products delivery), seen_ddts)
  end.

Definition deduplicate (deliveries : list DeliveryData.t) : list DeliveryData.t :=
  fst (fold_left dedup_step deliveries ([], ∅)).

Definition _compile_delivery_data (pages : list PageData.t) : list DeliveryData.t :=
  deduplicate (map value (_merge_cross_page_deliveries (collect_deliveries pages) pages)).

(** *** Products and raw text *)

Definition _compile_products (pages : list PageData.t)
           (validation_results : list ValidationResult.t) : list ProductData.t :=
  fold_enumerate
    (fun all_products i page =>
       match validation_results !! i with
       | Some validation_result =>
           match ValidationResult.is_valid validation_result,
                 ValidationResult.corrected_data validation_result with
           | false, Some corrected =>
               (all_products ++ ValidationResult.corrected_products corrected)%list
           | _, _ => (all_products ++ PageData.products page)%list
           end
       | None => (all_products ++ PageData.products page)%list
       end)
    0 pages [].

Definition _compile_raw_text (pages : list PageData.t) : gmap string string :=
  fold_left
    (fun raw_text page =>
       <["page" ++ PyStr.of_nat (PageData.page_number page + 1)
         := PyStr.take 5000 (PageData.raw_text page)]> raw_text)
    pages ∅.

(** *** Final validations *)

(** The loop that sums the totals, from [calculated_total]. *)
Fixpoint sum_totals (products : list ProductData.t) (calculated_total : Dec.t)
  : exn + Dec.t :=
  match products with
  | [] => inr calculated_total
  | product :: rest =>
      if truthy (ProductData.total_price product) then
        let* product_total := parse_field (ProductData.total_price product) in
        match product_total with
        | Some d =>
            if Dec.truth d
            then let* total := Dec.add calculated_total d in sum_totals rest total
            else sum_totals rest calculated_total
        | None => sum_totals rest calculated_total
        end
      else sum_totals rest calculated_total
  end.

Definition checksum_tolerance : Dec.t := Dec.Fin false 1 (-2).   (* Decimal('0.01') *)
Definition zero_total : Dec.t := Dec.Fin false 0 (-1).           (* Decimal('0.0') *)

Definition checksum_mismatch (stated_total calculated_total difference : Dec.t)
  : string :=
  "Checksum Mismatch: Stated Grand Total " ++ Dec.to_string stated_total
  ++ ", Calculated Sum " ++ Dec.to_string calculated_total
  ++ ", Difference: " ++ Dec.to_string difference.

(** The body of the [try] of [_perform_final_validations]: the new value
    of the flag and the message appended, if any. *)
Definition checksum (products : list ProductData.t) (bill_data : option BillData.t)
  : exn + (bool * option string) :=
  let* calculated_total := sum_totals products zero_total in
  match bill_data with
  | Some bill =>
      if truthy (BillData.total_amount bill) then
        let* stated := parse_field (BillData.total_amount bill) in
        match stated with
        | Some stated_total =>
            if Dec.truth stated_total then
              let* delta := Dec.sub stated_total calculated_total in
              let* difference := Dec.abs delta in
              let* within := Dec.le difference checksum_tolerance in
              if within then inr (true, None)
              else inr (false,
                        Some (checksum_mismatch stated_total calculated_total difference))
            else inr (false, Some "Could not parse stated total amount for checksum validation")
        | None =>
            inr (false, Some "Could not parse stated total amount for checksum validation")
        end
      else inr (false, Some "No total amount found for checksum validation")
  | None => inr (false, Some "No total amount found for checksum validation")
  end.

Definition with_validation (result : ExtractionResult.t) (checksum_ok : bool)
           (errors : list string) : ExtractionResult.t :=
  ExtractionResult.Make
    (ExtractionResult.success result) (ExtractionResult.bill_data result)
    (ExtractionResult.delivery_data result) (ExtractionResult.products result)
    (ExtractionResult.page_data result) (ExtractionResult.validation_results result)
    (ExtractionResult.extraction_method result) (ExtractionResult.raw_text result)
    checksum_ok errors (ExtractionResult.message result).

Definition _perform_final_validations (config : ProcessingConfig.t)
           (result : ExtractionResult.t) : ExtractionResult.t :=
  if negb (ProcessingConfig.validate_checksums config) then result
  else
    match checksum (ExtractionResult.products result) (ExtractionResult.bill_data result) with
    | inr (true, _) =>
        with_validation result true (ExtractionResult.parsing_errors result)
    | inr (false, Some error_msg) =>
        with_validation result (ExtractionResult.validation_checksum_ok result)
                        (push (ExtractionResult.parsing_errors result) error_msg)
    | inr (false, None) => result
    | inl e =>
        with_validation result (ExtractionResult.validation_checksum_ok result)
                        (push (ExtractionResult.parsing_errors result)
                              ("Error during checksum validation: " ++ exn_str e))
    end.

(** *** Footer information *)

Fixpoint seqs (l : list Re.t) : Re.t :=
  match l with
  | [] => Re.Eps
  | r :: rest => Re.Seq r (seqs rest)
  end.

Definition ws : Re.t := Re.Star Re.space.

(** [([\d\.,]+)] and [(\d+)] *)
Definition amount : Re.t :=
  Re.Grp 1 (Re.Plus (Re.Chr (fun c => PyStr.isdigit c || Ascii.eqb c "." || Ascii.eqb c ","))).
Definition digits : Re.t := Re.Grp 1 (Re.Plus Re.digit).

(** The patterns below are searched with [re.IGNORECASE]:
    [r"Tot\s*importo:\s*\(\s*EUR\s*\)\s*([\d\.,]+)"],
    [r"Tot(?:ale)?\s*importo:\s*\(\s*EUR\s*\)\s*([\d\.,]+)"],
    [r"Tot(?:ale)?\s*importo:\s*([\d\.,]+)"],
    [r"Totale:\s*([\d\.,]+)"], [r"TOTALE:\s*([\d\.,]+)"]. *)
Definition total_patterns : list Re.t :=
  [ seqs [Re.StrI "Tot"; ws; Re.StrI "importo:"; ws; Re.Lit "("; ws; Re.StrI "EUR"; ws;
          Re.Lit ")"; ws; amount];
    seqs [Re.StrI "Tot"; Re.Opt (Re.StrI "ale"); ws; Re.StrI "importo:"; ws; Re.Lit "(";
          ws; Re.StrI "EUR"; ws; Re.Lit ")"; ws; amount];
    seqs [Re.StrI "Tot"; Re.Opt (Re.StrI "ale"); ws; Re.StrI "importo:"; ws; amount];
    seqs [Re.StrI "Totale:"; ws; amount];
    seqs [Re.StrI "TOTALE:"; ws; amount] ].

(** [Porto:], white space, then the rest of the line as group 1; this one
    is searched as it is, with no flag. *)
Definition shipping_pattern : Re.t :=
  seqs [Re.Str "Porto:"; ws; Re.Grp 1 (Re.Star (Re.Chr not_newline))].

(** [r"Numero colli:\s*(\d+)"], [r"N\.\s*colli:\s*(\d+)"], [r"Colli:\s*(\d+)"] *)
Definition package_patterns : list Re.t :=
  [ seqs [Re.StrI "Numero colli:"; ws; digits];
    seqs [Re.StrI "N."; ws; Re.StrI "colli:"; ws; digits];
    seqs [Re.StrI "Colli:"; ws; digits] ].

(** [r"Peso <kind> \( KG \):\s*([\d\.,]+)"],
    [r"Peso\s*<kind>\s*\(\s*KG\s*\):\s*([\d\.,]+)"],
    [r"Peso\s*<kind>:\s*([\d\.,]+)"] for <kind> netto and lordo. *)
Definition weight_patterns (kind : string) : list Re.t :=
  [ seqs [Re.StrI "Peso "; Re.StrI kind; Re.StrI " ( KG ):"; ws; amount];
    seqs [Re.StrI "Peso"; ws; Re.StrI kind; ws; Re.Lit "("; ws; Re.StrI "KG"; ws;
          Re.Lit ")"; Re.Lit ":"; ws; amount];
    seqs [Re.StrI "Peso"; ws; Re.StrI kind; Re.Lit ":"; ws; amount] ].

(** The loop over the patterns of a decimal field: the text of the first
    match that parses to a value that is not zero. [parse_italian_decimal]
    raises nothing on a string. *)
Fixpoint first_amount (patterns : list Re.t) (footer_text : string) : option string :=
  match patterns with
  | [] => None
  | r :: rest =>
      match Re.search r footer_text with
      | Some m =>
          match parse_italian_decimal (VStr (Re.group footer_text m 1)) with
          | inr (Some d) =>
              if Dec.truth d then Some (Dec.to_string d)
              else first_amount rest footer_text
          | _ => first_amount rest footer_text
          end
      | None => first_amount rest footer_text
      end
  end.

(** The loop over [package_patterns]: [int(match.group(1))] of the first
    match, for digit strings within the interpreter's conversion limit. *)
Definition first_count (footer_text : string) : option Z :=
  match first_match package_patterns footer_text with
  | Some m => Some (Z.of_N (Dec.digits_val 0 (Re.group footer_text m 1)))
  | None => None
  end.

Definition or_found (current found : option string) : option string :=
  if truthy current then current
  else match found with Some s => Some s | None => current end.

(** What one page with text adds to the bill. *)
Definition footer_of_page (bill : BillData.t) (footer_text : string) : BillData.t :=
  BillData.Make
    (BillData.bill_number bill) (BillData.bill_date bill) (BillData.currency bill)
    (BillData.customer_code bill) (BillData.customer_name bill)
    (BillData.customer_address bill) (BillData.customer_vat_id bill)
    (or_found (BillData.gross_weight_kg bill)
              (first_amount (weight_patterns "lordo") footer_text))
    (or_found (BillData.net_weight_kg bill)
              (first_amount (weight_patterns "netto") footer_text))
    (match BillData.package_count bill with
     | Some n => if (n =? 0)%Z
                 then match first_count footer_text with
                      | Some k => Some k
                      | None => Some n
                      end
                 else Some n
     | None => first_count footer_text
     end)
    (or_found (BillData.shipping_term bill)
              (match Re.search shipping_pattern footer_text with
               | Some m => Some (PyStr.strip (Re.group footer_text m 1))
               | None => None
               end))
    (or_found (BillData.total_amount bill) (first_amount total_patterns footer_text)).

(** [page_data_list[-2:]] reversed. *)
Definition pages_to_search (pages : list PageData.t) : list PageData.t :=
  rev (skipn (length pages - 2) pages).

(** [_extract_footer_information]: the new [bill_data]; the first page
    with text raises AttributeError when there is no bill. *)
Definition _extract_footer_information (bill_data : option BillData.t)
           (pages : list PageData.t) : exn + option BillData.t :=
  fold_left
    (fun acc page =>
       let* bill_data := acc in
       if PyStr.is_empty (PageData.raw_text page) then inr bill_data
       else match bill_data with
            | Some bill => inr (Some (footer_of_page bill (PageData.raw_text page)))
            | None => inl (AttributeError "'NoneType' object has no attribute 'total_amount'")
            end)
    (pages_to_search pages) (inr bill_data).

(** *** The final result *)

Definition _generate_final_message (result : ExtractionResult.t) : string :=
  if negb (ExtractionResult.success result) then
    "Invoice parsing failed with errors. Check parsing_errors field for details."
  else if negb (Nat.eqb (length (ExtractionResult.parsing_errors result)) 0) then
    "Invoice parsing completed with warnings. Check parsing_errors field for details."
  else if negb (ExtractionResult.validation_checksum_ok result) then
    "Invoice parsing completed but checksum validation failed."
  else
    let failed_validations :=
      List.filter (fun v => negb (ValidationResult.is_valid v))
                  (ExtractionResult.validation_results result) in
    match failed_validations with
    | [] => "Invoice parsing completed successfully."
    | _ => "Invoice parsing completed but "
           ++ PyStr.of_nat (length failed_validations)
           ++ " pages failed OCR validation."
    end.

Definition finish (result : ExtractionResult.t) (bill_data : option BillData.t)
           (success : bool) (errors : list string) (message : string)
  : ExtractionResult.t :=
  ExtractionResult.Make
    success bill_data
    (ExtractionResult.delivery_data result) (ExtractionResult.products result)
    (ExtractionResult.page_data result) (ExtractionResult.validation_results result)
    (ExtractionResult.extraction_method result) (ExtractionResult.raw_text result)
    (ExtractionResult.validation_checksum_ok result) errors message.

(** The result when [_perform_final_validations] is called. *)
Definition compiled (bill_data : option BillData.t) (page_data_list : list PageData.t)
           (validation_results : list ValidationResult.t) : ExtractionResult.t :=
  ExtractionResult.Make
    true bill_data
    (_compile_delivery_data page_data_list)
    (_compile_products page_data_list validation_results)
    page_data_list validation_results "camelot+pdfminer"
    (_compile_raw_text page_data_list) false [] "".

(** [compile_final_result] on pages as [extract_page_data] builds them:
    [delivery_info] is the first of [all_deliveries], so that no delivery
    shares its product list with a page. The field [page_data] of the model
    holds the pages handed in; what the compilation writes into their
    delivery objects shows in [delivery_data]. *)
Definition compile_final_result (config : ProcessingConfig.t)
           (bill_data : option BillData.t) (page_data_list : list PageData.t)
           (validation_results : list ValidationResult.t) : ExtractionResult.t :=
  let result := compiled bill_data page_data_list validation_results in
  let result := _perform_final_validations config result in
  match _extract_footer_information bill_data page_data_list with
  | inr bill_data' =>
      let success := Nat.eqb (length (ExtractionResult.parsing_errors result)) 0 in
      let result :=
        finish result bill_data' success (ExtractionResult.parsing_errors result) "" in
      finish result bill_data' success (ExtractionResult.parsing_errors result)
             (_generate_final_message result)
  | inl e =>
      finish result bill_data false
             (push (ExtractionResult.parsing_errors result)
                   ("Error compiling final result: " ++ exn_str e))
             "Compilation failed with errors"
  end.

End ResponseCompiler.

From Stdlib Require DecimalN.

(** ** [str.upper] *)

Module PyCase.

(** The code points of [c.upper()]: three characters of the range 0..255
    have an upper case outside it. *)
Definition upper_points (c : ascii) : list N :=
  let n := PyStr.code c in
  if PyStr.islower_ascii c then [(n - 32)%N]
  else if (n =? 181)%N then [924%N]
  else if (n =? 223)%N then [83%N; 83%N]
  else if (n =? 255)%N then [376%N]
  else if ((224 <=? n) && (n <=? 254) && negb (n =? 247))%N then [(n - 32)%N]
  else [n].

(** [s.upper()] as code points. *)
Definition upper (s : string) : list N :=
  flat_map upper_points (String.list_ascii_of_string s).

(** The code points of a string. *)
Definition points (s : string) : list N :=
  map PyStr.code (String.list_ascii_of_string s).

(** [s.upper() == w] *)
Definition upper_is (s w : string) : bool := bool_decide (upper s = points w).

End PyCase.

(** ** utils/helpers.py, the string helpers *)

Module Helpers.

(** [clean_string_field(value)] for a [str] or [None]. *)
Definition clean_string_field (value : option string) : option string :=
  match value with
  | None => None
  | Some v =>
      if PyStr.is_empty v then None
      else
        let cleaned := PyStr.strip v in
        if PyStr.is_empty cleaned || String.eqb (PyStr.lower cleaned) "nan"
        then None
        else Some cleaned
  end.

End Helpers.

(** ** extractors/table_extractor.py, the rows of a table *)

Module TableRows.

Import OCRValidator (push).

(** [_parse_numeric_field(value)] for a [str] or [None]. *)
Definition _parse_numeric_field (value : option string) : exn + option string :=
  match value with
  | None => inr None
  | Some v =>
      let* parsed := parse_italian_decimal (VStr v) in
      inr (option_map Dec.to_string parsed)
  end.

(** A parsed field inside [try: ... except Exception: return None]. *)
Definition caught {A : Type} (r : exn + A) : option A :=
  match r with inr a => Some a | inl _ => None end.

(** [row_data[label]]: KeyError, here [None], when the label is [None] or
    no column of the row. *)
Definition item (row_data : list string) (label : option nat) : option string :=
  match label with
  | Some i => row_data !! i
  | None => None
  end.

(** [row_data.get(label, default)] *)
Definition get {A : Type} (inject : string -> A) (row_data : list string)
           (label : option nat) (default : A) : A :=
  match item row_data label with
  | Some v => inject v
  | None => default
  end.

(** [s and s.lower() != 'nan'] *)
Definition meaningful (s : string) : bool :=
  PyStr.nonempty s && negb (String.eqb (PyStr.lower s) "nan").

(** [_build_product_description]: the text of the column after the
    product code, then the further lines of the product-code cell. *)
Definition _build_product_description (df : grid) (row_data : list string)
           (col_map : gmap string (option nat)) (product_lines : list string)
  : option string :=
  let from_column :=
    match col_map !! "product_code_raw" with
    | Some (Some product_col_index) =>
        if Nat.ltb product_col_index (TableExtractor.ncols df)
           && Nat.ltb (product_col_index + 1) (TableExtractor.ncols df) then
          match row_data !! (product_col_index + 1) with
          | Some v =>
              let description_col_val := PyStr.strip v in
              if meaningful description_col_val then [description_col_val] else []
          | None => []
          end
        else []
    | _ => []
    end in
  let description_parts :=
    (from_column
     ++ List.filter meaningful (map PyStr.strip (tl product_lines)))%list in
  match description_parts with
  | [] => None
  | _ => Some (PyStr.join " | " (List.filter PyStr.nonempty description_parts))
  end.

(** [_extract_product_from_row]: [None] for a row that is skipped and for
    an exception, which the function catches. *)
Definition _extract_product_from_row (df : grid) (row_index : nat)
           (col_map : gmap string (option nat)) : option ProductData.t :=
  match df !! row_index with
  | None => None
  | Some row_data =>
      match col_map !! "product_code_raw" with
      | None => None
      | Some code_label =>
          match item row_data code_label with
          | None => None
          | Some code_cell =>
              let product_code_raw_val := PyStr.strip code_cell in
              let product_lines := PyStr.split_char "010" product_code_raw_val in
              let actual_product_code := PyStr.strip (hd EmptyString product_lines) in
              if PyStr.is_empty actual_product_code
                 || PyStr.startswith "total" (PyStr.lower actual_product_code)
              then None
              else
                match col_map !! "line_total" with
                | None => None
                | Some total_label =>
                    let line_total_val_str :=
                      PyStr.strip (get id row_data total_label EmptyString) in
                    if negb (meaningful line_total_val_str) then None
                    else
                      let description :=
                        _build_product_description df row_data col_map product_lines in
                      let customs_code :=
                        Helpers.clean_string_field
                          (Some (get id row_data
                                     (default None (col_map !! "customs_code"))
                                     EmptyString)) in
                      let unit_of_measure :=
                        Helpers.clean_string_field
                          (Some (get id row_data
                                     (default None (col_map !! "unit_measure"))
                                     EmptyString)) in
                      match col_map !! "quantity" with
                      | None => None
                      | Some quantity_label =>
                          match caught (_parse_numeric_field
                                          (get Some row_data quantity_label None)) with
                          | None => None
                          | Some quantity =>
                              match col_map !! "unit_price" with
                              | None => None
                              | Some price_label =>
                                  match caught (_parse_numeric_field
                                                  (get Some row_data price_label None)),
                                        caught (_parse_numeric_field
                                                  (Some line_total_val_str)) with
                                  | Some unit_price, Some total_price =>
                                      Some (ProductData.Make
                                              (Some actual_product_code) description
                                              customs_code unit_of_measure
                                              quantity unit_price total_price)
                                  | _, _ => None
                                  end
                              end
                          end
                      end
                end
          end
      end
  end.

(** [_extract_products_structured]: the rows after the header row. *)
Definition _extract_products_structured (df : grid)
           (col_map : gmap string (option nat)) : list ProductData.t :=
  fold_left
    (fun products row_index =>
       match _extract_product_from_row df row_index col_map with
       | Some product => push products product
       | None => products
       end)
    (seq 1 (length df - 1)) [].

(** *** Units of measure *)

Definition standard_units : list string := ["MT"; "KG"; "PZ"; "NR"; "KM"].

(** The first loop of [_clean_unit_of_measure]: the first line that is a
    standard unit once stripped and in upper case. *)
Fixpoint first_standard (lines : list string) : option string :=
  match lines with
  | [] => None
  | line :: rest =>
      match List.find (PyCase.upper_is (PyStr.strip line)) standard_units with
      | Some unit => Some unit
      | None => first_standard rest
      end
  end.

(** The second loop: the first ten characters of the first line that is
    not blank and not [nan]. *)
Fixpoint first_text (lines : list string) : option string :=
  match lines with
  | [] => None
  | line :: rest =>
      let line := PyStr.strip line in
      if PyStr.nonempty line && negb (PyCase.upper_is line "NAN")
      then Some (PyStr.take 10 line)
      else first_text rest
  end.

(** [_clean_unit_of_measure(unit_str)] for a [str] or [None]. *)
Definition _clean_unit_of_measure (unit_str : option string) : option string :=
  match unit_str with
  | None => None
  | Some u =>
      if PyStr.is_empty u then None
      else
        let lines := PyStr.split_char "010" u in
        match first_standard lines with
        | Some unit => Some unit
        | None => first_text lines
        end
  end.

End TableRows.

(** ** extractors/coordinate_table_extractor.py, headers and rows *)

Module HeaderColumns.

Import OCRValidator (fold_enumerate).

(** [self.header_mappings], in the order of the dict. *)
Definition header_mappings : list (string * string) :=
  [ ("Prodotto/Var/Tg", "product_code");
    ("Voce dog", "voce_dog");
    ("UM", "unit_of_measure");
    (String "Q" (String "t" (String TableExtractor.a_grave " fatt")), "quantity");
    ("Prezzo unitario", "unit_price");
    ("Importo", "total_price") ].

(** The column name of the first expected header that holds the header
    text or is held by it. *)
Definition matched_column (header_text : string) : option string :=
  option_map snd
    (List.find (fun entry => PyStr.contains (fst entry) header_text
                             || PyStr.contains header_text (fst entry))
               header_mappings).

(** [not header_row[idx] or not header_row[idx].strip()] *)
Definition blank (header : option string) : bool :=
  match header with
  | Some h => PyStr.is_empty h || PyStr.is_empty (PyStr.strip h)
  | None => true
  end.

(** The loop over the headers. *)
Definition mapped_headers (header_row : list (option string)) : gmap string nat :=
  fold_enumerate
    (fun column_mapping idx header =>
       match header with
       | Some h =>
           if PyStr.nonempty h then
             match matched_column (PyStr.strip h) with
             | Some column_name => <[column_name := idx]> column_mapping
             | None => column_mapping
             end
           else column_mapping
       | None => column_mapping
       end)
    0 header_row ∅.

(** [_map_headers_to_columns(header_row)] for a list of [str] or [None]. *)
Definition _map_headers_to_columns (header_row : list (option string))
  : gmap string nat :=
  let column_mapping := mapped_headers header_row in
  if bool_decide (column_mapping !! "product_code" = Some 0) then
    match List.find (fun idx => blank (default None (header_row !! idx)))
                    (seq 1 (Nat.min 4 (length header_row) - 1)) with
    | Some idx => <["description" := idx]> column_mapping
    | None => column_mapping
    end
  else column_mapping.

(** [_process_table_row(row, column_mapping)] for a row of [str] or [None]. *)
Definition _process_table_row (row : list (option string))
           (column_mapping : gmap string nat) : gmap string string :=
  (fun idx =>
     match row !! idx with
     | Some (Some v) => if PyStr.nonempty v then PyStr.strip v else EmptyString
     | _ => EmptyString
     end) <$> column_mapping.

End HeaderColumns.

(** * Properties *)

Local Open Scope list_scope.

(** ** Localized decimal parsing *)

Lemma of_string_raises_only_invalid (s : string) (e : exn) :
  Dec.of_string s = inl e -> e = InvalidOperation.
Proof.
  unfold Dec.of_string.
  destruct (Dec.split_sign _) as [sg body].
  destruct (Dec.parse_body sg body); congruence.
Qed.

(** The value handed back to the parser: [None] or the [Decimal]. *)
Definition returned (r : option Dec.t) : pyval :=
  match r with
  | Some d => VDecimal d
  | None => VNone
  end.

Lemma parse_string_returns (s : string) :
  exists r, parse_italian_decimal (VStr s) = inr r
            /\ parse_italian_decimal (returned r) = inr r.
Proof.
  unfold parse_italian_decimal.
  destruct (PyStr.is_empty (PyStr.strip s)).
  - exists None. split; reflexivity.
  - destruct (Dec.of_string (standardize (PyStr.strip s))) as [e | d] eqn:E1.
    + apply of_string_raises_only_invalid in E1. subst e.
      destruct (Re.search numeric_part_re (PyStr.strip s)) as [m |].
      * destruct (Dec.of_string _) as [e | d] eqn:E2.
        -- apply of_string_raises_only_invalid in E2. subst e.
           exists None. split; reflexivity.
        -- exists (Some d). split; reflexivity.
      * exists None. split; reflexivity.
    + exists (Some d). split; reflexivity.
Qed.

Lemma parse_field_returns (field : option string) :
  exists r, parse_field field = inr r.
Proof.
  destruct field as [s |]; [| by exists None].
  destruct (parse_string_returns s) as (r & Hr & _). by exists r.
Qed.

(** C8. Localized decimal parsing: on every string the parser returns (a
    decimal or None) without raising, and parsing what it returned gives the
    same value again; "126,911" is 126.911, "1.234,56" is 1234.56, the empty
    string and text without a number are None, and a decimal or an already
    canonical string is returned as the same decimal. *)
Theorem parse_italian_decimal_contract :
  (forall s : string,
      exists r, parse_italian_decimal (VStr s) = inr r
                /\ parse_italian_decimal (returned r) = inr r)
  /\ parse_italian_decimal (VStr "126,911") = inr (Some (Dec.Fin false 126911 (-3)))
  /\ parse_italian_decimal (VStr "1.234,56") = inr (Some (Dec.Fin false 123456 (-2)))
  /\ parse_italian_decimal (VStr "") = inr None
  /\ parse_italian_decimal (VStr "   ") = inr None
  /\ parse_italian_decimal (VStr "n/a") = inr None
  /\ parse_italian_decimal (VStr "1.2.3,,") = inr (Some (Dec.Fin false 12 (-1)))
  /\ (forall d : Dec.t, parse_italian_decimal (VDecimal d) = inr (Some d))
  /\ parse_italian_decimal (VStr "1234.56") = inr (Some (Dec.Fin false 123456 (-2)))
  /\ parse_italian_decimal (VStr (Dec.to_string (Dec.Fin false 126911 (-3))))
     = inr (Some (Dec.Fin false 126911 (-3))).
Proof.
  split.
  - exact parse_string_returns.
  - repeat split; try (vm_compute; reflexivity).
Qed.

(** ** Row reconciliation *)

Section RowReconciliation.
Import CoordinateTableExtractor.

Lemma pull_get (key k : string) (prev_row row : raw_row) :
  get (pull key prev_row row) k =
    if decide (k = key)
    then (if negb (truthy (get row k)) && truthy (get prev_row k)
          then get prev_row k else get row k)
    else get row k.
Proof.
  unfold pull. destruct (decide (k = key)) as [-> | Hne].
  - destruct (negb (truthy (get row key)) && truthy (get prev_row key)) eqn:E; [| done].
    unfold get, set, get_or_empty, get in *. simpl.
    rewrite lookup_insert_eq.
    apply andb_true_iff in E as [_ E].
    destruct (cells prev_row !! key); [done | discriminate].
  - destruct (negb (truthy (get row key)) && truthy (get prev_row key)); [| done].
    unfold get, set. simpl. by rewrite lookup_insert_ne.
Qed.

Lemma pull_fold_get (keys : list string) (k : string) (prev_row row : raw_row) :
  NoDup keys ->
  get (fold_left (fun r key => pull key prev_row r) keys row) k =
    if decide (k ∈ keys)
    then (if negb (truthy (get row k)) && truthy (get prev_row k)
          then get prev_row k else get row k)
    else get row k.
Proof.
  intros Hnd. revert row. induction Hnd as [| key keys Hnotin Hnd IH]; intros row.
  - simpl. destruct (decide (k ∈ [])) as [H | _]; [inversion H | done].
  - simpl. rewrite IH. rewrite !pull_get.
    destruct (decide (k = key)) as [-> | Hne].
    + destruct (decide (key ∈ keys)); [contradiction |].
      destruct (decide (key ∈ key :: keys)) as [_ | H]; [done |].
      exfalso. apply H. left.
    + destruct (decide (k ∈ keys)) as [Hin | Hnin].
      * destruct (decide (k ∈ key :: keys)) as [_ | H]; [done |].
        exfalso. apply H. by right.
      * destruct (decide (k ∈ key :: keys)) as [H | _]; [| done].
        apply elem_of_cons in H as [? | ?]; contradiction.
Qed.

Lemma pulled_fields_nodup : NoDup pulled_fields.
Proof. apply (bool_decide_unpack _). vm_compute. reflexivity. Qed.

Lemma pull_all_get (k : string) (prev_row row : raw_row) :
  get (pull_all prev_row row) k =
    if decide (k ∈ pulled_fields)
    then (if negb (truthy (get row k)) && truthy (get prev_row k)
          then get prev_row k else get row k)
    else get row k.
Proof. apply pull_fold_get, pulled_fields_nodup. Qed.

Lemma merged_upto_S (raw_rows : list raw_row) (i : nat) :
  merged_upto raw_rows (S i) = merge_iteration raw_rows (merged_upto raw_rows i) i.
Proof.
  unfold merged_upto. rewrite seq_S, fold_left_app. reflexivity.
Qed.

(** What turn [i] of the loop appends for a row with a product code. *)
Definition reconciled (raw_rows : list raw_row) (i : nat) (current_row : raw_row) : raw_row :=
  match i with
  | O => current_row
  | S j => match raw_rows !! j with
           | Some prev_row => pull_all prev_row current_row
           | None => current_row
           end
  end.

Lemma merge_iteration_primary raw_rows merged i current_row :
  raw_rows !! i = Some current_row ->
  has_product_code current_row = true ->
  merge_iteration raw_rows merged i = merged ++ [reconciled raw_rows i current_row].
Proof.
  intros Hi Hp. unfold merge_iteration. rewrite Hi, Hp.
  destruct i as [| j]; simpl; [done |].
  rewrite Nat.sub_0_r. done.
Qed.

End RowReconciliation.

(** A supplementary row that carries a unit of measure and no number, and
    a blank row after it. *)
Definition unit_only_row : CoordinateTableExtractor.raw_row :=
  CoordinateTableExtractor.RawRow 1 [None; None; Some "MT"] {[ "unit_of_measure" := "MT" ]}.
Definition blank_row : CoordinateTableExtractor.raw_row :=
  CoordinateTableExtractor.RawRow 2 [None; None; None] ∅.

(** C1, as stated, fails: a supplementary row without any numeric value,
    followed by a row that is not a primary row, is emitted standalone. *)
Lemma merge_paired_rows_emits_row_without_number :
  CoordinateTableExtractor.has_product_code unit_only_row = false
  /\ CoordinateTableExtractor.has_meaningful_data unit_only_row = false
  /\ CoordinateTableExtractor.has_product_code blank_row = false
  /\ CoordinateTableExtractor._merge_paired_rows [unit_only_row; blank_row]
     = [unit_only_row].
Proof. repeat split; vm_compute; reflexivity. Qed.

(** C1 (amended). Row reconciliation, turn by turn of the loop over the
    rows. A primary row is emitted with every field it has kept, and with
    each empty quantity, unit-price, total, unit-of-measure or customs-code
    field taken from the row immediately before it when that row has the
    field (one-row lookback); a supplementary row immediately followed by a
    primary row is not emitted; a supplementary row followed by another
    row that is not primary is emitted as it is; the last row, when
    supplementary, is emitted only if its quantity, unit price or total is
    not blank. *)
Theorem merge_paired_rows_reconciliation
  (raw_rows : list CoordinateTableExtractor.raw_row) (i : nat)
  (current_row : CoordinateTableExtractor.raw_row)
  (Hi : raw_rows !! i = Some current_row) :
  let get := CoordinateTableExtractor.get in
  let primary := CoordinateTableExtractor.has_product_code in
  let emitted_before := CoordinateTableExtractor.merged_upto raw_rows i in
  let emitted_after := CoordinateTableExtractor.merged_upto raw_rows (S i) in
  CoordinateTableExtractor._merge_paired_rows raw_rows
  = CoordinateTableExtractor.merged_upto raw_rows (length raw_rows)
  /\ (primary current_row = true ->
      exists merged,
        emitted_after = emitted_before ++ [merged]
        /\ (forall key, truthy (get current_row key) = true ->
                        get merged key = get current_row key)
        /\ (forall key, key ∉ CoordinateTableExtractor.pulled_fields ->
                        get merged key = get current_row key)
        /\ (forall prev_row key,
               raw_rows !! (i - 1) = Some prev_row -> 0 < i ->
               key ∈ CoordinateTableExtractor.pulled_fields ->
               truthy (get current_row key) = false ->
               truthy (get prev_row key) = true ->
               get merged key = get prev_row key)
        /\ (forall prev_row key,
               raw_rows !! (i - 1) = Some prev_row ->
               truthy (get prev_row key) = false ->
               get merged key = get current_row key)
        /\ (i = 0 -> merged = current_row))
  /\ (primary current_row = false ->
      forall next_row, raw_rows !! (S i) = Some next_row ->
        emitted_after =
          if primary next_row then emitted_before
          else emitted_before ++ [current_row])
  /\ (primary current_row = false -> S i = length raw_rows ->
      emitted_after =
        if CoordinateTableExtractor.has_meaningful_data current_row
        then emitted_before ++ [current_row]
        else emitted_before).
Proof.
  intros get0 primary emitted_before emitted_after.
  subst get0 primary emitted_before emitted_after.
  split; [reflexivity |].
  rewrite merged_upto_S.
  split; [| split].
  - intros Hp. exists (reconciled raw_rows i current_row).
    split; [by apply merge_iteration_primary |].
    destruct i as [| j]; simpl.
    + repeat split; try done. intros; lia.
    + rewrite Nat.sub_0_r.
      destruct (raw_rows !! j) as [prev |] eqn:Hj.
      * repeat split.
        -- intros key Ht. rewrite pull_all_get, Ht. simpl.
           by destruct (decide _).
        -- intros key Hn. rewrite pull_all_get.
           by destruct (decide _).
        -- intros prev_row key Hprev _ Hin Hc Hpv.
           inversion Hprev; subst prev_row.
           rewrite pull_all_get, Hc, Hpv. simpl.
           by destruct (decide _).
        -- intros prev_row key Hprev Hpv.
           inversion Hprev; subst prev_row.
           rewrite pull_all_get, Hpv, andb_false_r.
           by destruct (decide _).
        -- intros; lia.
      * repeat split; try done; intros; lia.
  - intros Hp next_row Hn.
    unfold CoordinateTableExtractor.merge_iteration. rewrite Hi, Hp.
    assert (Hlt : S i < length raw_rows) by (eapply lookup_lt_Some; eauto).
    replace (Nat.ltb (i + 1) (length raw_rows)) with true
      by (symmetry; apply Nat.ltb_lt; lia).
    replace (i + 1) with (S i) by lia. rewrite Hn. done.
  - intros Hp Hlast.
    unfold CoordinateTableExtractor.merge_iteration. rewrite Hi, Hp.
    replace (Nat.ltb (i + 1) (length raw_rows)) with false
      by (symmetry; apply Nat.ltb_ge; lia).
    done.
Qed.

(** The rows of one item in the two-row layout: the numbers on the first
    physical row, the product code on the second. *)
Definition numbers_row : CoordinateTableExtractor.raw_row :=
  CoordinateTableExtractor.RawRow 1 [None; Some "34.19"]
    {[ "product_code" := ""; "quantity" := "34.19" ]}.
Definition code_row : CoordinateTableExtractor.raw_row :=
  CoordinateTableExtractor.RawRow 2 [Some "MMA00.1234.5678"; None]
    {[ "product_code" := "MMA00.1234.5678"; "quantity" := "" ]}.

Lemma merge_paired_rows_reconciliation_witness :
  exists merged,
    CoordinateTableExtractor._merge_paired_rows [numbers_row; code_row] = [merged]
    /\ CoordinateTableExtractor.get merged "quantity" = Some "34.19"
    /\ CoordinateTableExtractor.get merged "product_code" = Some "MMA00.1234.5678".
Proof.
  destruct (merge_paired_rows_reconciliation [numbers_row; code_row] 1 code_row eq_refl)
    as (Hall & Hprimary & _ & _).
  destruct (Hprimary eq_refl) as (merged & Hm & Hkeep & _ & Hpull & _).
  exists merged. split; [| split].
  - rewrite Hall. exact Hm.
  - apply (Hpull numbers_row "quantity"); try reflexivity.
    + apply Nat.lt_0_1.
    + apply (bool_decide_unpack _). vm_compute. reflexivity.
  - apply Hkeep. reflexivity.
Defined.

(** ** Boundary location *)

From Stdlib Require Import Sorted.

Section BoundaryLocation.
Import CoordinateTableExtractor.

Lemma SFcompare_Lt_swap (f1 f2 : SpecFloat.spec_float) :
  SpecFloat.SFcompare f1 f2 = Some Lt -> SpecFloat.SFcompare f2 f1 = Some Gt.
Proof.
  destruct f1 as [s1 | s1 | | s1 m1 e1], f2 as [s2 | s2 | | s2 m2 e2];
    simpl; try discriminate;
    try (destruct s1; try destruct s2; simpl; congruence);
    try (destruct s2; simpl; congruence).
  destruct s1, s2; simpl; try congruence.
  - rewrite (Z.compare_antisym e1 e2).
    destruct (Z.compare e1 e2); simpl; try congruence.
    pose proof (Pos.compare_cont_antisym m1 m2 Eq) as A. simpl in A.
    rewrite <- A.
    destruct (Pos.compare_cont Eq m1 m2); simpl; congruence.
  - rewrite (Z.compare_antisym e1 e2).
    destruct (Z.compare e1 e2); simpl; try congruence.
    pose proof (Pos.compare_cont_antisym m1 m2 Eq) as A. simpl in A.
    rewrite <- A.
    destruct (Pos.compare_cont Eq m1 m2); simpl; congruence.
Qed.

Lemma SFcompare_Lt_trans (f1 f2 f3 : SpecFloat.spec_float) :
  SpecFloat.SFcompare f1 f2 = Some Lt -> SpecFloat.SFcompare f2 f3 = Some Lt ->
  SpecFloat.SFcompare f1 f3 = Some Lt.
Proof.
  destruct f1 as [s1 | s1 | | s1 m1 e1], f2 as [s2 | s2 | | s2 m2 e2],
           f3 as [s3 | s3 | | s3 m3 e3];
    simpl; try discriminate;
    try (destruct s1; try destruct s2; try destruct s3; simpl; congruence);
    try (destruct s2; try destruct s3; simpl; congruence);
    try (destruct s1; try destruct s3; simpl; congruence).
  change (Pos.compare_cont Eq m1 m2) with (m1 ?= m2)%positive.
  change (Pos.compare_cont Eq m2 m3) with (m2 ?= m3)%positive.
  change (Pos.compare_cont Eq m1 m3) with (m1 ?= m3)%positive.
  destruct s1, s2, s3; simpl; try congruence;
    destruct (Z.compare_spec e1 e2), (Z.compare_spec e2 e3), (Z.compare_spec e1 e3);
    try lia; simpl; try congruence;
    destruct (Pos.compare_spec m1 m2), (Pos.compare_spec m2 m3),
             (Pos.compare_spec m1 m3);
    try lia; simpl; congruence.
Qed.

Lemma ltb_asym (a b : float) :
  PrimFloat.ltb a b = true -> PrimFloat.ltb b a = false.
Proof.
  rewrite !FloatAxioms.ltb_spec. unfold SpecFloat.SFltb.
  destruct (SpecFloat.SFcompare (FloatOps.Prim2SF a) (FloatOps.Prim2SF b))
    as [[| |] |] eqn:E; try discriminate.
  intros _. by rewrite (SFcompare_Lt_swap _ _ E).
Qed.

Lemma ltb_trans (a b c : float) :
  PrimFloat.ltb a b = true -> PrimFloat.ltb b c = true -> PrimFloat.ltb a c = true.
Proof.
  rewrite !FloatAxioms.ltb_spec. unfold SpecFloat.SFltb.
  destruct (SpecFloat.SFcompare (FloatOps.Prim2SF a) (FloatOps.Prim2SF b))
    as [[| |] |] eqn:E1; try discriminate.
  destruct (SpecFloat.SFcompare (FloatOps.Prim2SF b) (FloatOps.Prim2SF c))
    as [[| |] |] eqn:E2; try discriminate.
  intros _ _. by rewrite (SFcompare_Lt_trans _ _ _ E1 E2).
Qed.

Lemma min_max_ordered (a b : float) :
  PrimFloat.ltb a b = true ->
  PyFloat.min a b = a /\ PyFloat.max a b = b
  /\ PyFloat.min b a = a /\ PyFloat.max b a = b.
Proof.
  intros H. pose proof (ltb_asym _ _ H) as H'.
  unfold PyFloat.min, PyFloat.max, PyFloat.gtb. by rewrite H, H'.
Qed.

(** *** The sort *)

(** No element stands before one that is less. *)
Definition ascending {A : Type} (lt : A -> A -> bool) (l : list A) : Prop :=
  StronglySorted (fun a b => lt b a = false) l.

Section Sorting.
Context {A : Type} (lt : A -> A -> bool).
Hypothesis lt_asym : forall a b, lt a b = true -> lt b a = false.
Hypothesis lt_trans : forall a b c, lt a b = true -> lt b c = true -> lt a c = true.

Lemma insert_by_In (a x : A) (l : list A) :
  In x (insert_by lt a l) <-> x = a \/ In x l.
Proof.
  induction l as [| b l IH]; simpl.
  - split; [intros [<- | []]; by left | intros [-> | []]; by left].
  - destruct (lt a b); simpl; [split; intros [<- | H]; auto |].
    rewrite IH. tauto.
Qed.

Lemma sort_by_fold_In (l acc : list A) (x : A) :
  In x (fold_left (fun acc a => insert_by lt a acc) l acc) <-> In x l \/ In x acc.
Proof.
  revert acc. induction l as [| a l IH]; intros acc; simpl; [tauto |].
  rewrite IH, insert_by_In. split; intros H; intuition (subst; auto).
Qed.

Lemma sort_by_In (l : list A) (x : A) : In x (sort_by lt l) <-> In x l.
Proof. unfold sort_by. rewrite sort_by_fold_In. simpl. tauto. Qed.

Lemma sort_by_nil (l : list A) : sort_by lt l = [] <-> l = [].
Proof.
  split; [| by intros ->].
  intros Hnil. destruct l as [| a l]; [done |].
  assert (Hin : In a (sort_by lt (a :: l))) by (apply sort_by_In; by left).
  by rewrite Hnil in Hin.
Qed.

Lemma not_lt_between (a b d : A) : lt a b = true -> lt d b = false -> lt d a = false.
Proof.
  intros Hab Hdb. destruct (lt d a) eqn:Hda; [| done].
  by rewrite (lt_trans _ _ _ Hda Hab) in Hdb.
Qed.

Lemma insert_by_ascending (a : A) (l : list A) :
  ascending lt l -> ascending lt (insert_by lt a l).
Proof.
  unfold ascending. induction l as [| b l IH]; intros Hl; simpl.
  - constructor; constructor.
  - apply StronglySorted_inv in Hl as [Hl Hb].
    destruct (lt a b) eqn:Hab.
    + constructor; [by constructor |].
      constructor; [by apply lt_asym |].
      rewrite List.Forall_forall in Hb |- *. intros d Hd.
      by apply (not_lt_between a b d Hab), Hb.
    + constructor; [by apply IH |].
      rewrite List.Forall_forall in Hb |- *. intros d Hd.
      apply insert_by_In in Hd as [-> | Hd]; [done | by apply Hb].
Qed.

Lemma sort_by_ascending (l : list A) : ascending lt (sort_by lt l).
Proof.
  unfold sort_by.
  assert (Hfold : forall acc, ascending lt acc ->
                              ascending lt (fold_left (fun acc a => insert_by lt a acc) l acc)).
  { induction l as [| a l IH]; intros acc Hacc; simpl; [done |].
    by apply IH, insert_by_ascending. }
  apply Hfold. constructor.
Qed.

(** The head of the sorted list: nothing is less. *)
Lemma sort_by_head (l : list A) (h : A) (rest : list A) :
  sort_by lt l = h :: rest ->
  In h l /\ forall x, In x l -> lt x h = false.
Proof.
  intros Hsort. pose proof (sort_by_ascending l) as Hasc. rewrite Hsort in Hasc.
  apply StronglySorted_inv in Hasc as [_ Hh]. rewrite List.Forall_forall in Hh.
  split.
  - apply sort_by_In. rewrite Hsort. by left.
  - intros x Hx. apply sort_by_In in Hx. rewrite Hsort in Hx.
    destruct Hx as [<- | Hx]; [| by apply Hh].
    destruct (lt h h) eqn:Hhh; [| done]. by rewrite (lt_asym _ _ Hhh) in Hhh.
Qed.

(** The first element with a property, in a sorted list: no element with
    the property is less. *)
Lemma find_ascending (f : A -> bool) (l : list A) (m : A) :
  ascending lt l -> List.find f l = Some m ->
  In m l /\ f m = true /\ forall x, In x l -> f x = true -> lt x m = false.
Proof.
  unfold ascending. induction l as [| b l IH]; intros Hl; simpl; [discriminate |].
  apply StronglySorted_inv in Hl as [Hl Hb]. rewrite List.Forall_forall in Hb.
  destruct (f b) eqn:Hfb.
  - intros [= <-]. split; [by left |]. split; [done |].
    intros x [<- | Hx] _; [| by apply Hb].
    destruct (lt b b) eqn:Hbb; [| done]. by rewrite (lt_asym _ _ Hbb) in Hbb.
  - intros Hfind. destruct (IH Hl Hfind) as (Hin & Hfm & Hleast).
    split; [by right |]. split; [done |].
    intros x [<- | Hx] Hfx; [congruence | by apply Hleast].
Qed.

Lemma find_all_false (f : A -> bool) (l : list A) :
  (forall x, In x l -> f x = false) -> List.find f l = None.
Proof.
  induction l as [| b l IH]; intros Hall; simpl; [done |].
  rewrite (Hall b) by (by left). apply IH. intros x Hx. apply Hall. by right.
Qed.

End Sorting.

Lemma insert_by_map {A B : Type} (lt : B -> B -> bool) (key : A -> B) (a : A)
      (l : list A) :
  map key (insert_by (fun a b => lt (key a) (key b)) a l)
  = insert_by lt (key a) (map key l).
Proof.
  induction l as [| b l IH]; simpl; [done |].
  destruct (lt (key a) (key b)); simpl; [done |]. by rewrite IH.
Qed.

(** The keys of the sorted list depend on the keys only. *)
Lemma sort_by_map {A B : Type} (lt : B -> B -> bool) (key : A -> B) (l : list A) :
  map key (sort_by (fun a b => lt (key a) (key b)) l) = sort_by lt (map key l).
Proof.
  unfold sort_by.
  assert (Hfold : forall acc,
             map key (fold_left (fun acc a => insert_by (fun a b => lt (key a) (key b)) a acc)
                                l acc)
             = fold_left (fun acc a => insert_by lt a acc) (map key l) (map key acc)).
  { induction l as [| a l IH]; intros acc; simpl; [done |].
    by rewrite IH, insert_by_map. }
  apply (Hfold []).
Qed.

(** *** The markers *)

Lemma marker_lt_asym (a b : marker) : marker_lt a b = true -> marker_lt b a = false.
Proof. apply ltb_asym. Qed.

Lemma marker_lt_trans (a b c : marker) :
  marker_lt a b = true -> marker_lt b c = true -> marker_lt a c = true.
Proof. apply ltb_trans. Qed.

Lemma markers_In (mark : string) (p : page) (m : marker) :
  In m (sort_by marker_lt (occurrences mark p)) <-> In m (occurrences mark p).
Proof. apply sort_by_In. Qed.

Lemma markers_head (mark : string) (p : page) (first : marker) (others : list marker) :
  sort_by marker_lt (occurrences mark p) = first :: others ->
  In first (occurrences mark p)
  /\ forall m, In m (occurrences mark p) -> PrimFloat.ltb (y m) (y first) = false.
Proof. apply (sort_by_head marker_lt marker_lt_asym marker_lt_trans). Qed.

Lemma markers_heights (mark : string) (p : page) :
  map y (sort_by marker_lt (occurrences mark p))
  = sort_by PrimFloat.ltb (map y (occurrences mark p)).
Proof. apply (sort_by_map PrimFloat.ltb y). Qed.

(** The end marker that is taken with the first start marker. *)
Definition chosen_end (first_start : marker) (ends : list marker) (end_mark : marker)
  : Prop :=
  In end_mark ends
  /\ ((PrimFloat.ltb (y first_start) (y end_mark) = true
       /\ forall m, In m ends -> PrimFloat.ltb (y first_start) (y m) = true ->
                    PrimFloat.ltb (y m) (y end_mark) = false)
      \/ (PrimFloat.ltb (y end_mark) (y first_start) = true
          /\ forall m, In m ends ->
                       PrimFloat.ltb (y first_start) (y m) = false
                       /\ PrimFloat.ltb (y m) (y end_mark) = false)).

(** The choice among the sorted markers. *)
Lemma select_pair_some (p : page) (first_start : marker) (others ends : list marker)
      (b : bounds) :
  ascending marker_lt ends ->
  select_pair p (first_start :: others) ends = Some b ->
  exists end_mark,
    chosen_end first_start ends end_mark
    /\ b = Bounds 0 (PyFloat.min (y first_start) (y end_mark)) (width p)
                  (PrimFloat.add (PyFloat.max (y first_start) (y end_mark)) 50).
Proof.
  intros Hasc. unfold select_pair.
  destruct ends as [| e0 es]; [discriminate |].
  destruct (List.find (fun m => PyFloat.gtb (y m) (y first_start)) (e0 :: es))
    as [m |] eqn:F1.
  - intros [= <-].
    destruct (find_ascending marker_lt marker_lt_asym _ _ _ Hasc F1)
      as (Hin & Hgt & Hleast).
    exists m. split; [| done]. split; [done |]. left. split; [exact Hgt |].
    intros x Hx Hxgt. by apply Hleast.
  - destruct (List.find (fun m => PrimFloat.ltb (y m) (y first_start)) (e0 :: es))
      as [m |] eqn:F2; [| discriminate].
    intros [= <-].
    destruct (find_ascending marker_lt marker_lt_asym _ _ _ Hasc F2)
      as (Hin & Hlt & Hleast).
    exists m. split; [| done]. split; [done |]. right. split; [exact Hlt |].
    intros x Hx. split.
    + exact (find_none _ _ F1 x Hx).
    + destruct (PrimFloat.ltb (y x) (y m)) eqn:Hxm; [| done].
      pose proof (ltb_trans _ _ _ Hxm Hlt) as Hxs.
      pose proof (Hleast x Hx Hxs) as Hc. unfold marker_lt in Hc. congruence.
Qed.

Lemma select_pair_none (p : page) (first_start : marker) (others ends : list marker) :
  select_pair p (first_start :: others) ends = None
  <-> forall m, In m ends ->
                PrimFloat.ltb (y first_start) (y m) = false
                /\ PrimFloat.ltb (y m) (y first_start) = false.
Proof.
  unfold select_pair. split.
  - destruct ends as [| e0 es]; [done |].
    destruct (List.find (fun m => PyFloat.gtb (y m) (y first_start)) (e0 :: es))
      as [m |] eqn:F1; [discriminate |].
    destruct (List.find (fun m => PrimFloat.ltb (y m) (y first_start)) (e0 :: es))
      as [m |] eqn:F2; [discriminate |].
    intros _ m Hm. split.
    + exact (find_none _ _ F1 m Hm).
    + exact (find_none _ _ F2 m Hm).
  - intros Hall. destruct ends as [| e0 es]; [done |].
    rewrite (find_all_false (fun m => PyFloat.gtb (y m) (y first_start)) (e0 :: es))
      by (intros m Hm; apply (Hall m Hm)).
    by rewrite (find_all_false (fun m => PrimFloat.ltb (y m) (y first_start)) (e0 :: es))
      by (intros m Hm; apply (Hall m Hm)).
Qed.

(** The choice when every start marker has a smaller y than every end
    marker, and when every start marker has a greater y. *)
Lemma select_pair_apart (p : page) (s0 e0 : marker) (starts ends : list marker) :
  (forall s e, In s (s0 :: starts) -> In e (e0 :: ends) ->
               PrimFloat.ltb (y s) (y e) = true)
  \/ (forall s e, In s (s0 :: starts) -> In e (e0 :: ends) ->
                  PrimFloat.ltb (y e) (y s) = true) ->
  select_pair p (s0 :: starts) (e0 :: ends)
  = Some (Bounds 0 (PyFloat.min (y s0) (y e0)) (width p)
                 (PrimFloat.add (PyFloat.max (y s0) (y e0)) 50)).
Proof.
  intros [Habove | Hbelow]; unfold select_pair.
  - cbn [List.find]. unfold PyFloat.gtb at 1.
    by rewrite (Habove s0 e0) by (by left).
  - rewrite (find_all_false (fun m => PyFloat.gtb (y m) (y s0)) (e0 :: ends)).
    + cbn [List.find]. by rewrite (Hbelow s0 e0) by (by left).
    + intros m Hm. unfold PyFloat.gtb. apply ltb_asym, Hbelow; [by left | done].
Qed.

Lemma heights_In (l k : list marker) (m : marker) :
  map y l = map y k -> In m l -> exists m', In m' k /\ y m' = y m.
Proof.
  intros Hmap Hin. apply (in_map y) in Hin. rewrite Hmap in Hin.
  apply in_map_iff in Hin as (m' & Hy & Hin'). by exists m'.
Qed.

(** The nearby text when a distance raises. *)
Lemma nearby_chars_raises (cs : list char) (px py radius : float) (c : char) :
  In c cs -> distance c px py = None -> nearby_chars cs px py radius = None.
Proof.
  induction cs as [| c' cs IH]; [done |]. intros [-> | Hin] Hd; simpl.
  - by rewrite Hd.
  - destruct (distance c' px py); [| done]. by rewrite (IH Hin Hd).
Qed.

End BoundaryLocation.

(** A page with the start marker printed at y = 100 and the end marker at
    y = 400, the same page with the two markers exchanged, and a page
    without markers. *)
Definition forward_page : CoordinateTableExtractor.page :=
  CoordinateTableExtractor.Page
    (CoordinateTableExtractor.typeset CoordinateTableExtractor.start_marker 30 100
     ++ CoordinateTableExtractor.typeset "MMA00.1234.5678 34,19" 30 200
     ++ CoordinateTableExtractor.typeset CoordinateTableExtractor.end_marker 30 400)
    595.
Definition reversed_page : CoordinateTableExtractor.page :=
  CoordinateTableExtractor.Page
    (CoordinateTableExtractor.typeset CoordinateTableExtractor.end_marker 30 100
     ++ CoordinateTableExtractor.typeset "MMA00.1234.5678 34,19" 30 200
     ++ CoordinateTableExtractor.typeset CoordinateTableExtractor.start_marker 30 400)
    595.
Definition plain_page : CoordinateTableExtractor.page :=
  CoordinateTableExtractor.Page
    (CoordinateTableExtractor.typeset "MMA00.1234.5678 34,19" 30 200) 595.

(** A page with the end marker printed at y = 100 and at y = 400 and the
    start marker at y = 250 between them, and the same page with the two
    markers exchanged. *)
Definition enclosed_start_page : CoordinateTableExtractor.page :=
  CoordinateTableExtractor.Page
    (CoordinateTableExtractor.typeset CoordinateTableExtractor.end_marker 30 100
     ++ CoordinateTableExtractor.typeset CoordinateTableExtractor.start_marker 30 250
     ++ CoordinateTableExtractor.typeset CoordinateTableExtractor.end_marker 30 400)
    595.
Definition enclosed_end_page : CoordinateTableExtractor.page :=
  CoordinateTableExtractor.Page
    (CoordinateTableExtractor.typeset CoordinateTableExtractor.start_marker 30 100
     ++ CoordinateTableExtractor.typeset CoordinateTableExtractor.end_marker 30 250
     ++ CoordinateTableExtractor.typeset CoordinateTableExtractor.start_marker 30 400)
    595.

(** C6, as stated, fails on a page with three markers: the start markers
    of the second page stand where the end markers of the first stand, and
    the other way round, and the two pages get different boxes. *)
Lemma exchanged_markers_change_the_box :
  map CoordinateTableExtractor.y
      (CoordinateTableExtractor.occurrences
         CoordinateTableExtractor.start_marker enclosed_end_page)
  = map CoordinateTableExtractor.y
        (CoordinateTableExtractor.occurrences
           CoordinateTableExtractor.end_marker enclosed_start_page)
  /\ map CoordinateTableExtractor.y
         (CoordinateTableExtractor.occurrences
            CoordinateTableExtractor.end_marker enclosed_end_page)
     = map CoordinateTableExtractor.y
           (CoordinateTableExtractor.occurrences
              CoordinateTableExtractor.start_marker enclosed_start_page)
  /\ CoordinateTableExtractor._find_table_boundaries enclosed_start_page
     = Some (CoordinateTableExtractor.Bounds 0 250 595 450)
  /\ CoordinateTableExtractor._find_table_boundaries enclosed_end_page
     = Some (CoordinateTableExtractor.Bounds 0 100 595 300).
Proof. vm_compute. repeat split; reflexivity. Qed.

(** C6 (amended). Boundary location. The first start marker is a start
    marker of the page such that no start marker has a smaller y. A box
    that the locator returns goes from x = 0 to the page width and is made
    of the first start marker and of one end marker: the end marker with
    the least y among those with a greater y than the first start marker
    or, when no end marker has a greater y, the end marker with the least
    y of all, which is then smaller; y0 is the smaller of the two y and y1
    the larger plus the buffer of 50. The locator returns None exactly
    when the page has no start marker or no end marker whose y differs
    from that of the first start marker. A distance whose square
    overflows makes the nearby text empty. On two pages whose start and
    end markers are exchanged, with every start marker at a smaller y than
    every end marker or every start marker at a greater y than every end
    marker, the locator returns the same box; markers at 100 and 400 give
    y0 = 100 and y1 = 450 in either order. *)
Theorem find_table_boundaries_contract :
  (forall (p : CoordinateTableExtractor.page) first_start others,
      CoordinateTableExtractor.start_markers p = first_start :: others ->
      In first_start
         (CoordinateTableExtractor.occurrences CoordinateTableExtractor.start_marker p)
      /\ forall m,
           In m (CoordinateTableExtractor.occurrences
                   CoordinateTableExtractor.start_marker p) ->
           PrimFloat.ltb (CoordinateTableExtractor.y m)
                         (CoordinateTableExtractor.y first_start) = false)
  /\ (forall (p : CoordinateTableExtractor.page) (b : CoordinateTableExtractor.bounds),
         CoordinateTableExtractor._find_table_boundaries p = Some b ->
         exists first_start others end_mark,
           CoordinateTableExtractor.start_markers p = first_start :: others
           /\ chosen_end first_start
                         (CoordinateTableExtractor.occurrences
                            CoordinateTableExtractor.end_marker p)
                         end_mark
           /\ b = CoordinateTableExtractor.Bounds
                    0
                    (PyFloat.min (CoordinateTableExtractor.y first_start)
                                 (CoordinateTableExtractor.y end_mark))
                    (CoordinateTableExtractor.width p)
                    (PrimFloat.add
                       (PyFloat.max (CoordinateTableExtractor.y first_start)
                                    (CoordinateTableExtractor.y end_mark))
                       50)
           /\ PrimFloat.ltb (CoordinateTableExtractor.by0 b)
                            (PyFloat.max (CoordinateTableExtractor.y first_start)
                                         (CoordinateTableExtractor.y end_mark))
              = true)
  /\ (forall p : CoordinateTableExtractor.page,
         CoordinateTableExtractor._find_table_boundaries p = None
         <-> CoordinateTableExtractor.occurrences
               CoordinateTableExtractor.start_marker p = []
             \/ exists first_start others,
                  CoordinateTableExtractor.start_markers p = first_start :: others
                  /\ forall m,
                       In m (CoordinateTableExtractor.occurrences
                               CoordinateTableExtractor.end_marker p) ->
                       PrimFloat.ltb (CoordinateTableExtractor.y first_start)
                                     (CoordinateTableExtractor.y m) = false
                       /\ PrimFloat.ltb (CoordinateTableExtractor.y m)
                                        (CoordinateTableExtractor.y first_start) = false)
  /\ (forall (p q : CoordinateTableExtractor.page),
         CoordinateTableExtractor.width q = CoordinateTableExtractor.width p ->
         map CoordinateTableExtractor.y
             (CoordinateTableExtractor.occurrences
                CoordinateTableExtractor.start_marker q)
         = map CoordinateTableExtractor.y
               (CoordinateTableExtractor.occurrences
                  CoordinateTableExtractor.end_marker p) ->
         map CoordinateTableExtractor.y
             (CoordinateTableExtractor.occurrences
                CoordinateTableExtractor.end_marker q)
         = map CoordinateTableExtractor.y
               (CoordinateTableExtractor.occurrences
                  CoordinateTableExtractor.start_marker p) ->
         CoordinateTableExtractor.occurrences CoordinateTableExtractor.start_marker p
         <> [] ->
         CoordinateTableExtractor.occurrences CoordinateTableExtractor.end_marker p
         <> [] ->
         (forall s e,
             In s (CoordinateTableExtractor.occurrences
                     CoordinateTableExtractor.start_marker p) ->
             In e (CoordinateTableExtractor.occurrences
                     CoordinateTableExtractor.end_marker p) ->
             PrimFloat.ltb (CoordinateTableExtractor.y s)
                           (CoordinateTableExtractor.y e) = true)
         \/ (forall s e,
                In s (CoordinateTableExtractor.occurrences
                        CoordinateTableExtractor.start_marker p) ->
                In e (CoordinateTableExtractor.occurrences
                        CoordinateTableExtractor.end_marker p) ->
                PrimFloat.ltb (CoordinateTableExtractor.y e)
                              (CoordinateTableExtractor.y s) = true) ->
         CoordinateTableExtractor._find_table_boundaries q
         = CoordinateTableExtractor._find_table_boundaries p
         /\ CoordinateTableExtractor._find_table_boundaries p <> None)
  /\ (forall (p : CoordinateTableExtractor.page) (px py radius : float)
             (c : CoordinateTableExtractor.char),
         In c (CoordinateTableExtractor.chars p) ->
         CoordinateTableExtractor.distance c px py = None ->
         CoordinateTableExtractor._get_text_near_position p px py radius = EmptyString)
  /\ CoordinateTableExtractor._find_table_boundaries forward_page
     = Some (CoordinateTableExtractor.Bounds 0 100 595 450)
  /\ CoordinateTableExtractor._find_table_boundaries reversed_page
     = Some (CoordinateTableExtractor.Bounds 0 100 595 450)
  /\ CoordinateTableExtractor._find_table_boundaries plain_page = None.
Proof.
  split; [| split; [| split; [| split; [| split]]]].
  - intros p first_start others Hs. by apply (markers_head _ _ _ others).
  - intros p b Hfind. unfold CoordinateTableExtractor._find_table_boundaries in Hfind.
    destruct (CoordinateTableExtractor.start_markers p) as [| first_start others] eqn:Hs;
      [discriminate |].
    assert (Hasc : ascending CoordinateTableExtractor.marker_lt
                             (CoordinateTableExtractor.end_markers p))
      by apply (sort_by_ascending _ marker_lt_asym marker_lt_trans).
    destruct (select_pair_some _ _ _ _ _ Hasc Hfind) as (end_mark & Hchosen & ->).
    exists first_start, others, end_mark. split; [done |].
    assert (Hends : chosen_end first_start
                               (CoordinateTableExtractor.occurrences
                                  CoordinateTableExtractor.end_marker p) end_mark).
    { destruct Hchosen as (Hin & Hcase). split; [by apply markers_In |].
      destruct Hcase as [(Hlt & Hleast) | (Hlt & Hleast)]; [left | right];
        (split; [exact Hlt |]); intros m Hm; apply Hleast; by apply markers_In. }
    split; [exact Hends |]. split; [done |].
    cbn [CoordinateTableExtractor.by0].
    destruct Hchosen as (_ & [(Hlt & _) | (Hlt & _)]);
      destruct (min_max_ordered _ _ Hlt) as (E1 & E2 & E3 & E4).
    + by rewrite E1, E2.
    + by rewrite E3, E4.
  - intros p. unfold CoordinateTableExtractor._find_table_boundaries.
    destruct (CoordinateTableExtractor.start_markers p) as [| first_start others] eqn:Hs.
    + split; [| done]. intros _. left.
      by apply (proj1 (sort_by_nil CoordinateTableExtractor.marker_lt _)).
    + rewrite select_pair_none. split.
      * intros Hall. right. exists first_start, others. split; [done |].
        intros m Hm. apply Hall. by apply markers_In.
      * intros [Hnil | (s & o & [= <- <-] & Hall)].
        -- apply (proj2 (sort_by_nil CoordinateTableExtractor.marker_lt _)) in Hnil.
           unfold CoordinateTableExtractor.start_markers in Hs. congruence.
        -- intros m Hm. apply Hall. by apply markers_In.
  - intros p q Hwidth Hstarts Hends Hsne Hene Hapart.
    unfold CoordinateTableExtractor._find_table_boundaries.
    destruct (CoordinateTableExtractor.start_markers p) as [| s0 ss] eqn:Hs.
    { unfold CoordinateTableExtractor.start_markers in Hs.
      apply (proj1 (sort_by_nil CoordinateTableExtractor.marker_lt _)) in Hs.
      by destruct Hsne. }
    destruct (CoordinateTableExtractor.end_markers p) as [| e0 es] eqn:He.
    { unfold CoordinateTableExtractor.end_markers in He.
      apply (proj1 (sort_by_nil CoordinateTableExtractor.marker_lt _)) in He.
      by destruct Hene. }
    assert (Hqs : map CoordinateTableExtractor.y (CoordinateTableExtractor.start_markers q)
                  = map CoordinateTableExtractor.y (e0 :: es)).
    { rewrite <- He. unfold CoordinateTableExtractor.start_markers,
        CoordinateTableExtractor.end_markers. by rewrite !markers_heights, Hstarts. }
    assert (Hqe : map CoordinateTableExtractor.y (CoordinateTableExtractor.end_markers q)
                  = map CoordinateTableExtractor.y (s0 :: ss)).
    { rewrite <- Hs. unfold CoordinateTableExtractor.start_markers,
        CoordinateTableExtractor.end_markers. by rewrite !markers_heights, Hends. }
    destruct (CoordinateTableExtractor.start_markers q) as [| s0' ss'] eqn:Hs';
      [discriminate |].
    destruct (CoordinateTableExtractor.end_markers q) as [| e0' es'] eqn:He';
      [discriminate |].
    assert (Hy1 : CoordinateTableExtractor.y s0' = CoordinateTableExtractor.y e0)
      by (by injection Hqs).
    assert (Hy2 : CoordinateTableExtractor.y e0' = CoordinateTableExtractor.y s0)
      by (by injection Hqe).
    assert (Hp : (forall s e, In s (s0 :: ss) -> In e (e0 :: es) ->
                              PrimFloat.ltb (CoordinateTableExtractor.y s)
                                            (CoordinateTableExtractor.y e) = true)
                 \/ (forall s e, In s (s0 :: ss) -> In e (e0 :: es) ->
                                 PrimFloat.ltb (CoordinateTableExtractor.y e)
                                               (CoordinateTableExtractor.y s) = true)).
    { destruct Hapart as [H | H]; [left | right]; intros s e Hin1 Hin2; apply H.
      - apply markers_In. fold (CoordinateTableExtractor.start_markers p).
        by rewrite Hs.
      - apply markers_In. fold (CoordinateTableExtractor.end_markers p).
        by rewrite He.
      - apply markers_In. fold (CoordinateTableExtractor.start_markers p).
        by rewrite Hs.
      - apply markers_In. fold (CoordinateTableExtractor.end_markers p).
        by rewrite He. }
    assert (Hq : (forall s e, In s (s0' :: ss') -> In e (e0' :: es') ->
                              PrimFloat.ltb (CoordinateTableExtractor.y s)
                                            (CoordinateTableExtractor.y e) = true)
                 \/ (forall s e, In s (s0' :: ss') -> In e (e0' :: es') ->
                                 PrimFloat.ltb (CoordinateTableExtractor.y e)
                                               (CoordinateTableExtractor.y s) = true)).
    { destruct Hp as [H | H]; [right | left]; intros s e Hin1 Hin2;
        destruct (heights_In _ _ s Hqs Hin1) as (e1 & He1 & <-);
        destruct (heights_In _ _ e Hqe Hin2) as (s1 & Hs1 & <-);
        by apply H. }
    rewrite (select_pair_apart p s0 e0 ss es Hp),
            (select_pair_apart q s0' e0' ss' es' Hq), Hy1, Hy2, Hwidth.
    split; [| discriminate]. f_equal.
    assert (Hlt : PrimFloat.ltb (CoordinateTableExtractor.y s0)
                                (CoordinateTableExtractor.y e0) = true
                  \/ PrimFloat.ltb (CoordinateTableExtractor.y e0)
                                   (CoordinateTableExtractor.y s0) = true).
    { destruct Hp as [H | H]; [left | right]; apply H; by left. }
    destruct Hlt as [Hlt | Hlt];
      destruct (min_max_ordered _ _ Hlt) as (E1 & E2 & E3 & E4);
      by rewrite E1, E2, E3, E4.
  - intros p px py radius c Hin Hd.
    unfold CoordinateTableExtractor._get_text_near_position.
    by rewrite (nearby_chars_raises _ _ _ _ _ Hin Hd).
  - repeat split; vm_compute; reflexivity.
Qed.

(** The page with the start marker at 100 and the end marker at 400 and
    the page with the two exchanged, through the general statement. *)
Lemma find_table_boundaries_contract_witness :
  CoordinateTableExtractor._find_table_boundaries reversed_page
  = CoordinateTableExtractor._find_table_boundaries forward_page
  /\ CoordinateTableExtractor._find_table_boundaries forward_page <> None.
Proof.
  assert (Hs : CoordinateTableExtractor.occurrences
                 CoordinateTableExtractor.start_marker forward_page
               = map (fun px => CoordinateTableExtractor.Marker
                                  100 px CoordinateTableExtractor.start_marker)
                     [30; 33; 36; 39; 42; 45; 48; 51; 54; 57; 60; 63; 66; 69]%float)
    by (vm_compute; reflexivity).
  assert (He : CoordinateTableExtractor.occurrences
                 CoordinateTableExtractor.end_marker forward_page
               = map (fun px => CoordinateTableExtractor.Marker
                                  400 px CoordinateTableExtractor.end_marker)
                     [30; 33; 36; 39; 42; 45; 48; 51; 54; 57; 60; 63; 66; 69]%float)
    by (vm_compute; reflexivity).
  apply (proj1 (proj2 (proj2 (proj2 find_table_boundaries_contract)))
               forward_page reversed_page).
  - reflexivity.
  - rewrite He. vm_compute. reflexivity.
  - rewrite Hs. vm_compute. reflexivity.
  - rewrite Hs. discriminate.
  - rewrite He. discriminate.
  - left. intros s e Hin1 Hin2. rewrite Hs in Hin1. rewrite He in Hin2.
    apply in_map_iff in Hin1 as (x1 & <- & _).
    apply in_map_iff in Hin2 as (x2 & <- & _).
    vm_compute. reflexivity.
Defined.


(** ** Decimal arithmetic without rounding *)

Section DecimalExactness.
Local Open Scope Z_scope.

(** The value of a finite decimal in units of 10^-k. *)
Definition units (k : Z) (d : Dec.t) : Z :=
  match d with
  | Dec.Fin s c e => Dec.signed s c * 10 ^ (e + k)
  | _ => 0
  end.

(** A finite decimal with at most [k] decimal places, no positive
    exponent, and at most [B] units of 10^-k in absolute value. *)
Definition plain (k B : Z) (d : Dec.t) : Prop :=
  match d with
  | Dec.Fin s c e => - k <= e <= 0 /\ Z.abs (units k d) <= B
  | _ => False
  end.

Lemma pow10_Z (j : Z) : 0 <= j -> Z.of_N (Dec.pow10 j) = 10 ^ j.
Proof.
  intros Hj. unfold Dec.pow10. rewrite N2Z.inj_pow. rewrite Z2N.id by lia. reflexivity.
Qed.

Lemma pow10_pos (j : Z) : 0 <= j -> 0 < 10 ^ j.
Proof. intros. apply Z.pow_pos_nonneg; lia. Qed.

Lemma abs_signed (s : bool) (c : N) : Z.abs (Dec.signed s c) = Z.of_N c.
Proof. unfold Dec.signed. destruct s; lia. Qed.

Lemma signed_mul (s : bool) (c : N) (j : Z) :
  0 <= j -> Dec.signed s (c * Dec.pow10 j) = Dec.signed s c * 10 ^ j.
Proof.
  intros Hj. unfold Dec.signed. rewrite N2Z.inj_mul, pow10_Z by lia.
  destruct s; lia.
Qed.

Lemma signed_of_Z (v : Z) : Dec.signed (v <? 0) (Z.abs_N v) = v.
Proof.
  unfold Dec.signed. rewrite N2Z.inj_abs_N.
  destruct (Z.ltb_spec v 0); lia.
Qed.

Lemma ndigits_fuel_le (fuel : nat) :
  forall (n m : N), (1 <= m)%N -> (n < 10 ^ m)%N ->
                    1 <= Dec.ndigits_fuel fuel n <= Z.of_N m.
Proof.
  induction fuel as [| fuel IH]; intros n m Hm Hn; simpl; [lia |].
  destruct (N.ltb_spec n 10); [lia |].
  assert (2 <= m)%N.
  { destruct (N.le_gt_cases 2 m) as [? | Hlt]; [done |].
    assert (m = 1%N) by lia. subst m. simpl in Hn. lia. }
  assert (n / 10 < 10 ^ (m - 1))%N.
  { apply N.Div0.div_lt_upper_bound.
    replace (10 * 10 ^ (m - 1))%N with (10 ^ m)%N; [done |].
    replace m with (N.succ (m - 1)) at 1 by lia.
    by rewrite N.pow_succ_r'. }
  specialize (IH (n / 10)%N (m - 1)%N ltac:(lia) ltac:(done)). lia.
Qed.

Lemma ndigits_le (c : N) (m : Z) :
  1 <= m -> Z.of_N c < 10 ^ m -> 1 <= Dec.ndigits c <= m.
Proof.
  intros Hm Hc. unfold Dec.ndigits.
  pose proof (ndigits_fuel_le (N.to_nat (N.size c)) c (Z.to_N m)) as H.
  rewrite Z2N.id in H by lia. apply H; [lia |].
  apply N2Z.inj_lt. rewrite N2Z.inj_pow, Z2N.id by lia. exact Hc.
Qed.

(** Within 28 digits and a moderate exponent, [_fix] changes nothing. *)
Lemma fix_finite_small (s : bool) (c : N) (e : Z) :
  Z.of_N c < 10 ^ 28 -> -1000 <= e <= 1000 ->
  Dec.fix_finite s c e = inr (Dec.Fin s c e).
Proof.
  intros Hc He. unfold Dec.fix_finite.
  destruct (N.eqb_spec c 0) as [-> | Hnz].
  - f_equal. f_equal. unfold Dec.Etiny, Dec.Emax, Dec.Emin, Dec.prec. lia.
  - pose proof (ndigits_le c 28 ltac:(lia) Hc) as Hd.
    unfold Dec.Etop, Dec.Etiny, Dec.Emax, Dec.Emin, Dec.prec.
    destruct (Z.ltb_spec (999999 - 28 + 1) (Dec.ndigits c + e - 28)); [lia |].
    destruct (Z.ltb_spec e (Z.max (Dec.ndigits c + e - 28) (-999999 - 28 + 1))); [lia |].
    reflexivity.
Qed.

Lemma units_bound_coeff (k B : Z) (s : bool) (c : N) (e : Z) :
  plain k B (Dec.Fin s c e) -> Z.of_N c <= B /\ Z.of_N c * 10 ^ (e + k) <= B.
Proof.
  intros [He Hb]. simpl in Hb. rewrite Z.abs_mul, abs_signed in Hb.
  pose proof (pow10_pos (e + k) ltac:(lia)).
  rewrite (Z.abs_eq (10 ^ (e + k))) in Hb by lia.
  split; [nia | lia].
Qed.

Lemma plain_rescale (k j B : Z) (d : Dec.t) :
  0 <= j -> plain k B d ->
  plain (k + j) (B * 10 ^ j) d /\ units (k + j) d = units k d * 10 ^ j.
Proof.
  intros Hj Hp. destruct d as [s c e | |]; try done.
  destruct Hp as [He Hb].
  assert (Hu : units (k + j) (Dec.Fin s c e) = units k (Dec.Fin s c e) * 10 ^ j).
  { simpl. replace (e + (k + j)) with ((e + k) + j) by lia.
    rewrite Z.pow_add_r by lia. lia. }
  split; [| exact Hu]. split; [lia |].
  rewrite Hu, Z.abs_mul.
  pose proof (pow10_pos j Hj). rewrite (Z.abs_eq (10 ^ j)) by lia. nia.
Qed.

Lemma plain_weaken (k B B' : Z) (d : Dec.t) : B <= B' -> plain k B d -> plain k B' d.
Proof. destruct d; simpl; try done. intros ? [? ?]. split; lia. Qed.

Lemma mul_plain (k1 k2 B1 B2 : Z) (a b : Dec.t) :
  0 <= k1 <= 500 -> 0 <= k2 <= 500 ->
  plain k1 B1 a -> plain k2 B2 b -> B1 * B2 < 10 ^ 28 ->
  exists r, Dec.mul a b = inr r
            /\ plain (k1 + k2) (B1 * B2) r
            /\ units (k1 + k2) r = units k1 a * units k2 b.
Proof.
  intros Hk1 Hk2 Ha Hb HB.
  destruct a as [s1 c1 e1 | |], b as [s2 c2 e2 | |]; try done.
  pose proof (units_bound_coeff _ _ _ _ _ Ha) as [Hc1 Hu1].
  pose proof (units_bound_coeff _ _ _ _ _ Hb) as [Hc2 Hu2].
  destruct Ha as [He1 Hb1], Hb as [He2 Hb2].
  assert (0 <= B1) by lia. assert (0 <= B2) by lia.
  exists (Dec.Fin (xorb s1 s2) (c1 * c2) (e1 + e2)).
  assert (Hu : units (k1 + k2) (Dec.Fin (xorb s1 s2) (c1 * c2) (e1 + e2))
               = units k1 (Dec.Fin s1 c1 e1) * units k2 (Dec.Fin s2 c2 e2)).
  { simpl. replace (e1 + e2 + (k1 + k2)) with ((e1 + k1) + (e2 + k2)) by lia.
    rewrite Z.pow_add_r by lia.
    unfold Dec.signed. rewrite N2Z.inj_mul. destruct s1, s2; simpl; lia. }
  split; [| split; [split; [lia |] | exact Hu]].
  - simpl. apply fix_finite_small; [| lia].
    rewrite N2Z.inj_mul. nia.
  - rewrite Hu, Z.abs_mul. nia.
Qed.

Lemma add_plain (k B1 B2 : Z) (a b : Dec.t) :
  0 <= k <= 28 ->
  plain k B1 a -> plain k B2 b -> B1 + B2 < 10 ^ 28 ->
  exists r, Dec.add a b = inr r
            /\ plain k (B1 + B2) r
            /\ units k r = units k a + units k b.
Proof.
  intros Hk Ha Hb HB.
  destruct a as [s1 c1 e1 | |], b as [s2 c2 e2 | |]; try done.
  pose proof (units_bound_coeff _ _ _ _ _ Ha) as [Hc1 Hu1].
  pose proof (units_bound_coeff _ _ _ _ _ Hb) as [Hc2 Hu2].
  destruct Ha as [He1 Hb1], Hb as [He2 Hb2].
  set (e := Z.min e1 e2).
  assert (Hp1 : 10 ^ (e1 + k) = 10 ^ (e1 - e) * 10 ^ (e + k)).
  { rewrite <- Z.pow_add_r by lia. f_equal. lia. }
  assert (Hp2 : 10 ^ (e2 + k) = 10 ^ (e2 - e) * 10 ^ (e + k)).
  { rewrite <- Z.pow_add_r by lia. f_equal. lia. }
  pose proof (pow10_pos (e + k) ltac:(lia)) as Hpos.
  pose proof (pow10_pos (e1 - e) ltac:(lia)) as Hpos1.
  pose proof (pow10_pos (e2 - e) ltac:(lia)) as Hpos2.
  assert (Hs1 : Z.of_N c1 * 10 ^ (e1 - e) <= B1) by nia.
  assert (Hs2 : Z.of_N c2 * 10 ^ (e2 - e) <= B2) by nia.
  unfold Dec.add, Dec.check_nans. fold e.
  destruct (N.eqb_spec c1 0) as [-> | Hn1]; [destruct (N.eqb_spec c2 0) as [-> | Hn2] |];
    simpl andb; cbv iota.
  - exists (Dec.Fin (s1 && s2) 0 e).
    split; [apply fix_finite_small; simpl; lia |].
    split; [split; [lia |] |]; simpl; unfold Dec.signed; destruct s1, s2; simpl; lia.
  - replace (Z.max e (e2 - Dec.prec - 1)) with e by (unfold Dec.prec; lia).
    exists (Dec.Fin s2 (c2 * Dec.pow10 (e2 - e)) e).
    assert (Hu : units k (Dec.Fin s2 (c2 * Dec.pow10 (e2 - e)) e)
                 = units k (Dec.Fin s2 c2 e2)).
    { simpl. rewrite signed_mul by lia. rewrite Hp2. lia. }
    split; [apply fix_finite_small; [| lia];
            rewrite N2Z.inj_mul, pow10_Z by lia; lia |].
    split; [split; [lia |] |].
    + rewrite Hu. lia.
    + rewrite Hu. simpl. unfold Dec.signed. destruct s1; simpl; lia.
  - destruct (N.eqb_spec c2 0) as [-> | Hn2]; cbv iota.
    + replace (Z.max e (e1 - Dec.prec - 1)) with e by (unfold Dec.prec; lia).
      exists (Dec.Fin s1 (c1 * Dec.pow10 (e1 - e)) e).
      assert (Hu : units k (Dec.Fin s1 (c1 * Dec.pow10 (e1 - e)) e)
                   = units k (Dec.Fin s1 c1 e1)).
      { simpl. rewrite signed_mul by lia. rewrite Hp1. lia. }
      split; [apply fix_finite_small; [| lia];
              rewrite N2Z.inj_mul, pow10_Z by lia; lia |].
      split; [split; [lia |] |].
      * rewrite Hu. lia.
      * rewrite Hu. simpl. unfold Dec.signed. destruct s2; simpl; lia.
    + set (v := Dec.signed s1 (c1 * Dec.pow10 (e1 - e))
                + Dec.signed s2 (c2 * Dec.pow10 (e2 - e))).
      assert (Hv : v = Dec.signed s1 c1 * 10 ^ (e1 - e) + Dec.signed s2 c2 * 10 ^ (e2 - e)).
      { unfold v. by rewrite !signed_mul by lia. }
      assert (Habs : Z.abs v <= B1 + B2).
      { rewrite Hv. unfold Dec.signed. destruct s1, s2; lia. }
      exists (Dec.Fin (v <? 0) (Z.abs_N v) e).
      assert (Hu : units k (Dec.Fin (v <? 0) (Z.abs_N v) e)
                   = units k (Dec.Fin s1 c1 e1) + units k (Dec.Fin s2 c2 e2)).
      { simpl. rewrite signed_of_Z, Hv, Hp1, Hp2. lia. }
      split; [apply fix_finite_small; [rewrite N2Z.inj_abs_N; lia | lia] |].
      split; [split; [lia |] | exact Hu].
      simpl. rewrite signed_of_Z, Z.abs_mul, (Z.abs_eq (10 ^ (e + k))) by lia.
      rewrite Hv. rewrite Hv in Habs.
      unfold Dec.signed in *. destruct s1, s2; nia.
Qed.

Lemma negate_plain (k B : Z) (a : Dec.t) :
  plain k B a -> plain k B (Dec.copy_negate a)
                 /\ units k (Dec.copy_negate a) = - units k a.
Proof.
  destruct a as [s c e | |]; try done. intros [He Hb].
  assert (Hu : units k (Dec.copy_negate (Dec.Fin s c e)) = - units k (Dec.Fin s c e)).
  { simpl. unfold Dec.signed. destruct s; simpl; lia. }
  split; [split; [done |] | done]. rewrite Hu. lia.
Qed.

Lemma sub_plain (k B1 B2 : Z) (a b : Dec.t) :
  0 <= k <= 28 ->
  plain k B1 a -> plain k B2 b -> B1 + B2 < 10 ^ 28 ->
  exists r, Dec.sub a b = inr r
            /\ plain k (B1 + B2) r
            /\ units k r = units k a - units k b.
Proof.
  intros Hk Ha Hb HB.
  destruct (negate_plain _ _ _ Hb) as [Hnb Hnu].
  destruct (add_plain k B1 B2 a (Dec.copy_negate b) Hk Ha Hnb HB) as (r & Hr & Hp & Hu).
  exists r. split; [| split; [done | lia]].
  destruct a as [s1 c1 e1 | |], b as [s2 c2 e2 | |]; try done.
Qed.

Lemma abs_plain (k B : Z) (a : Dec.t) :
  0 <= k <= 500 ->
  plain k B a -> B < 10 ^ 28 ->
  exists r, Dec.abs a = inr r /\ plain k B r /\ units k r = Z.abs (units k a).
Proof.
  intros Hk Ha HB. destruct a as [s c e | |]; try done.
  pose proof (units_bound_coeff _ _ _ _ _ Ha) as [Hc Hu].
  destruct Ha as [He Hb].
  exists (Dec.Fin false c e).
  pose proof (pow10_pos (e + k) ltac:(lia)).
  assert (Hu' : units k (Dec.Fin false c e) = Z.abs (units k (Dec.Fin s c e))).
  { simpl. rewrite Z.abs_mul, abs_signed, (Z.abs_eq (10 ^ (e + k))) by lia. reflexivity. }
  split; [apply fix_finite_small; lia |].
  split; [split; [done |] | done].
  rewrite Hu'. lia.
Qed.

Lemma cmp_plain (k B1 B2 : Z) (a b : Dec.t) :
  plain k B1 a -> plain k B2 b ->
  Dec.cmp a b = (units k a ?= units k b).
Proof.
  intros Ha Hb.
  destruct a as [s1 c1 e1 | |], b as [s2 c2 e2 | |]; try done.
  destruct Ha as [He1 _], Hb as [He2 _].
  simpl. set (e := Z.min e1 e2).
  rewrite !signed_mul by lia.
  replace (e1 + k) with ((e1 - e) + (e + k)) by lia.
  replace (e2 + k) with ((e2 - e) + (e + k)) by lia.
  rewrite (Z.pow_add_r 10 (e1 - e) (e + k)), (Z.pow_add_r 10 (e2 - e) (e + k)) by lia.
  pose proof (pow10_pos (e + k) ltac:(lia)) as Hpos.
  rewrite (Z.mul_assoc (Dec.signed s1 c1)), (Z.mul_assoc (Dec.signed s2 c2)).
  apply Zmult_compare_compat_r. lia.
Qed.

End DecimalExactness.

(** ** Consistency validation *)

Section ConsistencyValidation.
Import OCRValidator.

(** The number of elements of [l] that satisfy [f]. *)
Definition count {A : Type} (f : A -> bool) (l : list A) : nat := length (List.filter f l).

Lemma count_cons {A : Type} (f : A -> bool) (a : A) (l : list A) :
  count f (a :: l) = (if f a then 1 else 0) + count f l.
Proof. unfold count. simpl. by destruct (f a). Qed.

Lemma count_le_length {A : Type} (f : A -> bool) (l : list A) : count f l <= length l.
Proof. unfold count. apply List.filter_length_le. Qed.

(** The arithmetic check of one item, whatever its index. *)
Definition price_consistent (product : ProductData.t) : bool :=
  match price_calculation product 0 with
  | inr None => true
  | _ => false
  end.

(** The item passes the consistency check: its three numeric fields are
    accepted and the arithmetic check reports nothing. *)
Definition accepted (product : ProductData.t) : bool :=
  _validate_numeric_field (ProductData.quantity product)
  && _validate_numeric_field (ProductData.unit_price product)
  && _validate_numeric_field (ProductData.total_price product)
  && price_consistent product.

(** The item has a product code, found in the text (as it is or as a
    variant); or has one that is not found. *)
Definition located (raw_text : string) (product : ProductData.t) : bool :=
  match ProductData.product_code product with
  | Some code => PyStr.nonempty code && code_in_text code raw_text
  | None => false
  end.
Definition missing (raw_text : string) (product : ProductData.t) : bool :=
  match ProductData.product_code product with
  | Some code => PyStr.nonempty code && negb (code_in_text code raw_text)
  | None => false
  end.

Lemma label_nonempty (i : nat) (rest : string) :
  PyStr.nonempty (product_label i ++ rest)%string = true.
Proof. reflexivity. Qed.

Lemma price_calculation_index (product : ProductData.t) (i : nat) :
  match price_calculation product i with
  | inr None => price_calculation product 0 = inr None
  | inr (Some msg) =>
      PyStr.nonempty msg = true
      /\ exists msg0, price_calculation product 0 = inr (Some msg0)
  | inl e => price_calculation product 0 = inl e
  end.
Proof.
  unfold price_calculation, bind.
  destruct (parse_field (ProductData.quantity product)) as [e | q]; [done |].
  destruct (parse_field (ProductData.unit_price product)) as [e | u]; [done |].
  destruct (parse_field (ProductData.total_price product)) as [e | t]; [done |].
  destruct q as [q |], u as [u |], t as [t |];
    try (split; [apply label_nonempty | eexists; reflexivity]).
  destruct (Dec.truth q && Dec.truth u && Dec.truth t);
    [| split; [apply label_nonempty | eexists; reflexivity]].
  destruct (Dec.mul q u) as [e | calc]; [done |].
  destruct (Dec.sub calc t) as [e | delta]; [done |].
  destruct (Dec.abs delta) as [e | difference]; [done |].
  destruct (Dec.mul t tolerance_rate) as [e | rate]; [done |].
  destruct (Dec.max tolerance_floor rate) as [e | tolerance]; [done |].
  destruct (Dec.gt difference tolerance) as [e | too_far]; [done |].
  destruct too_far; [| done].
  split; [apply label_nonempty | eexists; reflexivity].
Qed.

Lemma validate_price_calculation_cases (product : ProductData.t) (i : nat) :
  if price_consistent product
  then _validate_price_calculation product i = None
  else exists msg, _validate_price_calculation product i = Some msg
                   /\ PyStr.nonempty msg = true.
Proof.
  pose proof (price_calculation_index product i) as H.
  unfold price_consistent, _validate_price_calculation.
  destruct (price_calculation product i) as [e | [msg |]].
  - rewrite H. eexists. split; [reflexivity | apply label_nonempty].
  - destruct H as [Hne [msg0 ->]]. eauto.
  - by rewrite H.
Qed.

Lemma numeric_field_truthy (field : option string) :
  _validate_numeric_field field = true -> truthy field = true.
Proof.
  unfold _validate_numeric_field. destruct (truthy field); [done | discriminate].
Qed.

Lemma consistency_step_spec (errors : list string) (valid i : nat) (product : ProductData.t) :
  exists errors',
    consistency_step (errors, valid) i product
    = (errors', valid + (if accepted product then 1 else 0))
    /\ length errors' = length errors + (if accepted product then 0 else 1).
Proof.
  unfold consistency_step, accepted.
  destruct (_validate_numeric_field (ProductData.quantity product)) eqn:Eq; simpl;
    [| eexists; split; [rewrite Nat.add_0_r; reflexivity
                       | unfold push; rewrite length_app; reflexivity]].
  destruct (_validate_numeric_field (ProductData.unit_price product)) eqn:Eu; simpl;
    [| eexists; split; [rewrite Nat.add_0_r; reflexivity
                       | unfold push; rewrite length_app; reflexivity]].
  destruct (_validate_numeric_field (ProductData.total_price product)) eqn:Et; simpl;
    [| eexists; split; [rewrite Nat.add_0_r; reflexivity
                       | unfold push; rewrite length_app; reflexivity]].
  rewrite (numeric_field_truthy _ Eq), (numeric_field_truthy _ Eu),
    (numeric_field_truthy _ Et). simpl.
  pose proof (validate_price_calculation_cases product i) as H.
  destruct (price_consistent product).
  - rewrite H. eexists. split; [by rewrite Nat.add_1_r | lia].
  - destruct H as (msg & -> & ->). eexists.
    split; [rewrite Nat.add_0_r; reflexivity
           | unfold push; rewrite length_app; reflexivity].
Qed.

Lemma consistency_fold_spec (products : list ProductData.t) :
  forall (start : nat) (errors : list string) (valid : nat),
  exists errors',
    fold_enumerate consistency_step start products (errors, valid)
    = (errors', valid + count accepted products)
    /\ length errors' = length errors + (length products - count accepted products).
Proof.
  induction products as [| product products IH]; intros start errors valid.
  - exists errors. unfold count. simpl. split; [by rewrite Nat.add_0_r | lia].
  - cbn [fold_enumerate]. destruct (consistency_step_spec errors valid start product)
      as (errors1 & -> & Hlen1).
    destruct (IH (S start) errors1 (valid + (if accepted product then 1 else 0)))
      as (errors2 & -> & Hlen2).
    exists errors2. rewrite count_cons.
    pose proof (count_le_length accepted products).
    split; [f_equal; lia |].
    rewrite Hlen2, Hlen1. cbn [length]. destruct (accepted product); lia.
Qed.

Lemma cross_reference_step_spec (raw_text : string) (errors : list string)
      (found i : nat) (product : ProductData.t) :
  exists errors',
    cross_reference_step raw_text (errors, found) i product
    = (errors', found + (if located raw_text product then 1 else 0))
    /\ length errors' = length errors + (if missing raw_text product then 1 else 0).
Proof.
  unfold cross_reference_step, located, missing.
  destruct (ProductData.product_code product) as [code |];
    [| exists errors; split; [by rewrite Nat.add_0_r | lia]].
  destruct (PyStr.nonempty code); simpl;
    [| exists errors; split; [by rewrite Nat.add_0_r | lia]].
  destruct (code_in_text code raw_text); simpl.
  - exists errors. split; [by rewrite Nat.add_1_r | lia].
  - eexists. split; [rewrite Nat.add_0_r; reflexivity
                    | unfold push; rewrite length_app; reflexivity].
Qed.

Lemma cross_reference_fold_spec (raw_text : string) (products : list ProductData.t) :
  forall (start : nat) (errors : list string) (found : nat),
  exists errors',
    fold_enumerate (cross_reference_step raw_text) start products (errors, found)
    = (errors', found + count (located raw_text) products)
    /\ length errors' = length errors + count (missing raw_text) products.
Proof.
  induction products as [| product products IH]; intros start errors found.
  - exists errors. unfold count. simpl. split; [by rewrite Nat.add_0_r | lia].
  - cbn [fold_enumerate]. destruct (cross_reference_step_spec raw_text errors found start product)
      as (errors1 & -> & Hlen1).
    destruct (IH (S start) errors1 (found + (if located raw_text product then 1 else 0)))
      as (errors2 & -> & Hlen2).
    exists errors2. rewrite !count_cons.
    split; [f_equal; lia | lia].
Qed.

(** The score computed from the two fractions and the number of errors. *)
Definition blended_score (consistency text_match : float) (error_count : nat) : float :=
  let overall := PrimFloat.add (PrimFloat.mul consistency 0.6) (PrimFloat.mul text_match 0.4) in
  PyFloat.round3
    (if Nat.ltb 0 error_count
     then PyFloat.max 0 (PrimFloat.sub overall
                           (PyFloat.min (PrimFloat.mul 0.2 (PyFloat.of_nat error_count)) 0.5))
     else overall).

(** [a / n], and 0 when there is no item. *)
Definition fraction (a n : nat) : float :=
  if Nat.ltb 0 n then PyFloat.int_div a n else 0%float.

Lemma validate_products_consistency_spec (products : list ProductData.t) :
  let pv := _validate_products_consistency products in
  length (pv_errors pv) = length products - count accepted products
  /\ consistency_score pv = fraction (count accepted products) (length products).
Proof.
  unfold _validate_products_consistency.
  destruct (consistency_fold_spec products 0 [] 0) as (errors & -> & Hlen).
  simpl. split; [exact Hlen | reflexivity].
Qed.

Lemma cross_reference_with_text_spec (products : list ProductData.t) (raw_text : string) :
  let tv := _cross_reference_with_text products raw_text in
  length (tv_errors tv)
  = (if PyStr.is_empty raw_text then 1 else count (missing raw_text) products)
  /\ text_match_score tv
     = (if PyStr.is_empty raw_text then 0%float
        else fraction (count (located raw_text) products) (length products)).
Proof.
  unfold _cross_reference_with_text.
  destruct (PyStr.is_empty raw_text); [split; reflexivity |].
  destruct (cross_reference_fold_spec raw_text products 0 [] 0) as (errors & -> & Hlen).
  simpl. split; [exact Hlen |].
  destruct products; reflexivity.
Qed.

Lemma parse_field_some_truthy (field : option string) (d : Dec.t) :
  parse_field field = inr (Some d) -> truthy field = true.
Proof.
  destruct field as [s |]; [| discriminate].
  destruct s; [discriminate | reflexivity].
Qed.

Local Open Scope Z_scope.

Lemma numeric_field_positive (field : option string) (d : Dec.t) (B : Z) :
  parse_field field = inr (Some d) -> plain 6 B d -> 0 < units 6 d ->
  _validate_numeric_field field = true /\ Dec.truth d = true.
Proof.
  intros Hp Hd Hpos. unfold _validate_numeric_field.
  rewrite (parse_field_some_truthy _ _ Hp), Hp. simpl.
  destruct d as [s c e | |]; try done.
  assert (H0 : plain 6 0 (Dec.of_Z 0)) by (simpl; lia).
  unfold Dec.ge, Dec.compare_with. simpl Dec.is_nan. cbv iota.
  rewrite (cmp_plain 6 B 0 _ _ Hd H0).
  change (units 6 (Dec.of_Z 0)) with 0.
  destruct (Z.compare_spec (units 6 (Dec.Fin s c e)) 0); try lia.
  split; [reflexivity |].
  simpl. destruct (N.eqb_spec c 0) as [-> | ?]; [| reflexivity].
  simpl in Hpos. unfold Dec.signed in Hpos. destruct s; simpl in Hpos; lia.
Qed.

(** The arithmetic check on amounts with at most six decimal places:
    quantity, unit price and total are compared exactly. *)
Lemma price_consistent_exact (product : ProductData.t) (q u t : Dec.t) :
  parse_field (ProductData.quantity product) = inr (Some q) ->
  parse_field (ProductData.unit_price product) = inr (Some u) ->
  parse_field (ProductData.total_price product) = inr (Some t) ->
  plain 6 (10 ^ 12) q -> plain 6 (10 ^ 12) u -> plain 6 (10 ^ 12) t ->
  0 < units 6 q -> 0 < units 6 u -> 0 < units 6 t ->
  accepted product
  = (Z.abs (units 6 q * units 6 u - units 6 t * 10 ^ 6)
     <=? Z.max (10 ^ 10) (units 6 t * 10 ^ 3)).
Proof.
  intros Hq Hu Ht Pq Pu Pt Zq Zu Zt.
  destruct (numeric_field_positive _ _ _ Hq Pq Zq) as [Vq Tq].
  destruct (numeric_field_positive _ _ _ Hu Pu Zu) as [Vu Tu].
  destruct (numeric_field_positive _ _ _ Ht Pt Zt) as [Vt Tt].
  unfold accepted. rewrite Vq, Vu, Vt. simpl andb.
  unfold price_consistent, price_calculation.
  rewrite Hq, Hu, Ht. simpl bind. rewrite Tq, Tu, Tt. simpl andb. cbv iota.
  (* quantity * unit_price *)
  destruct (mul_plain 6 6 _ _ q u ltac:(lia) ltac:(lia) Pq Pu ltac:(lia))
    as (calc & -> & Pcalc & Ucalc).
  simpl bind.
  (* calculated_total - total_price *)
  destruct (plain_rescale 6 6 _ t ltac:(lia) Pt) as [Pt12 Ut12].
  destruct (sub_plain (6 + 6) _ _ calc t ltac:(lia) Pcalc Pt12 ltac:(lia))
    as (delta & -> & Pdelta & Udelta).
  simpl bind.
  destruct (abs_plain (6 + 6) _ delta ltac:(lia) Pdelta ltac:(lia))
    as (difference & -> & Pdiff & Udiff).
  simpl bind.
  (* total_price * 0.001 *)
  assert (Prate0 : plain 3 1 tolerance_rate) by (simpl; lia).
  destruct (mul_plain 6 3 _ _ t tolerance_rate ltac:(lia) ltac:(lia) Pt Prate0 ltac:(lia))
    as (rate & -> & Prate & Urate).
  simpl bind.
  change (units 3 tolerance_rate) with 1 in Urate.
  (* max(0.01, rate) *)
  assert (Pfloor : plain (6 + 3) (10 ^ 7) tolerance_floor) by (simpl; lia).
  assert (Ufloor : units (6 + 3) tolerance_floor = 10 ^ 7) by reflexivity.
  unfold Dec.max, Dec.gt, Dec.compare_with.
  assert (Nrate : Dec.is_nan rate = false) by (destruct rate; done).
  assert (Ndiff : Dec.is_nan difference = false) by (destruct difference; done).
  rewrite Nrate. simpl bind.
  rewrite (cmp_plain (6 + 3) _ _ _ _ Prate Pfloor), Ufloor, Urate.
  set (tolerance := if match units 6 t * 1 ?= 10 ^ 7 with Gt => true | _ => false end
                    then rate else tolerance_floor).
  assert (Ptol : plain (6 + 3) (10 ^ 12) tolerance
                 /\ units (6 + 3) tolerance = Z.max (10 ^ 7) (units 6 t)).
  { unfold tolerance.
    destruct (Z.compare_spec (units 6 t * 1) (10 ^ 7)).
    - split; [eapply plain_weaken; [| exact Pfloor]; lia | rewrite Ufloor; lia].
    - split; [eapply plain_weaken; [| exact Pfloor]; lia | rewrite Ufloor; lia].
    - split; [eapply plain_weaken; [| exact Prate]; lia | rewrite Urate; lia]. }
  destruct Ptol as [Ptol Utol].
  destruct (plain_rescale (6 + 3) 3 _ tolerance ltac:(lia) Ptol) as [Ptol12 Utol12].
  assert (Ntol : Dec.is_nan tolerance = false) by (destruct tolerance; done).
  rewrite Ndiff, Ntol. simpl bind.
  replace (6 + 3 + 3) with (6 + 6) in * by lia.
  rewrite (cmp_plain (6 + 6) _ _ _ _ Pdiff Ptol12).
  rewrite Udiff, Udelta, Ucalc, Ut12, Utol12, Utol.
  replace (Z.max (10 ^ 10) (units 6 t * 10 ^ 3))
    with (Z.max (10 ^ 7) (units 6 t) * 10 ^ 3) by lia.
  destruct (Z.compare_spec (Z.abs (units 6 q * units 6 u - units 6 t * 10 ^ 6))
                           (Z.max (10 ^ 7) (units 6 t) * 10 ^ 3)) as [E | E | E].
  - rewrite E. symmetry. apply Z.leb_le. lia.
  - symmetry. apply Z.leb_le. lia.
  - symmetry. apply Z.leb_gt. lia.
Qed.

End ConsistencyValidation.

(** C10. With the validation switched off, every page gets validity true,
    confidence 0.8, no error and no corrected data, whatever its items and
    text. *)
Theorem validation_disabled_outcome
  (threshold : float) (checksums : bool) (page_data : PageData.t) :
  OCRValidator.validate_page_data
    (ProcessingConfig.Make false threshold checksums) page_data
  = ValidationResult.Make (PageData.page_number page_data) true 0.8%float [] None.
Proof. reflexivity. Qed.

(** Three items with a consistent price, the third with a product code
    that the page text does not contain. *)
Definition item (code q u t : string) : ProductData.t :=
  ProductData.Make (Some code) None None (Some "MT") (Some q) (Some u) (Some t).
Definition three_items : list ProductData.t :=
  [ item "MMA00.1111.0001" "2" "3" "6";
    item "MMA00.1111.0002" "34,19" "3,712" "126,911";
    item "MMA00.1111.0003" "1" "1" "1" ].
Definition two_codes_page : PageData.t :=
  PageData.Make 0 "MMA00.1111.0001 x MMA00.1111.0002" [] three_items None [] [].

(** C2, as stated, fails: with all three items consistent, two of three
    codes in the text and one error, the stated score is
    0.6 * 1 + 0.4 * (2/3) - 0.2 = 0.6666..., and the code returns 0.667. *)
Lemma confidence_score_is_rounded :
  let result := OCRValidator.validate_page_data ProcessingConfig.default two_codes_page in
  length (ValidationResult.validation_errors result) = 1
  /\ count accepted three_items = 3
  /\ count (located (PageData.raw_text two_codes_page)) three_items = 2
  /\ ValidationResult.confidence_score result = 0.667%float
  /\ PrimFloat.sub
       (PrimFloat.add (PrimFloat.mul (PyFloat.int_div 3 3) 0.6)
                      (PrimFloat.mul (PyFloat.int_div 2 3) 0.4))
       (PyFloat.min 0.5 (PrimFloat.mul 0.2 (PyFloat.of_nat 1)))
     = 0.6666666666666667%float
  /\ PrimFloat.eqb 0.667 0.6666666666666667 = false.
Proof. vm_compute. repeat split; reflexivity. Qed.

(** C2 (amended). Consistency validation, with the validation switched on.
    The confidence score is 0.6 * (fraction of items that pass the
    consistency check) + 0.4 * (fraction of items whose product code, or a
    variant of it, stands in the page text; 0 when the page has no text),
    minus min(0.2 * error_count, 0.5) and not below 0 when errors were
    recorded, rounded to three decimal places; both fractions are 0 for a
    page without items. One error is recorded per item that fails the
    consistency check, one per item whose code is not found, and one for a
    page without text. The page is valid iff the score is at least the
    threshold and no error was recorded, and corrected data is produced
    exactly for an invalid page. An item whose quantity, unit price and
    total parse to positive amounts of at most six decimal places (below
    10^6) passes the consistency check iff |quantity * unit_price - total|
    is at most max(0.01, 0.001 * total), computed exactly. *)
Theorem confidence_score_contract :
  (forall (threshold : float) (checksums : bool) (page_data : PageData.t),
      let products := PageData.products page_data in
      let raw_text := PageData.raw_text page_data in
      let result :=
        OCRValidator.validate_page_data
          (ProcessingConfig.Make true threshold checksums) page_data in
      let error_count := length (ValidationResult.validation_errors result) in
      let consistency := fraction (count accepted products) (length products) in
      let text_match :=
        if PyStr.is_empty raw_text then 0%float
        else fraction (count (located raw_text) products) (length products) in
      error_count
      = (length products - count accepted products)
        + (if PyStr.is_empty raw_text then 1 else count (missing raw_text) products)
      /\ ValidationResult.confidence_score result
         = blended_score consistency text_match error_count
      /\ (ValidationResult.is_valid result = true
          <-> PyFloat.geb (ValidationResult.confidence_score result) threshold = true
              /\ ValidationResult.validation_errors result = [])
      /\ (ValidationResult.corrected_data result = None
          <-> ValidationResult.is_valid result = true))
  /\ (forall (product : ProductData.t) (q u t : Dec.t),
         parse_field (ProductData.quantity product) = inr (Some q) ->
         parse_field (ProductData.unit_price product) = inr (Some u) ->
         parse_field (ProductData.total_price product) = inr (Some t) ->
         plain 6 (10 ^ 12) q -> plain 6 (10 ^ 12) u -> plain 6 (10 ^ 12) t ->
         (0 < units 6 q)%Z -> (0 < units 6 u)%Z -> (0 < units 6 t)%Z ->
         accepted product = true
         <-> (Z.abs (units 6 q * units 6 u - units 6 t * 10 ^ 6)
              <= Z.max (10 ^ 10) (units 6 t * 10 ^ 3))%Z).
Proof.
  split.
  - intros threshold checksums page_data. cbv zeta.
    unfold OCRValidator.validate_page_data. simpl negb. cbv iota.
    cbn [ValidationResult.validation_errors ValidationResult.confidence_score
         ValidationResult.is_valid ValidationResult.corrected_data
         ProcessingConfig.ocr_confidence_threshold].
    pose proof (validate_products_consistency_spec (PageData.products page_data)) as [Hpe Hps].
    pose proof (cross_reference_with_text_spec (PageData.products page_data)
                  (PageData.raw_text page_data)) as [Hte Hts].
    assert (Hlen : length (OCRValidator.pv_errors
                             (OCRValidator._validate_products_consistency
                                (PageData.products page_data))
                           ++ OCRValidator.tv_errors
                                (OCRValidator._cross_reference_with_text
                                   (PageData.products page_data)
                                   (PageData.raw_text page_data)))
                   = (length (PageData.products page_data)
                      - count accepted (PageData.products page_data))
                     + (if PyStr.is_empty (PageData.raw_text page_data) then 1
                        else count (missing (PageData.raw_text page_data))
                                   (PageData.products page_data))).
    { rewrite length_app, Hpe, Hte. reflexivity. }
    split; [exact Hlen |].
    split.
    { unfold OCRValidator._calculate_confidence_score, blended_score.
      rewrite Hps, Hts, <- length_app, Hlen. reflexivity. }
    split.
    + rewrite andb_true_iff, Nat.eqb_eq.
      split; intros [H1 H2]; (split; [exact H1 |]).
      * by apply length_zero_iff_nil.
      * by rewrite H2.
    + destruct (PyFloat.geb _ _ && Nat.eqb _ 0); simpl; split; congruence.
  - intros product q u t Hq Hu Ht Pq Pu Pt Zq Zu Zt.
    rewrite (price_consistent_exact product q u t Hq Hu Ht Pq Pu Pt Zq Zu Zt).
    apply Z.leb_le.
Qed.

(** An item of the invoice: 34.19 at 3.712 makes 126.91328, within 0.1% of
    the printed total 126.911. *)
Lemma confidence_score_contract_witness :
  accepted (item "MMA00.1111.0002" "34,19" "3,712" "126,911") = true.
Proof.
  destruct confidence_score_contract as [_ Hexact].
  apply (Hexact (item "MMA00.1111.0002" "34,19" "3,712" "126,911")
                (Dec.Fin false 3419 (-2)) (Dec.Fin false 3712 (-3))
                (Dec.Fin false 126911 (-3)));
    try reflexivity; try (simpl; lia).
Defined.

(** ** Column mapping *)

Section ColumnMapping.
Import TableExtractor.

Lemma setdefault_lookup (key k : string) (value : option nat)
      (col_map : gmap string (option nat)) :
  setdefault key value col_map !! k =
    match col_map !! k with
    | Some v => Some v
    | None => if decide (k = key) then Some value else None
    end.
Proof.
  unfold setdefault. destruct (decide (k = key)) as [-> | Hne].
  - destruct (col_map !! key) eqn:E; [by rewrite E |].
    by rewrite lookup_insert_eq.
  - destruct (col_map !! key); [by destruct (col_map !! k) |].
    rewrite lookup_insert_ne by done. by destruct (col_map !! k).
Qed.

(** The column that the positional fallback gives to a role. *)
Definition positional (df : grid) (role : string) : option (option nat) :=
  if String.eqb role "product_code_raw" then Some (Some 0)
  else if String.eqb role "customs_code" then Some (col_or_none df 2)
  else if String.eqb role "unit_measure" then Some (col_or_none df 3)
  else if String.eqb role "quantity" then Some (col_or_none df 4)
  else if String.eqb role "unit_price" then Some (col_or_none df 5)
  else if String.eqb role "line_total" then Some (col_or_none df 6)
  else None.

(** Some mandatory role has no column after the header matching. *)
Definition header_incomplete (df : grid) : bool :=
  negb (forallb (fun k => bool_decide (is_Some (header_mapping df !! k))) required_cols).

Lemma fallback_lookup (df : grid) (role : string) :
  header_incomplete df = true ->
  _map_table_columns df !! role =
    match header_mapping df !! role with
    | Some v => Some v
    | None => positional df role
    end.
Proof.
  intros H. unfold _map_table_columns. unfold header_incomplete in H. rewrite H.
  rewrite !setdefault_lookup.
  destruct (header_mapping df !! role); [done |].
  unfold positional.
  repeat (destruct (decide _) as [-> | ?]; [reflexivity |]).
  repeat match goal with
         | |- context [String.eqb role ?k] =>
             destruct (String.eqb_spec role k); [congruence |]
         end.
  reflexivity.
Qed.

End ColumnMapping.

(** A table whose product-code header stands in the second column and
    whose quantity header is not recognised. *)
Definition shifted_grid : grid :=
  [ ["Pos"; "Prodotto/Var/Tg"; "Voce dog"; "UM"; "Q.ta"; "Prezzo unitario"; "Importo"];
    ["1"; "MMA00.1234.5678"; "5806"; "MT"; "34,19"; "3,712"; "126,911"] ].

(** C7, as stated, fails: the quantity role is unmapped after the header
    matching, the fallback runs, and the product code stays at column 1,
    where its header was found, not at column 0. *)
Lemma fallback_keeps_header_columns :
  TableExtractor.header_mapping shifted_grid !! "quantity" = None
  /\ header_incomplete shifted_grid = true
  /\ TableExtractor._map_table_columns shifted_grid !! "product_code_raw" = Some (Some 1)
  /\ TableExtractor._map_table_columns shifted_grid !! "quantity" = Some (Some 4).
Proof. repeat split; vm_compute; reflexivity. Qed.

(** C7 (amended). Column mapping fallback. When a mandatory role (product
    code, quantity, unit price, line total) is unmapped after the header
    matching, every role that the headers did map keeps its column and
    every other role gets its fixed position: product code 0, customs
    code 2, unit of measure 3, quantity 4, unit price 5, line total 6, and
    no column when the table is too narrow for that position; when all
    four are mapped the header mapping is used as it is. A table with a
    header row only yields no item. Otherwise, if all four mandatory roles
    have a column the rows are read by the structured extractor, and if
    one is still without a column the rows are handed to the flexible
    extractor: the table is not rejected, and processing the tables of a
    page leaves the page's error list as it was. *)
Theorem column_mapping_fallback :
  (forall (df : grid) (role : string),
      header_incomplete df = true ->
      TableExtractor._map_table_columns df !! role =
        match TableExtractor.header_mapping df !! role with
        | Some column => Some column
        | None => positional df role
        end)
  /\ (forall df : grid,
         header_incomplete df = false ->
         TableExtractor._map_table_columns df = TableExtractor.header_mapping df)
  /\ (forall (structured flexible : grid -> gmap string (option nat) -> list ProductData.t)
             (df : grid) (col_map : gmap string (option nat)),
         TableExtractor._extract_products_from_table structured flexible df col_map =
           if Nat.ltb (length df) 2 then []
           else if forallb (fun role => match col_map !! role with
                                        | Some (Some _) => true
                                        | _ => false
                                        end)
                           ["product_code_raw"; "quantity"; "unit_price"; "line_total"]
                then structured df col_map
                else flexible df col_map)
  /\ (forall (structured flexible : grid -> gmap string (option nat) -> list ProductData.t)
             (page_data : PageData.t),
         PageData.errors (TableExtractor.process_tables structured flexible page_data)
         = PageData.errors page_data)
  /\ (forall (df : grid) (role : string),
         header_incomplete df = true ->
         In role ["quantity"; "unit_price"; "line_total"] ->
         TableExtractor.header_mapping df !! role = None ->
         TableExtractor.ncols df <= 4 ->
         TableExtractor._validate_required_columns (TableExtractor._map_table_columns df)
         = false).
Proof.
  split; [| split; [| split; [| split]]].
  - intros df role H. by apply fallback_lookup.
  - intros df H. unfold TableExtractor._map_table_columns.
    unfold header_incomplete in H. by rewrite H.
  - intros. reflexivity.
  - intros. reflexivity.
  - intros df role Hinc Hin Hnone Hn.
    unfold TableExtractor._validate_required_columns.
    apply not_true_is_false. intros Hall.
    rewrite forallb_forall in Hall.
    assert (Hrole : In role TableExtractor.required_cols).
    { unfold TableExtractor.required_cols. simpl in *. tauto. }
    specialize (Hall role Hrole).
    rewrite (fallback_lookup df role Hinc), Hnone in Hall.
    unfold positional, TableExtractor.col_or_none in Hall.
    simpl in Hin. destruct Hin as [<- | [<- | [<- | []]]]; simpl in Hall;
      match type of Hall with
      | context [Nat.ltb ?i ?n] => destruct (Nat.ltb_spec i n); [lia | discriminate]
      end.
Qed.

(** The table above: its quantity column comes from the fixed position. *)
Lemma column_mapping_fallback_witness :
  TableExtractor._map_table_columns shifted_grid !! "quantity" = Some (Some 4).
Proof.
  assert (Hinc : header_incomplete shifted_grid = true) by (vm_compute; reflexivity).
  rewrite (proj1 column_mapping_fallback shifted_grid "quantity" Hinc).
  vm_compute. reflexivity.
Defined.


(** ** Product-delivery association *)

Section Association.
Import TableExtractor.
Import OCRValidator (push, fold_enumerate).

Lemma fold_enumerate_app {A B : Type} (f : B -> nat -> A -> B) (l1 l2 : list A) :
  forall (start : nat) (acc : B),
    fold_enumerate f start (l1 ++ l2) acc
    = fold_enumerate f (start + length l1) l2 (fold_enumerate f start l1 acc).
Proof.
  induction l1 as [| a l1 IH]; intros start acc; simpl.
  - by rewrite Nat.add_0_r.
  - rewrite IH. f_equal. lia.
Qed.

(** The state of the search after the positions of a prefix: nothing at or
    before the product yet, or the first of the nearest positions at or
    before it. *)
Definition nearest_so_far (product_position : nat) (seen : list nat)
           (best : option nat * option nat) : Prop :=
  match best with
  | (None, None) => forall k dk, seen !! k = Some dk -> product_position < dk
  | (Some j, Some distance) =>
      exists dj, seen !! j = Some dj /\ dj <= product_position
                 /\ distance = product_position - dj
                 /\ (forall k dk, seen !! k = Some dk -> dk <= product_position -> dk <= dj)
                 /\ (forall k dk, k < j -> seen !! k = Some dk ->
                                  dk <= product_position -> dk < dj)
  | _ => False
  end.

Lemma lookup_snoc_cases (seen : list nat) (d k dk : nat) :
  (seen ++ [d]) !! k = Some dk ->
  seen !! k = Some dk \/ (k = length seen /\ dk = d).
Proof.
  intros Hk. apply lookup_app_Some in Hk as [Hk | [Hge Hk]]; [by left | right].
  destruct (k - length seen) as [| n] eqn:E; simpl in Hk; [| done].
  inversion Hk. split; [lia | done].
Qed.

Lemma closest_step_invariant (product_position : nat) (seen : list nat) (d : nat)
      (best : option nat * option nat) :
  nearest_so_far product_position seen best ->
  nearest_so_far product_position (seen ++ [d])
                 (closest_step product_position best (length seen) d).
Proof.
  intros Inv. unfold closest_step.
  destruct best as [[j |] [distance |]]; simpl in *; try done.
  - destruct Inv as (dj & Hj & Hle & -> & Hmax & Hfirst).
    assert (Hjlt : j < length seen) by (eapply lookup_lt_Some; eauto).
    destruct (Nat.leb_spec d product_position) as [Hd | Hd].
    + destruct (Nat.ltb_spec (product_position - d) (product_position - dj)) as [Hlt | Hge].
      * exists d. rewrite lookup_app_r, Nat.sub_diag by lia.
        repeat split; try done.
        -- intros k dk Hk Hdk. apply lookup_snoc_cases in Hk as [Hk | [_ ->]]; [| lia].
           specialize (Hmax k dk Hk Hdk). lia.
        -- intros k dk Hklt Hk Hdk. rewrite lookup_app_l in Hk by lia.
           specialize (Hmax k dk Hk Hdk). lia.
      * exists dj. rewrite lookup_app_l by lia.
        repeat split; try done.
        -- intros k dk Hk Hdk. apply lookup_snoc_cases in Hk as [Hk | [_ ->]]; [| lia].
           by apply (Hmax k dk).
        -- intros k dk Hklt Hk Hdk. rewrite lookup_app_l in Hk by lia.
           by apply (Hfirst k dk).
    + exists dj. rewrite lookup_app_l by lia.
      repeat split; try done.
      * intros k dk Hk Hdk. apply lookup_snoc_cases in Hk as [Hk | [_ ->]]; [| lia].
        by apply (Hmax k dk).
      * intros k dk Hklt Hk Hdk. rewrite lookup_app_l in Hk by lia.
        by apply (Hfirst k dk).
  - destruct (Nat.leb_spec d product_position) as [Hd | Hd]; simpl.
    + exists d. rewrite lookup_app_r, Nat.sub_diag by lia.
      repeat split; try done.
      * intros k dk Hk Hdk. apply lookup_snoc_cases in Hk as [Hk | [_ ->]]; [| lia].
        specialize (Inv k dk Hk). lia.
      * intros k dk Hklt Hk Hdk. rewrite lookup_app_l in Hk by lia.
        specialize (Inv k dk Hk). lia.
    + intros k dk Hk. apply lookup_snoc_cases in Hk as [Hk | [_ ->]]; [| lia].
      by apply (Inv k dk).
Qed.

Lemma closest_fold_invariant (product_position : nat) (positions : list nat) :
  nearest_so_far product_position positions
    (fold_enumerate (closest_step product_position) 0 positions (None, None)).
Proof.
  induction positions as [| d seen IH] using rev_ind.
  - simpl. intros k dk Hk. done.
  - rewrite fold_enumerate_app. simpl. by apply closest_step_invariant.
Qed.

Lemma closest_preceding_some (product_position : nat) (positions : list nat) (j : nat) :
  _find_closest_preceding_delivery product_position positions = Some j ->
  exists dj, positions !! j = Some dj /\ dj <= product_position
             /\ (forall k dk, positions !! k = Some dk -> dk <= product_position -> dk <= dj)
             /\ (forall k dk, k < j -> positions !! k = Some dk ->
                              dk <= product_position -> dk < dj).
Proof.
  unfold _find_closest_preceding_delivery.
  pose proof (closest_fold_invariant product_position positions) as Inv.
  destruct (fold_enumerate _ 0 positions (None, None)) as [[j' |] [distance |]];
    simpl in *; try done.
  intros [= ->]. destruct Inv as (dj & ? & ? & _ & ? & ?). eauto.
Qed.


(** The group that receives an item at [product_position]: the nearest
    one at or before it, else the first group of the page. *)
Definition target (delivery_positions : list nat) (product_position : nat) : nat :=
  default 0 (_find_closest_preceding_delivery product_position delivery_positions).

Lemma target_lt (delivery_positions : list nat) (product_position : nat) :
  delivery_positions <> [] ->
  target delivery_positions product_position < length delivery_positions.
Proof.
  intros Hne. unfold target.
  destruct (_find_closest_preceding_delivery _ _) as [j |] eqn:E; simpl.
  - apply closest_preceding_some in E as (dj & Hj & _). by eapply lookup_lt_Some.
  - destruct delivery_positions; [done | simpl; lia].
Qed.

(** The items placed on group [i]. *)
Definition placed_on (delivery_positions : list nat) (i : nat)
           (placed : list (ProductData.t * nat)) : list ProductData.t :=
  map fst (List.filter (fun '(_, pos) => Nat.eqb (target delivery_positions pos) i) placed).

Lemma append_product_lookup (ds : list DeliveryData.t) (i j : nat) (p : ProductData.t) :
  i < length ds ->
  append_product ds i p !! j =
    (fun d => if Nat.eqb i j
              then DeliveryData.set_products d (DeliveryData.products d ++ [p])
              else d) <$> ds !! j.
Proof.
  intros Hi. unfold append_product.
  destruct (lookup_lt_is_Some_2 ds i Hi) as [d Hd]. rewrite Hd.
  destruct (Nat.eqb_spec i j) as [<- | Hne].
  - rewrite list_lookup_insert_eq by done. by rewrite Hd.
  - rewrite list_lookup_insert_ne by done.
    destruct (ds !! j) as [d' |]; reflexivity.
Qed.

Lemma append_product_length (ds : list DeliveryData.t) (i : nat) (p : ProductData.t) :
  length (append_product ds i p) = length ds.
Proof.
  unfold append_product. destruct (ds !! i); [apply length_insert | done].
Qed.

Lemma associate_each_spec (delivery_positions : list nat)
      (placed : list (ProductData.t * nat)) :
  forall ds : list DeliveryData.t,
    length ds = length delivery_positions -> ds <> [] ->
    length (associate_each delivery_positions ds placed) = length ds
    /\ forall i, associate_each delivery_positions ds placed !! i =
                 (fun d => DeliveryData.set_products d
                             (DeliveryData.products d
                              ++ placed_on delivery_positions i placed)) <$> ds !! i.
Proof.
  induction placed as [| [p pos] placed IH]; intros ds Hlen Hne.
  - split; [done |]. intros i. simpl. unfold placed_on. simpl.
    destruct (ds !! i) as [d |]; [| done]. simpl. rewrite app_nil_r.
    by destruct d.
  - assert (Hpos : delivery_positions <> []).
    { intros ->. destruct ds; done. }
    pose proof (target_lt delivery_positions pos Hpos) as Ht.
    unfold associate_each. simpl.
    set (ds1 := match _find_closest_preceding_delivery pos delivery_positions with
                | Some i => append_product ds i p
                | None => append_product ds 0 p
                end).
    assert (Hds1 : ds1 = append_product ds (target delivery_positions pos) p).
    { unfold ds1, target. by destruct (_find_closest_preceding_delivery _ _). }
    assert (Hlen1 : length ds1 = length ds) by (rewrite Hds1; apply append_product_length).
    destruct (IH ds1) as [IHlen IHget].
    { lia. }
    { intros E. rewrite E in Hlen1. destruct ds; done. }
    fold (associate_each delivery_positions ds1 placed).
    split; [lia |].
    intros i. rewrite IHget, Hds1, append_product_lookup by lia.
    destruct (ds !! i) as [d |]; [| done]. simpl. f_equal.
    unfold placed_on. simpl.
    destruct (Nat.eqb_spec (target delivery_positions pos) i); simpl.
    + by rewrite <- app_assoc.
    + reflexivity.
Qed.





Lemma delivery_positions_cleared (page_text : string) (ds : list DeliveryData.t) :
  _find_delivery_positions_in_text page_text
    (map (fun d => DeliveryData.set_products d []) ds)
  = _find_delivery_positions_in_text page_text ds.
Proof.
  unfold _find_delivery_positions_in_text. rewrite map_map.
  apply map_ext. intros d. by destruct d.
Qed.

End Association.

Section AssociationResult.
Import TableExtractor.

Lemma product_positions_length (page_text : string) (products : list ProductData.t) :
  forall positions,
    _find_product_positions_in_text page_text products = inr positions ->
    length positions = length products.
Proof.
  induction products as [| p ps IH]; intros positions; simpl.
  - by intros [= <-].
  - destruct (product_position page_text p) as [e | i]; [done |]. simpl.
    destruct (_find_product_positions_in_text page_text ps) as [e | rest]; [done |].
    simpl. intros [= <-]. simpl. f_equal. by apply IH.
Qed.



Lemma associate_multiple (page_data : PageData.t) (positions : list nat) :
  2 <= length (PageData.all_deliveries page_data) ->
  PageData.products page_data <> [] ->
  _find_product_positions_in_text (PageData.raw_text page_data)
                                  (PageData.products page_data) = inr positions ->
  let delivery_positions :=
    _find_delivery_positions_in_text (PageData.raw_text page_data)
                                     (PageData.all_deliveries page_data) in
  let placed := combine (PageData.products page_data) positions in
  exists ds',
    _associate_products_with_deliveries page_data = (with_deliveries page_data ds', None)
    /\ length ds' = length (PageData.all_deliveries page_data)
    /\ forall i d, PageData.all_deliveries page_data !! i = Some d ->
                   ds' !! i = Some (DeliveryData.set_products d
                                      (placed_on delivery_positions i placed)).
Proof.
  intros Hlen Hps Hpos. cbv zeta.
  unfold _associate_products_with_deliveries.
  destruct (PageData.all_deliveries page_data) as [| d1 [| d2 ds]] eqn:Hds;
    simpl in Hlen; try lia.
  destruct (PageData.products page_data) as [| p ps] eqn:Hprods; [done |].
  cbn [map]. rewrite Hpos.
  set (all := d1 :: d2 :: ds) in *.
  change (DeliveryData.set_products d1 [] :: DeliveryData.set_products d2 []
            :: map (fun d => DeliveryData.set_products d []) ds)
    with (map (fun d => DeliveryData.set_products d []) all).
  rewrite delivery_positions_cleared.
  set (dpos := _find_delivery_positions_in_text (PageData.raw_text page_data) all).
  destruct (associate_each_spec dpos (combine (p :: ps) positions)
              (map (fun d => DeliveryData.set_products d []) all))
    as [Hl Hget].
  { unfold dpos, _find_delivery_positions_in_text. by rewrite !length_map. }
  { done. }
  eexists. split; [reflexivity |]. split.
  - by rewrite Hl, length_map.
  - intros i d Hi. rewrite Hget, list_lookup_fmap, Hi. simpl. by destruct d.
Qed.

End AssociationResult.

(** A page text of 1000 characters with one group at offset 50 and another
    at offset 900, an item at offset 300, an item at offset 950, and an
    item that the text does not contain. *)
Definition dashes (n : nat) : string := String.concat "" (repeat "-" n).
Definition two_group_text : string :=
  (dashes 50 ++ "MS5LH0002 3635" ++ dashes 236 ++ "MMA00.0000.0001" ++ dashes 585
   ++ "MS5LH0002 3636" ++ dashes 36 ++ "MMA00.0000.0002" ++ dashes 35)%string.
Definition group (number : string) : DeliveryData.t :=
  DeliveryData.Make (Some "MS5LH0002") (Some number) None None None None None None None None [].
Definition coded (code : string) : ProductData.t :=
  ProductData.Make (Some code) None None None (Some "1") (Some "1") (Some "1").
Definition two_group_page : PageData.t :=
  PageData.Make 0 two_group_text []
    [coded "MMA00.0000.0001"; coded "MMA00.0000.0002"; coded "MMA00.0000.0003"]
    (Some (group "3635")) [group "3635"; group "3636"] [].






(** ** Delivery deduplication *)

Section Deduplication.
Import ResponseCompiler.
Import OCRValidator (push, fold_enumerate).

(** The deliveries of a list that carry a given key, in the order of the list. *)
Definition same_key (key : string) (deliveries : list DeliveryData.t)
  : list DeliveryData.t :=
  List.filter (fun d => String.eqb (ddt_key d) key) deliveries.

(** The group that a key stands for: the first delivery that carries it,
    holding the items of all the deliveries that carry it, in their order. *)
Definition group_of (key : string) (deliveries : list DeliveryData.t)
  : option DeliveryData.t :=
  match same_key key deliveries with
  | [] => None
  | d :: _ =>
      Some (DeliveryData.set_products
              d (flat_map DeliveryData.products (same_key key deliveries)))
  end.

(** Two deliveries that differ in completed fields only. *)
Definition same_group (d d' : DeliveryData.t) : Prop :=
  DeliveryData.ddt_series d' = DeliveryData.ddt_series d
  /\ DeliveryData.ddt_number d' = DeliveryData.ddt_number d
  /\ DeliveryData.products d' = DeliveryData.products d.

Lemma set_products_same (d : DeliveryData.t) :
  DeliveryData.set_products d (DeliveryData.products d) = d.
Proof. by destruct d. Qed.

Lemma same_key_snoc (key : string) (deliveries : list DeliveryData.t)
      (x : DeliveryData.t) :
  same_key key (deliveries ++ [x])
  = same_key key deliveries ++ (if String.eqb (ddt_key x) key then [x] else []).
Proof. unfold same_key. rewrite List.filter_app. reflexivity. Qed.

Lemma same_key_other (key : string) (deliveries : list DeliveryData.t)
      (x : DeliveryData.t) :
  ddt_key x <> key -> same_key key (deliveries ++ [x]) = same_key key deliveries.
Proof.
  intros Hne. rewrite same_key_snoc.
  destruct (String.eqb_spec (ddt_key x) key); [done |]. by rewrite app_nil_r.
Qed.

Lemma group_of_other (key : string) (deliveries : list DeliveryData.t)
      (x : DeliveryData.t) :
  ddt_key x <> key -> group_of key (deliveries ++ [x]) = group_of key deliveries.
Proof. intros Hne. unfold group_of. by rewrite same_key_other. Qed.

Lemma same_key_nil (key : string) (deliveries : list DeliveryData.t) :
  (forall d, In d deliveries -> ddt_key d <> key) -> same_key key deliveries = [].
Proof.
  intros Hnone. unfold same_key.
  destruct (List.filter _ deliveries) as [| d rest] eqn:E; [done |].
  assert (Hin : In d (List.filter (fun d => String.eqb (ddt_key d) key) deliveries))
    by (rewrite E; by left).
  apply List.filter_In in Hin as [Hin Hk].
  apply String.eqb_eq in Hk. by destruct (Hnone d Hin).
Qed.

(** What holds of (unique_deliveries, seen_ddts) after the deliveries
    [processed]. *)
Definition dedup_invariant (processed : list DeliveryData.t)
           (acc : list DeliveryData.t * gmap string nat) : Prop :=
  (forall k i, snd acc !! k = Some i
               <-> exists g, fst acc !! i = Some g /\ ddt_key g = k)
  /\ (forall i g, fst acc !! i = Some g -> group_of (ddt_key g) processed = Some g)
  /\ (forall d, In d processed -> is_Some (snd acc !! ddt_key d))
  /\ Permutation (flat_map DeliveryData.products (fst acc))
                 (flat_map DeliveryData.products processed).

Lemma flat_map_insert (u : list DeliveryData.t) (i : nat) (g : DeliveryData.t)
      (more : list ProductData.t) :
  u !! i = Some g ->
  Permutation
    (flat_map DeliveryData.products
       (<[i := DeliveryData.set_products g (DeliveryData.products g ++ more)]> u))
    (flat_map DeliveryData.products u ++ more).
Proof.
  intros Hi.
  rewrite insert_take_drop by (by eapply lookup_lt_Some).
  rewrite <- (take_drop_middle u i g Hi) at 3.
  rewrite !flat_map_app. simpl.
  rewrite <- !app_assoc. apply Permutation_app_head.
  apply Permutation_app_head. apply Permutation_app_comm.
Qed.

Lemma dedup_step_invariant (processed : list DeliveryData.t)
      (acc : list DeliveryData.t * gmap string nat) (x : DeliveryData.t) :
  dedup_invariant processed acc ->
  dedup_invariant (processed ++ [x]) (dedup_step acc x).
Proof.
  destruct acc as [u seen]. intros (Hseen & Hgroup & Hall & Hperm). simpl in *.
  unfold dedup_step.
  destruct (seen !! ddt_key x) as [i0 |] eqn:Ex.
  - (* a key seen before *)
    destruct (proj1 (Hseen _ _) Ex) as (g0 & Hg0 & Hk0).
    unfold extend_products. rewrite Hg0.
    set (g0' := DeliveryData.set_products
                  g0 (DeliveryData.products g0 ++ DeliveryData.products x)).
    assert (Hk0' : ddt_key g0' = ddt_key x) by (rewrite <- Hk0; reflexivity).
    assert (Hlt : i0 < length u) by (by eapply lookup_lt_Some).
    repeat split; simpl.
    + intros Hk. destruct (proj1 (Hseen _ _) Hk) as (g & Hg & Hkg).
      destruct (decide (i = i0)) as [-> | Hne].
      * exists g0'. rewrite list_lookup_insert_eq by done.
        split; [done |]. congruence.
      * exists g. by rewrite list_lookup_insert_ne.
    + intros (g & Hg & Hkg).
      destruct (decide (i = i0)) as [-> | Hne].
      * rewrite list_lookup_insert_eq in Hg by done.
        injection Hg as <-. congruence.
      * rewrite list_lookup_insert_ne in Hg by done.
        apply Hseen. by exists g.
    + intros i g Hg.
      destruct (decide (i = i0)) as [-> | Hne].
      * rewrite list_lookup_insert_eq in Hg by done. injection Hg as <-.
        rewrite Hk0'. pose proof (Hgroup _ _ Hg0) as Hold.
        rewrite Hk0 in Hold. unfold group_of in *.
        rewrite same_key_snoc, String.eqb_refl.
        destruct (same_key (ddt_key x) processed) as [| d rest]; [done |].
        injection Hold as <-. simpl app. f_equal.
        unfold g0'. simpl. rewrite !flat_map_app. simpl.
        by rewrite app_nil_r, app_assoc.
      * rewrite list_lookup_insert_ne in Hg by done.
        rewrite group_of_other; [by apply (Hgroup i) |].
        intros Heq. apply Hne.
        assert (Hi : seen !! ddt_key g = Some i) by (apply Hseen; by exists g).
        congruence.
    + intros d [Hd | Hd]%in_app_iff; [by apply Hall |].
      destruct Hd as [<- | []]. by rewrite Ex.
    + rewrite flat_map_app. simpl. rewrite app_nil_r.
      etrans; [by apply flat_map_insert |]. by apply Permutation_app_tail.
  - (* a new key *)
    unfold push.
    assert (Hnew : forall d, In d processed -> ddt_key d <> ddt_key x).
    { intros d Hd Heq. destruct (Hall d Hd) as [i Hi]. congruence. }
    repeat split; simpl.
    + intros Hk. destruct (decide (k = ddt_key x)) as [-> | Hne].
      * rewrite lookup_insert_eq in Hk. injection Hk as <-.
        exists x. split; [| done]. by rewrite list_lookup_middle.
      * rewrite lookup_insert_ne in Hk by done.
        destruct (proj1 (Hseen _ _) Hk) as (g & Hg & Hkg).
        exists g. split; [| done]. by apply lookup_app_l_Some.
    + intros (g & Hg & Hkg).
      apply lookup_app_Some in Hg as [Hg | [Hlen Hg]].
      * assert (Hi : seen !! k = Some i) by (apply Hseen; by exists g).
        rewrite lookup_insert_ne; [done |]. congruence.
      * destruct (i - length u) as [| n] eqn:En; [| by destruct n].
        injection Hg as <-. subst k.
        rewrite lookup_insert_eq. f_equal. lia.
    + intros i g Hg.
      apply lookup_app_Some in Hg as [Hg | [Hlen Hg]].
      * rewrite group_of_other; [by apply (Hgroup i) |].
        assert (Hi : seen !! ddt_key g = Some i) by (apply Hseen; by exists g).
        congruence.
      * destruct (i - length u) as [| n] eqn:En; [| by destruct n].
        injection Hg as <-. unfold group_of.
        rewrite same_key_snoc, String.eqb_refl, (same_key_nil _ _ Hnew). simpl.
        by rewrite app_nil_r, set_products_same.
    + intros d [Hd | Hd]%in_app_iff.
      * destruct (decide (ddt_key d = ddt_key x)) as [-> | Hne].
        -- by rewrite lookup_insert_eq.
        -- rewrite lookup_insert_ne by done. by apply Hall.
      * destruct Hd as [<- | []]. by rewrite lookup_insert_eq.
    + rewrite !flat_map_app. by apply Permutation_app_tail.
Qed.

Lemma dedup_fold_invariant (deliveries processed : list DeliveryData.t)
      (acc : list DeliveryData.t * gmap string nat) :
  dedup_invariant processed acc ->
  dedup_invariant (processed ++ deliveries) (fold_left dedup_step deliveries acc).
Proof.
  revert processed acc.
  induction deliveries as [| x rest IH]; intros processed acc Hinv; simpl.
  - by rewrite app_nil_r.
  - replace (processed ++ x :: rest) with ((processed ++ [x]) ++ rest)
      by (by rewrite <- app_assoc).
    apply IH. by apply dedup_step_invariant.
Qed.

Lemma deduplicate_invariant (deliveries : list DeliveryData.t) :
  dedup_invariant deliveries (fold_left dedup_step deliveries ([], ∅)).
Proof.
  apply (dedup_fold_invariant deliveries [] ([], ∅)).
  repeat split; simpl; try done.
  - intros (g & Hg & _). done.
Qed.

Lemma deduplicate_groups (deliveries : list DeliveryData.t) :
  let result := deduplicate deliveries in
  (forall i j g h, result !! i = Some g -> result !! j = Some h ->
                   ddt_key g = ddt_key h -> i = j)
  /\ (forall i g, result !! i = Some g -> group_of (ddt_key g) deliveries = Some g)
  /\ (forall d, In d deliveries -> exists g, In g result /\ ddt_key g = ddt_key d)
  /\ Permutation (flat_map DeliveryData.products result)
                 (flat_map DeliveryData.products deliveries).
Proof.
  cbv zeta. unfold deduplicate.
  destruct (deduplicate_invariant deliveries) as (Hseen & Hgroup & Hall & Hperm).
  destruct (fold_left dedup_step deliveries ([], ∅)) as [u seen]. simpl in *.
  repeat split; [| done | | done].
  - intros i j g h Hg Hh Hk.
    assert (Hi : seen !! ddt_key g = Some i) by (apply Hseen; by exists g).
    assert (Hj : seen !! ddt_key h = Some j) by (apply Hseen; by exists h).
    congruence.
  - intros d Hd. destruct (Hall d Hd) as [i Hi].
    destruct (proj1 (Hseen _ _) Hi) as (g & Hg & Hk).
    exists g. split; [| done].
    apply list_elem_of_In. by eapply list_elem_of_lookup_2.
Qed.

(** *** Cross-page completion keeps the groups *)

Lemma apply_completion_same_group (d : DeliveryData.t) (data : completion) :
  same_group d (apply_completion d data).
Proof. by repeat split. Qed.

Lemma same_group_refl (d : DeliveryData.t) : same_group d d.
Proof. by repeat split. Qed.

Lemma complete_one_spec (pages : list PageData.t) (st : store)
      (complete_deliveries : list entry) (e : entry) :
  exists st' e',
    complete_one pages (st, complete_deliveries) e = (st', complete_deliveries ++ [e'])
    /\ same_group (value e) (value e').
Proof.
  unfold complete_one, push.
  destruct (find_source_page e 0 pages st) as [source_page |].
  - destruct (search_completion (value e) source_page pages) as [data |].
    + eexists _, _. split; [reflexivity |]. apply apply_completion_same_group.
    + eexists _, _. split; [reflexivity |]. apply same_group_refl.
  - eexists _, _. split; [reflexivity |]. apply same_group_refl.
Qed.

Lemma complete_fold_spec (pages : list PageData.t) (incomplete : list entry) :
  forall (st : store) (complete_deliveries : list entry),
  exists completed,
    snd (fold_left (complete_one pages) incomplete (st, complete_deliveries))
    = complete_deliveries ++ completed
    /\ Forall2 same_group (map value incomplete) (map value completed).
Proof.
  induction incomplete as [| e rest IH]; intros st complete_deliveries;
    cbn [fold_left map].
  - exists []. split; [simpl; by rewrite app_nil_r | constructor].
  - destruct (complete_one_spec pages st complete_deliveries e) as (st' & e' & -> & He).
    destruct (IH st' (complete_deliveries ++ [e'])) as (completed & -> & Hrest).
    exists (e' :: completed). split; [by rewrite <- app_assoc |].
    simpl. by constructor.
Qed.

Lemma filter_values (f : DeliveryData.t -> bool) (l : list entry) :
  map value (List.filter (fun e => f (value e)) l) = List.filter f (map value l).
Proof.
  induction l as [| e l IH]; simpl; [done |].
  destruct (f (value e)); simpl; by rewrite IH.
Qed.

Lemma merge_cross_page_spec (deliveries : list entry) (pages : list PageData.t) :
  exists completed,
    map value (_merge_cross_page_deliveries deliveries pages)
    = List.filter (fun d => negb (is_incomplete d)) (map value deliveries) ++ completed
    /\ Forall2 same_group (List.filter is_incomplete (map value deliveries)) completed.
Proof.
  unfold _merge_cross_page_deliveries. cbv zeta.
  destruct (complete_fold_spec
              pages (List.filter (fun e => is_incomplete (value e)) deliveries)
              (map PageData.all_deliveries pages)
              (List.filter (fun e => negb (is_incomplete (value e))) deliveries))
    as (completed & Hfold & Hc).
  cbv delta [store] in Hfold |- *. rewrite Hfold.
  exists (map value completed). rewrite map_app.
  rewrite (filter_values (fun d => negb (is_incomplete d))).
  split; [done |]. by rewrite <- (filter_values is_incomplete).
Qed.

Lemma same_group_products (l l' : list DeliveryData.t) :
  Forall2 same_group l l' ->
  flat_map DeliveryData.products l' = flat_map DeliveryData.products l.
Proof.
  induction 1 as [| d d' l l' (_ & _ & Hp) _ IH]; simpl; [done |].
  by rewrite Hp, IH.
Qed.

Lemma filter_split_products (f : DeliveryData.t -> bool) (l : list DeliveryData.t) :
  Permutation
    (flat_map DeliveryData.products (List.filter (fun d => negb (f d)) l)
     ++ flat_map DeliveryData.products (List.filter f l))
    (flat_map DeliveryData.products l).
Proof.
  induction l as [| d l IH]; simpl; [done |].
  destruct (f d); simpl.
  - etrans; [apply Permutation_app_swap_app |]. by apply Permutation_app_head.
  - rewrite <- app_assoc. by apply Permutation_app_head.
Qed.

End Deduplication.

(** A delivery that starts at the foot of one page, where its model line
    is not yet printed, and goes on at the head of the next. *)
Definition cloth (code total : string) : ProductData.t :=
  ProductData.Make (Some code) None None (Some "MT") None None (Some total).
Definition delivery_begun : DeliveryData.t :=
  DeliveryData.Make (Some "MS5LH0002") (Some "3635") (Some "09/05/2025") None
                    None None None None None None
                    [cloth "MMA00.1111.0001" "126,911"].
Definition delivery_continued : DeliveryData.t :=
  DeliveryData.Make (Some "MS5LH0002") (Some "3635") (Some "09/05/2025") None
                    (Some "MMM25.291160436.70") (Some "SLIM") (Some "MS5CE0002")
                    (Some "1225") (Some "CAMICIA") (Some "100% Cotone")
                    [cloth "MMA00.1111.0002" "87,842"].
Definition begun_page : PageData.t :=
  PageData.Make 0 "LISTA VALORIZZATA del DDT interno MS5LH0002 3635 del 09/05/2025"
                [] (DeliveryData.products delivery_begun)
                (Some delivery_begun) [delivery_begun] [].
Definition continued_page : PageData.t :=
  PageData.Make 1 "segue DDT interno MS5LH0002 3635 del 09/05/2025"
                [] (DeliveryData.products delivery_continued)
                (Some delivery_continued) [delivery_continued] [].

(** C9, as stated, fails on the first occurrence: of two groups of the
    same delivery, collected in page order, the group that stays is the one
    of the second page, and the items of the first page come after its own. *)
Lemma duplicates_merge_onto_complete_delivery :
  let pages := [begun_page; continued_page] in
  map ResponseCompiler.value (ResponseCompiler.collect_deliveries pages)
  = [delivery_begun; delivery_continued]
  /\ ResponseCompiler._compile_delivery_data pages
     = [DeliveryData.set_products
          delivery_continued
          [cloth "MMA00.1111.0002" "87,842"; cloth "MMA00.1111.0001" "126,911"]].
Proof. vm_compute. split; reflexivity. Qed.

(** C9 (amended). In the compiled result no two groups share the same
    (series, number) pair, nor the key made of the two. The groups are
    merged in this order: the groups collected from the pages that are
    complete, in page order, then those that lack a model number or a
    product name, each with the same series, number and items as collected.
    Every group of the result is the first group of that order with its
    key, holding the items of all the groups with this key, concatenated in
    that order; every collected key is in the result, and the items of the
    result are the items collected, none lost and none added. *)
Theorem delivery_deduplication (pages : list PageData.t) :
  let collected :=
    map ResponseCompiler.value (ResponseCompiler.collect_deliveries pages) in
  let merged :=
    map ResponseCompiler.value
        (ResponseCompiler._merge_cross_page_deliveries
           (ResponseCompiler.collect_deliveries pages) pages) in
  let result := ResponseCompiler._compile_delivery_data pages in
  (forall i j g h,
      result !! i = Some g -> result !! j = Some h ->
      (DeliveryData.ddt_series g, DeliveryData.ddt_number g)
      = (DeliveryData.ddt_series h, DeliveryData.ddt_number h)
      \/ ResponseCompiler.ddt_key g = ResponseCompiler.ddt_key h ->
      i = j)
  /\ (exists completed,
         merged
         = List.filter (fun d => negb (ResponseCompiler.is_incomplete d)) collected
           ++ completed
         /\ Forall2 same_group
                    (List.filter ResponseCompiler.is_incomplete collected) completed)
  /\ (forall i g, result !! i = Some g ->
                  group_of (ResponseCompiler.ddt_key g) merged = Some g)
  /\ (forall d, In d merged ->
                exists g, In g result
                          /\ ResponseCompiler.ddt_key g = ResponseCompiler.ddt_key d)
  /\ Permutation (flat_map DeliveryData.products result)
                 (flat_map DeliveryData.products collected).
Proof.
  cbv zeta. unfold ResponseCompiler._compile_delivery_data.
  set (collected := ResponseCompiler.collect_deliveries pages).
  set (merged := map ResponseCompiler.value
                     (ResponseCompiler._merge_cross_page_deliveries collected pages)).
  destruct (deduplicate_groups merged) as (Huniq & Hgroup & Hall & Hperm).
  destruct (merge_cross_page_spec collected pages) as (completed & Hmerged & Hsame).
  fold merged in Hmerged.
  split; [| split; [| split; [| split]]].
  - intros i j g h Hg Hh [Hpair | Hkey]; apply (Huniq i j g h Hg Hh); [| done].
    unfold ResponseCompiler.ddt_key. congruence.
  - by exists completed.
  - exact Hgroup.
  - exact Hall.
  - etrans; [exact Hperm |]. rewrite Hmerged, flat_map_app.
    rewrite (same_group_products _ _ Hsame).
    apply filter_split_products.
Qed.

(** The two pages above: the group of the result holds the items of both. *)
Lemma delivery_deduplication_witness :
  Permutation
    (flat_map DeliveryData.products
              (ResponseCompiler._compile_delivery_data [begun_page; continued_page]))
    [cloth "MMA00.1111.0001" "126,911"; cloth "MMA00.1111.0002" "87,842"].
Proof.
  destruct (delivery_deduplication [begun_page; continued_page])
    as (_ & _ & _ & _ & Hitems).
  exact Hitems.
Defined.


(** ** Checksum and success flag *)

Section Checksum.
Import ResponseCompiler.
Local Open Scope Z_scope.

(** The amount that the checksum loop adds for an item: its total when
    it parses to a number that is not zero. *)
Definition counted (product : ProductData.t) : option Dec.t :=
  match parse_field (ProductData.total_price product) with
  | inr (Some d) => if Dec.truth d then Some d else None
  | _ => None
  end.

Definition line_units (product : ProductData.t) : Z :=
  match counted product with
  | Some d => units 6 d
  | None => 0
  end.

(** The exact sum of the counted totals, in millionths. *)
Definition total_units (products : list ProductData.t) : Z :=
  fold_right Z.add 0 (map line_units products).

(** A counted total has at most six decimal places and is below 10^6. *)
Definition amount_plain (product : ProductData.t) : Prop :=
  match counted product with
  | Some d => plain 6 (10 ^ 12) d
  | None => True
  end.

(** Pages as [extract_page_data] builds them. *)
Definition extracted (page : PageData.t) : Prop :=
  PageData.delivery_info page = hd_error (PageData.all_deliveries page).

Lemma parse_field_falsy (field : option string) :
  truthy field = false -> parse_field field = inr None.
Proof.
  destruct field as [s |]; [| done].
  destruct s; [done | discriminate].
Qed.

Lemma sum_totals_exact (products : list ProductData.t) :
  forall (calculated_total : Dec.t) (B : Z),
    plain 6 B calculated_total ->
    Forall amount_plain products ->
    B + Z.of_nat (length products) * 10 ^ 12 < 10 ^ 28 ->
    exists r, sum_totals products calculated_total = inr r
              /\ plain 6 (B + Z.of_nat (length products) * 10 ^ 12) r
              /\ units 6 r = units 6 calculated_total + total_units products.
Proof.
  induction products as [| product rest IH]; intros calculated_total B Hacc Hall Hbound.
  - exists calculated_total. split; [done |]. split.
    + eapply plain_weaken; [| exact Hacc]. simpl. lia.
    + unfold total_units. simpl. lia.
  - apply Forall_cons_1 in Hall as [Hp Hrest].
    assert (Hlen : Z.of_nat (length (product :: rest))
                   = Z.of_nat (length rest) + 1) by (simpl length; lia).
    rewrite Hlen in *.
    assert (Hskip :
              counted product = None ->
              exists r, sum_totals rest calculated_total = inr r
                        /\ plain 6 (B + (Z.of_nat (length rest) + 1) * 10 ^ 12) r
                        /\ units 6 r
                           = units 6 calculated_total + total_units (product :: rest)).
    { intros Hnone.
      destruct (IH calculated_total B Hacc Hrest ltac:(lia)) as (r & Hr & Pr & Ur).
      exists r. split; [done |]. split.
      - eapply plain_weaken; [| exact Pr]. lia.
      - rewrite Ur. unfold total_units. simpl. unfold line_units at 2.
        rewrite Hnone. lia. }
    cbn [sum_totals].
    destruct (truthy (ProductData.total_price product)) eqn:Ht.
    + destruct (parse_field_returns (ProductData.total_price product)) as [parsed Hparsed].
      unfold amount_plain, counted in Hp. unfold counted in Hskip.
      rewrite Hparsed in *. simpl bind.
      destruct parsed as [d |]; [| by apply Hskip].
      destruct (Dec.truth d); [| by apply Hskip].
      destruct (add_plain 6 B (10 ^ 12) calculated_total d ltac:(lia) Hacc Hp ltac:(lia))
        as (total & -> & Ptotal & Utotal).
      simpl bind.
      destruct (IH total (B + 10 ^ 12) Ptotal Hrest ltac:(lia)) as (r & Hr & Pr & Ur).
      exists r. split; [done |]. split.
      * eapply plain_weaken; [| exact Pr]. lia.
      * rewrite Ur, Utotal. unfold total_units. simpl. unfold line_units at 2.
        unfold counted. rewrite Hparsed.
        destruct d as [s c e | |]; try done.
        simpl Dec.truth. destruct (negb (c =? 0)%N) eqn:Hc; [lia |].
        apply negb_false_iff, N.eqb_eq in Hc. subst c.
        simpl. unfold Dec.signed. destruct s; lia.
    + apply Hskip. unfold counted.
      by rewrite (parse_field_falsy _ Ht).
Qed.

Lemma truth_of_units (d : Dec.t) : units 6 d <> 0 -> Dec.truth d = true.
Proof.
  destruct d as [s c e | |]; try done. simpl.
  destruct (N.eqb_spec c 0) as [-> | ?]; [| done].
  unfold Dec.signed. destruct s; simpl; lia.
Qed.

(** The outcome of the comparison, on exact amounts. *)
Definition within_tolerance (stated : Dec.t) (products : list ProductData.t) : bool :=
  Z.abs (units 6 stated - total_units products) <=? 10 ^ 4.

Lemma checksum_exact (products : list ProductData.t) (bill : BillData.t)
      (stated : Dec.t) :
  parse_field (BillData.total_amount bill) = inr (Some stated) ->
  plain 6 (10 ^ 12) stated -> units 6 stated <> 0 ->
  Forall amount_plain products -> Z.of_nat (length products) <= 10 ^ 9 ->
  exists calculated difference,
    units 6 calculated = total_units products
    /\ units 6 difference = Z.abs (units 6 stated - total_units products)
    /\ checksum products (Some bill)
       = inr (if within_tolerance stated products then (true, None)
              else (false, Some (checksum_mismatch stated calculated difference))).
Proof.
  intros Hstated Pstated Hnz Hall Hlen.
  assert (Pzero : plain 6 0 zero_total) by (simpl; lia).
  destruct (sum_totals_exact products zero_total 0 Pzero Hall ltac:(lia))
    as (calculated & Hsum & Pcalc & Ucalc).
  change (units 6 zero_total) with 0 in Ucalc.
  unfold checksum. rewrite Hsum. simpl bind.
  rewrite (parse_field_some_truthy _ _ Hstated), Hstated. simpl bind.
  rewrite (truth_of_units _ Hnz).
  destruct (sub_plain 6 _ _ stated calculated ltac:(lia) Pstated Pcalc ltac:(lia))
    as (delta & -> & Pdelta & Udelta).
  simpl bind.
  destruct (abs_plain 6 _ delta ltac:(lia) Pdelta ltac:(lia))
    as (difference & -> & Pdiff & Udiff).
  simpl bind.
  assert (Ptol : plain 6 (10 ^ 4) checksum_tolerance) by (simpl; lia).
  unfold Dec.le, Dec.compare_with.
  assert (Ndiff : Dec.is_nan difference = false) by (destruct difference; done).
  rewrite Ndiff. simpl orb. cbv iota. simpl bind.
  rewrite (cmp_plain 6 _ _ _ _ Pdiff Ptol).
  change (units 6 checksum_tolerance) with (10 ^ 4).
  exists calculated, difference.
  split; [lia |]. split; [lia |].
  unfold within_tolerance.
  replace (Z.abs (units 6 stated - total_units products)) with (units 6 difference) by lia.
  destruct (Z.compare_spec (units 6 difference) (10 ^ 4)) as [E | E | E].
  - rewrite E. reflexivity.
  - destruct (Z.leb_spec (units 6 difference) (10 ^ 4)); [reflexivity | lia].
  - destruct (Z.leb_spec (units 6 difference) (10 ^ 4)); [lia | reflexivity].
Qed.

(** The footer extraction returns when there is a bill. *)
Lemma footer_with_bill (bill : BillData.t) (pages : list PageData.t) :
  exists bill', _extract_footer_information (Some bill) pages = inr (Some bill').
Proof.
  unfold _extract_footer_information.
  generalize (pages_to_search pages) as searched. intros searched.
  revert bill. induction searched as [| page rest IH]; intros bill; cbn [fold_left].
  - by exists bill.
  - simpl bind. destruct (PyStr.is_empty (PageData.raw_text page)); apply IH.
Qed.

Lemma compiled_checksum_flag (config : ProcessingConfig.t)
      (bill_data : option BillData.t) (pages : list PageData.t)
      (validation_results : list ValidationResult.t) :
  ExtractionResult.validation_checksum_ok
    (compile_final_result config bill_data pages validation_results)
  = ExtractionResult.validation_checksum_ok
      (_perform_final_validations config (compiled bill_data pages validation_results)).
Proof.
  unfold compile_final_result. cbv zeta.
  by destruct (_extract_footer_information bill_data pages).
Qed.

Lemma compiled_with_bill (config : ProcessingConfig.t) (bill : BillData.t)
      (pages : list PageData.t) (validation_results : list ValidationResult.t) :
  let result := compile_final_result config (Some bill) pages validation_results in
  let validated :=
    _perform_final_validations config (compiled (Some bill) pages validation_results) in
  ExtractionResult.parsing_errors result = ExtractionResult.parsing_errors validated
  /\ ExtractionResult.success result
     = Nat.eqb (length (ExtractionResult.parsing_errors validated)) 0.
Proof.
  cbv zeta. unfold compile_final_result. cbv zeta.
  destruct (footer_with_bill bill pages) as [bill' ->]. by split.
Qed.

Lemma success_iff_no_error (config : ProcessingConfig.t)
      (bill_data : option BillData.t) (pages : list PageData.t)
      (validation_results : list ValidationResult.t) :
  let result := compile_final_result config bill_data pages validation_results in
  ExtractionResult.success result = true
  <-> ExtractionResult.parsing_errors result = [].
Proof.
  cbv zeta. unfold compile_final_result. cbv zeta.
  destruct (_extract_footer_information bill_data pages) as [e | bill'].
  - cbn [finish ExtractionResult.success ExtractionResult.parsing_errors].
    unfold OCRValidator.push. split; [done |].
    intros H. by apply app_eq_nil in H as [_ H].
  - cbn [finish ExtractionResult.success ExtractionResult.parsing_errors].
    rewrite Nat.eqb_eq. apply length_zero_iff_nil.
Qed.

End Checksum.

(** The five items of the example, on one page without delivery header. *)
Definition five_items : list ProductData.t :=
  [ cloth "MMA00.1111.0001" "126,911"; cloth "MMA00.1111.0002" "87,842";
    cloth "MMA00.1111.0003" "16,238"; cloth "MMA00.1111.0004" "16,616";
    cloth "MMA00.1111.0005" "2,907" ].
Definition five_items_page : PageData.t :=
  PageData.Make 0 "MMA00.1111.0001 MMA00.1111.0002 MMA00.1111.0003" []
                five_items None [] [].
Definition bill_of (total_amount : string) : BillData.t :=
  BillData.Make (Some "2025/1234") (Some "09/05/2025") (Some "EUR") None None None
                None None None None None (Some total_amount).

(** The pipeline of [invoice_processor.py] from the extracted pages on. *)
Definition processed (config : ProcessingConfig.t) (bill_data : option BillData.t)
           (pages : list PageData.t) : ExtractionResult.t :=
  ResponseCompiler.compile_final_result
    config bill_data pages (map (OCRValidator.validate_page_data config) pages).

(** C3, as stated, fails: a declared total within one cent of the sum
    leaves the flag false when the checksum is switched off, and a declared
    total of zero leaves it false on an invoice without items, with a
    message that the total could not be parsed. *)
Lemma checksum_flag_false_within_one_cent :
  let unchecked := ProcessingConfig.Make true 0.8%float false in
  let result := processed unchecked (Some (bill_of "250.51")) [five_items_page] in
  let blank_page := PageData.Make 0 "Tot importo: 0,00" [] [] None [] [] in
  let blank := processed ProcessingConfig.default (Some (bill_of "0,00")) [blank_page] in
  (parse_field (Some "250.51") = inr (Some (Dec.Fin false 25051 (-2)))
   /\ within_tolerance (Dec.Fin false 25051 (-2)) (ExtractionResult.products result)
      = true
   /\ ExtractionResult.validation_checksum_ok result = false
   /\ ExtractionResult.parsing_errors result = [])
  /\ (parse_field (Some "0,00") = inr (Some (Dec.Fin false 0 (-2)))
      /\ within_tolerance (Dec.Fin false 0 (-2)) (ExtractionResult.products blank)
         = true
      /\ ExtractionResult.validation_checksum_ok blank = false
      /\ ExtractionResult.parsing_errors blank
         = ["Could not parse stated total amount for checksum validation"]).
Proof. vm_compute. repeat split; reflexivity. Qed.

(** C3 (amended). Document checksum, on a result compiled with the
    checksum switched on from extracted pages and a bill whose declared
    total parses to an amount that is not zero. When the declared total
    and the item totals that count (those that parse to a number that is
    not zero) have at most six decimal places and are below 10^6,
    validation_checksum_ok is true iff the absolute difference between the
    declared total and the exact sum of those item totals is at most 0.01;
    then no error is recorded, and otherwise the one error recorded is the
    checksum mismatch with the declared total, the sum and the difference.
    With the checksum switched off the flag stays false. Totals 126.911,
    87.842, 16.238, 16.616, 2.907 against 250.51 give true, and against
    260.00 give false and the mismatch message. *)
Theorem document_checksum :
  (forall (config : ProcessingConfig.t) (bill : BillData.t)
          (pages : list PageData.t) (validation_results : list ValidationResult.t)
          (stated : Dec.t),
      ProcessingConfig.validate_checksums config = true ->
      Forall extracted pages ->
      parse_field (BillData.total_amount bill) = inr (Some stated) ->
      plain 6 (10 ^ 12) stated -> (units 6 stated <> 0)%Z ->
      let products := ResponseCompiler._compile_products pages validation_results in
      Forall amount_plain products -> (Z.of_nat (length products) <= 10 ^ 9)%Z ->
      let result :=
        ResponseCompiler.compile_final_result
          config (Some bill) pages validation_results in
      let difference := Z.abs (units 6 stated - total_units products) in
      (ExtractionResult.validation_checksum_ok result = true
       <-> (difference <= 10 ^ 4)%Z)
      /\ (ExtractionResult.validation_checksum_ok result = true ->
          ExtractionResult.parsing_errors result = [])
      /\ (ExtractionResult.validation_checksum_ok result = false ->
          exists calculated_total shown_difference,
            units 6 calculated_total = total_units products
            /\ units 6 shown_difference = difference
            /\ ExtractionResult.parsing_errors result
               = [ResponseCompiler.checksum_mismatch
                    stated calculated_total shown_difference]))
  /\ (forall (config : ProcessingConfig.t) (bill_data : option BillData.t)
             (pages : list PageData.t) (validation_results : list ValidationResult.t),
         ProcessingConfig.validate_checksums config = false ->
         ExtractionResult.validation_checksum_ok
           (ResponseCompiler.compile_final_result
              config bill_data pages validation_results) = false)
  /\ (let result :=
        processed ProcessingConfig.default (Some (bill_of "250.51")) [five_items_page] in
      ExtractionResult.validation_checksum_ok result = true
      /\ ExtractionResult.parsing_errors result = [])
  /\ (let result :=
        processed ProcessingConfig.default (Some (bill_of "260.00")) [five_items_page] in
      ExtractionResult.validation_checksum_ok result = false
      /\ ExtractionResult.parsing_errors result
         = [("Checksum Mismatch: Stated Grand Total 260.00, Calculated Sum 250.514, "
             ++ "Difference: 9.486")%string]).
Proof.
  split; [| split; [| split]].
  - intros config bill pages validation_results stated Hon _ Hstated Pstated Hnz
           products Hall Hlen result difference.
    destruct (checksum_exact products bill stated Hstated Pstated Hnz Hall Hlen)
      as (calculated & shown & Ucalc & Ushown & Hsum).
    destruct (compiled_with_bill config bill pages validation_results) as [Herr _].
    fold result in Herr.
    pose proof (compiled_checksum_flag config (Some bill) pages validation_results)
      as Hflag.
    fold result in Hflag. rewrite Hflag, Herr. clear Hflag Herr.
    unfold ResponseCompiler._perform_final_validations.
    rewrite Hon. simpl negb. cbv iota.
    change (ExtractionResult.products
              (ResponseCompiler.compiled (Some bill) pages validation_results))
      with products.
    change (ExtractionResult.bill_data
              (ResponseCompiler.compiled (Some bill) pages validation_results))
      with (Some bill).
    rewrite Hsum. unfold within_tolerance. fold difference.
    destruct (Z.leb_spec difference (10 ^ 4)) as [Hle | Hgt].
    + cbn [ResponseCompiler.with_validation ResponseCompiler.compiled
           ExtractionResult.validation_checksum_ok ExtractionResult.parsing_errors].
      split; [| split]; [done | done | discriminate].
    + cbn [ResponseCompiler.with_validation ResponseCompiler.compiled
           ExtractionResult.validation_checksum_ok ExtractionResult.parsing_errors
           OCRValidator.push app].
      split; [| split].
      * split; [discriminate | lia].
      * discriminate.
      * intros _. by exists calculated, shown.
  - intros config bill_data pages validation_results Hoff.
    rewrite compiled_checksum_flag.
    unfold ResponseCompiler._perform_final_validations. by rewrite Hoff.
  - vm_compute. split; reflexivity.
  - vm_compute. split; reflexivity.
Qed.

(** The example of the specification, through the general statement. *)
Lemma document_checksum_witness :
  ExtractionResult.validation_checksum_ok
    (ResponseCompiler.compile_final_result
       ProcessingConfig.default (Some (bill_of "250.51")) [five_items_page]
       (map (OCRValidator.validate_page_data ProcessingConfig.default)
            [five_items_page]))
  = true.
Proof.
  assert (Hpages : Forall extracted [five_items_page]) by (repeat constructor).
  assert (Hstated : parse_field (BillData.total_amount (bill_of "250.51"))
                    = inr (Some (Dec.Fin false 25051 (-2))))
    by (vm_compute; reflexivity).
  assert (Pstated : plain 6 (10 ^ 12) (Dec.Fin false 25051 (-2))) by (simpl; lia).
  assert (Hnz : (units 6 (Dec.Fin false 25051 (-2)) <> 0)%Z) by (simpl; lia).
  assert (Hitems : ResponseCompiler._compile_products
                     [five_items_page]
                     (map (OCRValidator.validate_page_data ProcessingConfig.default)
                          [five_items_page])
                   = five_items) by (vm_compute; reflexivity).
  assert (Hall : Forall amount_plain five_items).
  { unfold five_items.
    repeat (constructor; [vm_compute; repeat split; discriminate |]).
    constructor. }
  assert (Hlen : (Z.of_nat (length five_items) <= 10 ^ 9)%Z)
    by (vm_compute; discriminate).
  rewrite <- Hitems in Hall, Hlen.
  destruct (proj1 document_checksum
                  ProcessingConfig.default (bill_of "250.51") [five_items_page]
                  (map (OCRValidator.validate_page_data ProcessingConfig.default)
                       [five_items_page])
                  (Dec.Fin false 25051 (-2))
                  eq_refl Hpages Hstated Pstated Hnz Hall Hlen) as [Hiff _].
  apply Hiff. rewrite Hitems. vm_compute. discriminate.
Defined.

(** C4. The success flag is true exactly when [parsing_errors] is empty.
    A checksum mismatch is appended to [parsing_errors], so that it clears
    the flag: with totals 126.911, 87.842, 16.238, 16.616, 2.907 against a
    declared 260.00 the result has success false and the message of a
    failed parsing. An error recorded on a page and a failed page
    validation do not enter the flag: the same page with a page error,
    invalid for the validator, against 250.51 compiles with success true.
    No input gives the message of a parsing completed with warnings. *)
Theorem success_flag_semantics :
  (forall (config : ProcessingConfig.t) (bill_data : option BillData.t)
          (pages : list PageData.t) (validation_results : list ValidationResult.t),
      let result :=
        ResponseCompiler.compile_final_result
          config bill_data pages validation_results in
      (ExtractionResult.success result = true
       <-> ExtractionResult.parsing_errors result = [])
      /\ ExtractionResult.message result
         <> "Invoice parsing completed with warnings. Check parsing_errors field for details.")
  /\ (let result :=
        processed ProcessingConfig.default (Some (bill_of "260.00")) [five_items_page] in
      ExtractionResult.success result = false
      /\ ExtractionResult.validation_checksum_ok result = false
      /\ ExtractionResult.parsing_errors result
         = [("Checksum Mismatch: Stated Grand Total 260.00, Calculated Sum 250.514, "
             ++ "Difference: 9.486")%string]
      /\ ExtractionResult.message result
         = "Invoice parsing failed with errors. Check parsing_errors field for details.")
  /\ (let failed_page :=
        PageData.Make 0 (PageData.raw_text five_items_page) [] five_items None []
                      ["Error processing page 1: list index out of range"] in
      let result :=
        processed ProcessingConfig.default (Some (bill_of "250.51")) [failed_page] in
      map ValidationResult.is_valid (ExtractionResult.validation_results result)
      = [false]
      /\ ExtractionResult.success result = true
      /\ ExtractionResult.parsing_errors result = []
      /\ ExtractionResult.message result
         = "Invoice parsing completed but 1 pages failed OCR validation.").
Proof.
  split; [| split].
  - intros config bill_data pages validation_results result.
    split; [apply success_iff_no_error |].
    unfold result, ResponseCompiler.compile_final_result. cbv zeta.
    destruct (ResponseCompiler._extract_footer_information bill_data pages)
      as [e | bill'].
    + discriminate.
    + cbn [ResponseCompiler.finish ExtractionResult.message].
      unfold ResponseCompiler._generate_final_message.
      cbn [ResponseCompiler.finish ExtractionResult.success
           ExtractionResult.parsing_errors ExtractionResult.validation_checksum_ok
           ExtractionResult.validation_results].
      destruct (Nat.eqb _ 0); simpl negb; cbv iota; [| discriminate].
      destruct (ExtractionResult.validation_checksum_ok _); simpl negb; cbv iota;
        [| discriminate].
      destruct (List.filter _ _); [discriminate |].
      simpl. discriminate.
  - vm_compute. repeat split; reflexivity.
  - vm_compute. repeat split; reflexivity.
Qed.

(** * Further properties *)

(** ** Decimals through their text *)

Section DecimalText.
Local Open Scope string_scope.

Fixpoint all_chars (f : ascii -> bool) (s : string) : bool :=
  match s with
  | EmptyString => true
  | String c s' => f c && all_chars f s'
  end.

Lemma append_cons (c : ascii) (a b : string) : String c a ++ b = String c (a ++ b).
Proof. reflexivity. Qed.

Lemma append_nil (b : string) : EmptyString ++ b = b.
Proof. reflexivity. Qed.

Lemma all_chars_app (f : ascii -> bool) (a b : string) :
  all_chars f (a ++ b) = all_chars f a && all_chars f b.
Proof.
  induction a as [| c a IH]; [done |].
  rewrite append_cons. simpl. by rewrite IH, andb_assoc.
Qed.

Lemma all_chars_impl (f g : ascii -> bool) (s : string) :
  (forall c, f c = true -> g c = true) ->
  all_chars f s = true -> all_chars g s = true.
Proof.
  intros Hfg. induction s as [| c s IH]; simpl; [done |].
  intros [Hc Hs]%andb_true_iff. by rewrite (Hfg c Hc), IH.
Qed.

Lemma append_empty_r (s : string) : s ++ "" = s.
Proof. induction s as [| c s IH]; [done |]. by rewrite append_cons, IH. Qed.

Lemma append_assoc (a b c : string) : (a ++ b) ++ c = a ++ b ++ c.
Proof. induction a as [| x a IH]; [done |]. by rewrite !append_cons, IH. Qed.

Lemma length_append (a b : string) :
  String.length (a ++ b) = String.length a + String.length b.
Proof.
  induction a as [| x a IH]; [done |]. rewrite append_cons. simpl. by rewrite IH.
Qed.

(** *** Stripping *)

Lemma lstrip_head (s : string) :
  PyStr.lstrip s = EmptyString
  \/ exists c s', PyStr.lstrip s = String c s' /\ PyStr.isspace c = false.
Proof.
  induction s as [| c s IH]; simpl; [by left |].
  destruct (PyStr.isspace c) eqn:Hc; [done |]. right. by exists c, s.
Qed.

Lemma lstrip_same (c : ascii) (s : string) :
  PyStr.isspace c = false -> PyStr.lstrip (String c s) = String c s.
Proof. intros Hc. simpl. by rewrite Hc. Qed.

Lemma rstrip_cons (c : ascii) (s : string) :
  PyStr.isspace c = false -> PyStr.rstrip (String c s) = String c (PyStr.rstrip s).
Proof. intros Hc. simpl. by rewrite Hc. Qed.

Lemma rstrip_idem (s : string) : PyStr.rstrip (PyStr.rstrip s) = PyStr.rstrip s.
Proof.
  induction s as [| c s IH]; [done |].
  cbn [PyStr.rstrip].
  destruct (PyStr.isspace c && PyStr.is_empty (PyStr.rstrip s)) eqn:E; [done |].
  cbn [PyStr.rstrip]. rewrite IH, E. reflexivity.
Qed.

Lemma strip_idem (s : string) : PyStr.strip (PyStr.strip s) = PyStr.strip s.
Proof.
  unfold PyStr.strip.
  destruct (lstrip_head s) as [-> | (c & s' & -> & Hc)]; [done |].
  rewrite (rstrip_cons _ _ Hc), (lstrip_same _ _ Hc), <- (rstrip_cons _ _ Hc).
  apply rstrip_idem.
Qed.

(** A stripped string is empty or starts with a character that is no
    white space. *)
Lemma strip_head (s : string) :
  PyStr.strip s = EmptyString
  \/ exists c s', PyStr.strip s = String c s' /\ PyStr.isspace c = false.
Proof.
  unfold PyStr.strip.
  destruct (lstrip_head s) as [-> | (c & s' & -> & Hc)]; [by left |].
  right. rewrite (rstrip_cons _ _ Hc). by exists c, (PyStr.rstrip s').
Qed.

Lemma rstrip_no_space (s : string) :
  all_chars (fun c => negb (PyStr.isspace c)) s = true -> PyStr.rstrip s = s.
Proof.
  induction s as [| c s IH]; [done |]. simpl.
  intros [Hc Hs]%andb_true_iff. apply negb_true_iff in Hc.
  by rewrite Hc, (IH Hs).
Qed.

Lemma strip_no_space (s : string) :
  all_chars (fun c => negb (PyStr.isspace c)) s = true -> PyStr.strip s = s.
Proof.
  intros Hs. unfold PyStr.strip.
  destruct s as [| c s]; [done |].
  pose proof Hs as Hs'. simpl in Hs'. apply andb_true_iff in Hs' as [Hc _].
  apply negb_true_iff in Hc.
  rewrite (lstrip_same _ _ Hc). by apply rstrip_no_space.
Qed.

Lemma replace_char_absent (old : ascii) (new s : string) :
  all_chars (fun c => negb (Ascii.eqb c old)) s = true ->
  PyStr.replace_char old new s = s.
Proof.
  induction s as [| c s IH]; [done |]. simpl.
  intros [Hc Hs]%andb_true_iff. apply negb_true_iff in Hc.
  by rewrite Hc, (IH Hs).
Qed.

Lemma contains_absent (old : ascii) (s : string) :
  all_chars (fun c => negb (Ascii.eqb c old)) s = true ->
  PyStr.contains (String old EmptyString) s = false.
Proof.
  induction s as [| c s IH]; [done |].
  intros [Hc Hs]%andb_true_iff. apply negb_true_iff in Hc.
  cbn [PyStr.contains String.prefix].
  rewrite (IH Hs), orb_false_r.
  destruct (ascii_dec old c) as [-> | Hne]; [by rewrite Ascii.eqb_refl in Hc |].
  reflexivity.
Qed.

(** *** Digit strings *)

Lemma digits_val_app (acc : N) (a b : string) :
  Dec.digits_val acc (a ++ b) = Dec.digits_val (Dec.digits_val acc a) b.
Proof.
  revert acc. induction a as [| c a IH]; intros acc; [done |].
  rewrite append_cons. simpl. apply IH.
Qed.

Lemma string_of_uint_digits (d : Decimal.uint) :
  all_chars PyStr.isdigit (NilEmpty.string_of_uint d) = true.
Proof. induction d; simpl; done. Qed.

Lemma digits_val_of_uint_acc (d : Decimal.uint) (acc : positive) :
  Dec.digits_val (N.pos acc) (NilEmpty.string_of_uint d)
  = N.pos (Pos.of_uint_acc d acc).
Proof.
  revert acc. induction d; intros acc; simpl; [done | ..];
    rewrite <- IHd; f_equal; unfold Dec.digit_val; simpl; lia.
Qed.

Lemma digits_val_of_uint (d : Decimal.uint) :
  Dec.digits_val 0 (NilEmpty.string_of_uint d) = N.of_uint d.
Proof.
  unfold N.of_uint.
  induction d; simpl; [done | exact IHd | ..];
    rewrite <- digits_val_of_uint_acc; reflexivity.
Qed.

Lemma to_uint_not_nil (n : N) : N.to_uint n <> Decimal.Nil.
Proof.
  intros H. pose proof (DecimalN.Unsigned.of_to n) as Hn. rewrite H in Hn.
  destruct n; [discriminate | discriminate].
Qed.

Lemma of_N_unfold (n : N) : PyStr.of_N n = NilEmpty.string_of_uint (N.to_uint n).
Proof.
  unfold PyStr.of_N, NilZero.string_of_uint.
  pose proof (to_uint_not_nil n). by destruct (N.to_uint n).
Qed.

Lemma of_N_digits (n : N) : all_chars PyStr.isdigit (PyStr.of_N n) = true.
Proof. rewrite of_N_unfold. apply string_of_uint_digits. Qed.

Lemma of_N_nonempty (n : N) : PyStr.of_N n <> EmptyString.
Proof.
  rewrite of_N_unfold. pose proof (to_uint_not_nil n).
  by destruct (N.to_uint n).
Qed.

Lemma digits_val_of_N (n : N) : Dec.digits_val 0 (PyStr.of_N n) = n.
Proof.
  rewrite of_N_unfold, digits_val_of_uint. apply DecimalN.Unsigned.of_to.
Qed.

Lemma zeros_S (n : nat) : Dec.zeros (Z.of_nat (S n)) = String "0" (Dec.zeros (Z.of_nat n)).
Proof.
  unfold Dec.zeros. rewrite !Nat2Z.id. simpl repeat.
  destruct n; [reflexivity |]. reflexivity.
Qed.

Lemma zeros_0 (z : Z) : (z <= 0)%Z -> Dec.zeros z = EmptyString.
Proof. intros Hz. unfold Dec.zeros. by replace (Z.to_nat z) with 0 by lia. Qed.

Lemma zeros_spec (n : nat) :
  all_chars PyStr.isdigit (Dec.zeros (Z.of_nat n)) = true
  /\ String.length (Dec.zeros (Z.of_nat n)) = n
  /\ forall acc s, Dec.digits_val acc (Dec.zeros (Z.of_nat n) ++ s)
                   = Dec.digits_val (acc * 10 ^ N.of_nat n)%N s.
Proof.
  induction n as [| n (IH1 & IH2 & IH3)].
  - repeat split; try done. intros acc s. f_equal. simpl. lia.
  - rewrite zeros_S. repeat split.
    + simpl. exact IH1.
    + simpl. by rewrite IH2.
    + intros acc s. rewrite append_cons. cbn [Dec.digits_val].
      rewrite IH3. f_equal.
      replace (N.of_nat (S n)) with (N.succ (N.of_nat n)) by lia.
      rewrite N.pow_succ_r'. unfold Dec.digit_val. simpl. lia.
Qed.

(** A string that does not go on with a digit. *)
Definition no_digit_ahead (s : string) : Prop :=
  match s with
  | EmptyString => True
  | String c _ => PyStr.isdigit c = false
  end.

Lemma span_digits_app (ds rest : string) :
  all_chars PyStr.isdigit ds = true -> no_digit_ahead rest ->
  Dec.span_digits (ds ++ rest) = (ds, rest).
Proof.
  intros Hds Hrest. induction ds as [| c ds IH].
  - rewrite append_nil. destruct rest as [| c rest]; [done |].
    simpl in *. by rewrite Hrest.
  - rewrite append_cons. simpl in *.
    apply andb_true_iff in Hds as [Hc Hds]. by rewrite Hc, (IH Hds).
Qed.

Lemma take_drop (n : nat) (s : string) : PyStr.take n s ++ PyStr.drop n s = s.
Proof.
  unfold PyStr.take. revert s.
  induction n as [| n IH]; intros s; destruct s as [| c s]; try done.
  simpl substring. cbn [PyStr.drop]. by rewrite append_cons, IH.
Qed.

Lemma take_length (n : nat) (s : string) :
  n <= String.length s -> String.length (PyStr.take n s) = n.
Proof.
  unfold PyStr.take. revert s.
  induction n as [| n IH]; intros s Hn; destruct s as [| c s]; simpl in *;
    try done; try lia.
  rewrite IH; lia.
Qed.

Lemma take_nonempty (n : nat) (s : string) :
  0 < n -> s <> EmptyString -> PyStr.take n s <> EmptyString.
Proof. intros Hn Hs. destruct n; [lia |]. by destruct s. Qed.

Lemma all_chars_take_drop (f : ascii -> bool) (n : nat) (s : string) :
  all_chars f s = true ->
  all_chars f (PyStr.take n s) = true /\ all_chars f (PyStr.drop n s) = true.
Proof.
  intros Hs. rewrite <- (take_drop n s), all_chars_app in Hs.
  by apply andb_true_iff in Hs.
Qed.

(** *** Reading a number back *)

Lemma parse_exponent_signed (x : Z) :
  Dec.parse_exponent (if (x =? 0)%Z then EmptyString else "E" ++ Dec.signed_str x)
  = Some x.
Proof.
  destruct (Z.eqb_spec x 0) as [-> | Hx]; [done |].
  unfold Dec.signed_str.
  assert (Hspan : Dec.span_digits (PyStr.of_N (Z.abs_N x))
                  = (PyStr.of_N (Z.abs_N x), EmptyString)).
  { rewrite <- (append_empty_r (PyStr.of_N (Z.abs_N x))) at 1.
    apply span_digits_app; [apply of_N_digits | done]. }
  assert (Hne : PyStr.nonempty (PyStr.of_N (Z.abs_N x)) = true).
  { pose proof (of_N_nonempty (Z.abs_N x)). by destruct (PyStr.of_N _). }
  destruct (Z.ltb_spec x 0); rewrite append_cons, append_nil; cbn [Dec.parse_exponent];
    simpl Ascii.eqb; simpl orb; cbv iota;
    rewrite append_cons, append_nil; cbn [Dec.split_sign];
    rewrite Hspan, Hne, digits_val_of_N; simpl; f_equal; lia.
Qed.

Lemma exponent_no_digit (x : Z) :
  no_digit_ahead (if (x =? 0)%Z then EmptyString else "E" ++ Dec.signed_str x).
Proof. by destruct (x =? 0)%Z. Qed.

(** The text [ip.fp] or [ip], with an exponent when it is not zero, is
    read as the digits [ip fp] with the exponent lowered by the length of
    [fp]. *)
Lemma parse_number_parts (sign : bool) (ip fp : string) (dot : bool) (x : Z) :
  all_chars PyStr.isdigit ip = true -> ip <> EmptyString ->
  all_chars PyStr.isdigit fp = true -> (dot = false -> fp = EmptyString) ->
  Dec.parse_number
    sign (ip ++ (if dot then "." ++ fp else EmptyString)
          ++ (if (x =? 0)%Z then EmptyString else "E" ++ Dec.signed_str x))
  = let coeff := Dec.digits_val 0 (ip ++ fp) in
    let e := (x - Z.of_nat (String.length fp))%Z in
    if Dec.in_range coeff e then Some (Dec.Fin sign coeff e) else None.
Proof.
  intros Hip Hne Hfp Hdot. unfold Dec.parse_number.
  set (ex := if (x =? 0)%Z then EmptyString else "E" ++ Dec.signed_str x).
  assert (Hex : no_digit_ahead ex) by apply exponent_no_digit.
  rewrite (span_digits_app ip); [| done |].
  - destruct dot.
    + rewrite append_assoc, append_cons, append_nil.
      rewrite (span_digits_app fp ex Hfp Hex).
      assert (PyStr.is_empty ip = false) by (by destruct ip).
      rewrite H. simpl andb. cbv iota.
      unfold ex. by rewrite parse_exponent_signed.
    + rewrite (Hdot eq_refl), append_nil.
      assert (Hr : match ex with
                   | String "." r => Dec.span_digits r
                   | _ => (EmptyString, ex)
                   end = (EmptyString, ex)).
      { unfold ex. destruct (x =? 0)%Z; [done |]. by rewrite append_cons. }
      rewrite Hr.
      assert (PyStr.is_empty ip = false) by (by destruct ip).
      rewrite H. simpl andb. cbv iota.
      unfold ex. by rewrite parse_exponent_signed.
  - destruct dot; [by rewrite append_cons | by rewrite append_nil].
Qed.

Lemma drop_length (n : nat) (s : string) :
  String.length (PyStr.drop n s) = String.length s - n.
Proof.
  revert s. induction n as [| n IH]; intros s; destruct s as [| c s]; simpl;
    try done; try lia.
Qed.

(** The digits and the exponent of [str(d)] for a finite [d], sign apart. *)
Definition number_text (c : N) (e : Z) : string :=
  let ds := PyStr.of_N c in
  let len := Z.of_nat (String.length ds) in
  let leftdigits := (e + len)%Z in
  let dotplace :=
    if ((e <=? 0) && (-6 <? leftdigits))%Z then leftdigits else 1%Z in
  let intpart :=
    if (dotplace <=? 0)%Z then "0"
    else if (len <=? dotplace)%Z then ds ++ Dec.zeros (dotplace - len)
    else PyStr.take (Z.to_nat dotplace) ds in
  let fracpart :=
    if (dotplace <=? 0)%Z then "." ++ Dec.zeros (- dotplace) ++ ds
    else if (len <=? dotplace)%Z then ""
    else "." ++ PyStr.drop (Z.to_nat dotplace) ds in
  let exppart :=
    if (leftdigits =? dotplace)%Z then ""
    else "E" ++ Dec.signed_str (leftdigits - dotplace) in
  intpart ++ fracpart ++ exppart.

Lemma to_string_fin (s : bool) (c : N) (e : Z) :
  Dec.to_string (Dec.Fin s c e) = (if s then "-" else "") ++ number_text c e.
Proof. reflexivity. Qed.

Lemma number_text_parts (c : N) (e : Z) :
  exists (ip fp : string) (dot : bool) (x : Z),
    number_text c e
    = ip ++ (if dot then "." ++ fp else EmptyString)
      ++ (if (x =? 0)%Z then EmptyString else "E" ++ Dec.signed_str x)
    /\ all_chars PyStr.isdigit ip = true /\ ip <> EmptyString
    /\ all_chars PyStr.isdigit fp = true /\ (dot = false -> fp = EmptyString)
    /\ Dec.digits_val 0 (ip ++ fp) = c
    /\ (x - Z.of_nat (String.length fp))%Z = e.
Proof.
  unfold number_text.
  pose proof (of_N_digits c) as Hds. pose proof (of_N_nonempty c) as Hne.
  pose proof (digits_val_of_N c) as Hval.
  set (ds := PyStr.of_N c) in *.
  assert (Hlen : (1 <= Z.of_nat (String.length ds))%Z) by (destruct ds; [done | simpl; lia]).
  set (len := Z.of_nat (String.length ds)) in *.
  cbv zeta.
  destruct ((e <=? 0)%Z && (-6 <? e + len)%Z) eqn:Hplain.
  - apply andb_true_iff in Hplain as [He Hleft].
    apply Z.leb_le in He. apply Z.ltb_lt in Hleft.
    rewrite Z.eqb_refl.
    destruct (Z.leb_spec (e + len) 0) as [Hdot | Hdot].
    + (* 0.000ddd *)
      exists "0", (Dec.zeros (- (e + len)) ++ ds), true, 0%Z.
      replace (- (e + len))%Z with (Z.of_nat (Z.to_nat (- (e + len)))) by lia.
      destruct (zeros_spec (Z.to_nat (- (e + len)))) as (Hz1 & Hz2 & Hz3).
      repeat split; try done.
      * by rewrite all_chars_app, Hz1, Hds.
      * rewrite append_cons, append_nil. cbn [Dec.digits_val].
        rewrite Hz3. rewrite <- Hval. f_equal.
      * rewrite length_append, Hz2. unfold len. lia.
    + destruct (Z.leb_spec len (e + len)) as [Hall | Hsome].
      * (* ddd *)
        exists ds, EmptyString, false, 0%Z.
        rewrite (zeros_0 (e + len - len)) by lia.
        rewrite !append_empty_r.
        repeat split; try done. simpl. lia.
      * (* dd.ddd *)
        exists (PyStr.take (Z.to_nat (e + len)) ds),
               (PyStr.drop (Z.to_nat (e + len)) ds), true, 0%Z.
        destruct (all_chars_take_drop PyStr.isdigit (Z.to_nat (e + len)) ds Hds)
          as [Ht Hd].
        repeat split; try done.
        -- apply take_nonempty; [lia | done].
        -- by rewrite take_drop.
        -- rewrite drop_length. unfold len. lia.
  - assert (Hsci : (0 < e \/ e + len <= -6)%Z).
    { apply andb_false_iff in Hplain as [H | H];
        [apply Z.leb_gt in H | apply Z.ltb_ge in H]; lia. }
    destruct (Z.leb_spec 1 0) as [Habs | _]; [lia |].
    assert (Hx : ((e + len =? 1) = false)%Z) by (apply Z.eqb_neq; lia).
    rewrite Hx.
    assert (Hx' : ((e + len - 1 =? 0) = false)%Z) by (apply Z.eqb_neq; lia).
    destruct (Z.leb_spec len 1) as [Hone | Hmore].
    + (* dE+x *)
      exists ds, EmptyString, false, (e + len - 1)%Z.
      rewrite (zeros_0 (1 - len)) by lia.
      rewrite Hx', !append_empty_r, append_nil.
      repeat split; try done. simpl. lia.
    + (* d.dddE+x *)
      exists (PyStr.take (Z.to_nat 1) ds), (PyStr.drop (Z.to_nat 1) ds), true,
             (e + len - 1)%Z.
      destruct (all_chars_take_drop PyStr.isdigit (Z.to_nat 1) ds Hds) as [Ht Hd].
      rewrite Hx'.
      repeat split; try done.
      * apply take_nonempty; [lia | done].
      * by rewrite take_drop.
      * rewrite drop_length. unfold len. lia.
Qed.

(** *** [Decimal(str(d))] *)

(** A character that is no white space, underscore or comma. *)
Definition plain_char (c : ascii) : bool :=
  negb (PyStr.isspace c) && negb (Ascii.eqb c "_") && negb (Ascii.eqb c ",").

(** The values that the constructor builds. *)
Definition representable (d : Dec.t) : Prop :=
  match d with
  | Dec.Fin _ c e => Dec.in_range c e = true
  | _ => True
  end.

Lemma digit_plain (c : ascii) : PyStr.isdigit c = true -> plain_char c = true.
Proof. destruct c as [[] [] [] [] [] [] [] []]; vm_compute; congruence. Qed.

Lemma digits_plain (s : string) :
  all_chars PyStr.isdigit s = true -> all_chars plain_char s = true.
Proof. apply all_chars_impl, digit_plain. Qed.

Lemma plain_text_clean (t : string) :
  all_chars plain_char t = true ->
  PyStr.strip t = t
  /\ PyStr.replace_char "_" EmptyString t = t
  /\ PyStr.contains "," t = false.
Proof.
  intros Ht. repeat split.
  - apply strip_no_space. revert Ht. apply all_chars_impl.
    intros c. unfold plain_char. by intros [[? _]%andb_true_iff _]%andb_true_iff.
  - apply replace_char_absent. revert Ht. apply all_chars_impl.
    intros c. unfold plain_char. by intros [[_ ?]%andb_true_iff _]%andb_true_iff.
  - apply contains_absent. revert Ht. apply all_chars_impl.
    intros c. unfold plain_char. by intros [_ ?]%andb_true_iff.
Qed.

Lemma signed_str_plain (x : Z) : all_chars plain_char (Dec.signed_str x) = true.
Proof.
  unfold Dec.signed_str.
  rewrite all_chars_app, (digits_plain _ (of_N_digits _)).
  by destruct (x <? 0)%Z.
Qed.

(** A text that starts with a digit is read as a number. *)
Lemma parse_body_digit (sign : bool) (c : ascii) (rest : string) :
  PyStr.isdigit c = true ->
  Dec.parse_body sign (String c rest) = Dec.parse_number sign (String c rest)
  /\ Dec.split_sign (String c rest) = (false, String c rest).
Proof.
  intros Hc. unfold Dec.parse_body. cbn [PyStr.lower].
  destruct c as [[] [] [] [] [] [] [] []]; try discriminate Hc; done.
Qed.

Lemma of_string_to_string (d : Dec.t) :
  representable d ->
  all_chars plain_char (Dec.to_string d) = true
  /\ Dec.to_string d <> EmptyString
  /\ Dec.of_string (Dec.to_string d) = inr d.
Proof.
  intros Hd. destruct d as [s c e | s | s sg p].
  - (* a finite number *)
    rewrite to_string_fin.
    destruct (number_text_parts c e)
      as (ip & fp & dot & x & -> & Hip & Hne & Hfp & Hdot & Hval & Hexp).
    set (body := ip ++ (if dot then "." ++ fp else EmptyString)
                 ++ (if (x =? 0)%Z then EmptyString else "E" ++ Dec.signed_str x)).
    assert (Hbody : all_chars plain_char body = true).
    { unfold body. rewrite !all_chars_app, (digits_plain _ Hip).
      destruct dot, (x =? 0)%Z; rewrite ?append_cons, ?append_nil; simpl;
        rewrite ?(digits_plain _ Hfp), ?signed_str_plain; done. }
    assert (Hhead : exists c0 rest, body = String c0 rest /\ PyStr.isdigit c0 = true).
    { unfold body. destruct ip as [| c0 ip]; [done |].
      exists c0, (ip ++ (if dot then "." ++ fp else EmptyString)
                  ++ (if (x =? 0)%Z then EmptyString else "E" ++ Dec.signed_str x)).
      split; [by rewrite append_cons |]. simpl in Hip.
      by apply andb_true_iff in Hip as [? _]. }
    destruct Hhead as (c0 & rest & Hb & Hc0).
    assert (Hall : all_chars plain_char ((if s then "-" else "") ++ body) = true).
    { rewrite all_chars_app, Hbody. by destruct s. }
    split; [exact Hall |]. split.
    { rewrite Hb. by destruct s. }
    unfold Dec.of_string.
    destruct (plain_text_clean _ Hall) as (-> & -> & _).
    destruct (parse_body_digit s c0 rest Hc0) as [Hparse Hsign].
    assert (Hsplit : Dec.split_sign ((if s then "-" else "") ++ body) = (s, body)).
    { destruct s; [by rewrite append_cons, append_nil |].
      rewrite append_nil, Hb. exact Hsign. }
    rewrite Hsplit, Hb, Hparse, <- Hb. unfold body.
    rewrite (parse_number_parts s ip fp dot x Hip Hne Hfp Hdot).
    cbv zeta. rewrite Hval, Hexp. simpl in Hd. by rewrite Hd.
  - (* an infinity *)
    by destruct s.
  - (* a NaN *)
    destruct (N.eqb_spec p 0) as [-> | Hp].
    { by destruct s, sg. }
    assert (Hto : Dec.to_string (Dec.NaN s sg p)
                  = (if s then "-" else "") ++ (if sg then "sNaN" else "NaN")
                    ++ PyStr.of_N p).
    { unfold Dec.to_string. by destruct (N.eqb_spec p 0). }
    rewrite Hto.
    assert (Hall : all_chars plain_char
                     ((if s then "-" else "") ++ (if sg then "sNaN" else "NaN")
                      ++ PyStr.of_N p) = true).
    { rewrite !all_chars_app, (digits_plain _ (of_N_digits p)). by destruct s, sg. }
    split; [exact Hall |]. split; [by destruct s, sg |].
    unfold Dec.of_string.
    destruct (plain_text_clean _ Hall) as (-> & -> & _).
    assert (Hspan : Dec.span_digits (PyStr.of_N p) = (PyStr.of_N p, EmptyString)).
    { rewrite <- (append_empty_r (PyStr.of_N p)) at 1.
      apply span_digits_app; [apply of_N_digits | done]. }
    assert (Hpre : forall t, String.prefix EmptyString t = true) by (by intros []).
    destruct s, sg; rewrite ?append_cons, ?append_nil; cbn [Dec.split_sign];
      unfold Dec.parse_body; cbn [PyStr.lower]; simpl; unfold Dec.parse_nan;
      rewrite Hspan, digits_val_of_N, ?Hpre; reflexivity.
Qed.

(** What the constructor returns is representable. *)
Lemma of_string_representable (t : string) (d : Dec.t) :
  Dec.of_string t = inr d -> representable d.
Proof.
  unfold Dec.of_string.
  destruct (Dec.split_sign _) as [sign body].
  destruct (Dec.parse_body sign body) as [d' |] eqn:E; [| discriminate].
  intros [= <-]. revert E. unfold Dec.parse_body.
  destruct (String.eqb _ "inf" || String.eqb _ "infinity"); [by intros [= <-] |].
  assert (Hnan : forall sg digits, Dec.parse_nan sign sg digits = Some d' -> representable d').
  { intros sg digits. unfold Dec.parse_nan.
    destruct (Dec.span_digits digits) as [ds rest].
    destruct (PyStr.is_empty rest); [by intros [= <-] | discriminate]. }
  destruct (String.prefix "nan" _); [apply Hnan |].
  destruct (String.prefix "snan" _); [apply Hnan |].
  unfold Dec.parse_number.
  destruct (Dec.span_digits body) as [ip r1].
  destruct (match r1 with String "." r => Dec.span_digits r | _ => (EmptyString, r1) end)
    as [fp r2].
  destruct (PyStr.is_empty ip && PyStr.is_empty fp); [discriminate |].
  destruct (Dec.parse_exponent r2) as [e |]; [| discriminate].
  destruct (Dec.in_range _ _) eqn:Hr; [| discriminate].
  intros [= <-]. exact Hr.
Qed.

Lemma parse_returns_representable (s : string) (d : Dec.t) :
  parse_italian_decimal (VStr s) = inr (Some d) -> representable d.
Proof.
  unfold parse_italian_decimal.
  destruct (PyStr.is_empty (PyStr.strip s)); [discriminate |].
  destruct (Dec.of_string (standardize (PyStr.strip s))) as [e | r] eqn:E1.
  - destruct e; try discriminate.
    destruct (Re.search numeric_part_re (PyStr.strip s)) as [m |]; [| discriminate].
    destruct (Dec.of_string (PyStr.replace_char _ _ _)) as [e | r] eqn:E2.
    + destruct e; discriminate.
    + intros [= <-]. by eapply of_string_representable.
  - intros [= <-]. by eapply of_string_representable.
Qed.

(** Reading the text of a representable decimal gives the decimal. *)
Lemma parse_to_string (d : Dec.t) :
  representable d ->
  parse_italian_decimal (VStr (Dec.to_string d)) = inr (Some d).
Proof.
  intros Hd. destruct (of_string_to_string d Hd) as (Hall & Hne & Hof).
  destruct (plain_text_clean _ Hall) as (Hstrip & _ & Hcomma).
  unfold parse_italian_decimal. rewrite Hstrip.
  destruct (Dec.to_string d) as [| c t] eqn:E; [done |].
  cbn [PyStr.is_empty]. unfold standardize. rewrite Hcomma. simpl andb. cbv iota.
  by rewrite Hof.
Qed.

End DecimalText.

(** X1. Numeric fields through their text. Every decimal that
    [parse_italian_decimal] returns for a string is returned again, with
    the same sign, digits and exponent, when the text [str(d)] that
    [_parse_numeric_field] stores is parsed; [_parse_numeric_field] raises
    nothing on a string or None, and applying it to what it stored stores
    the same text. *)
Theorem numeric_field_text_round_trip :
  (forall (s : string) (d : Dec.t),
      parse_italian_decimal (VStr s) = inr (Some d) ->
      TableRows._parse_numeric_field (Some s) = inr (Some (Dec.to_string d))
      /\ parse_italian_decimal (VStr (Dec.to_string d)) = inr (Some d))
  /\ (forall value : option string,
         exists stored,
           TableRows._parse_numeric_field value = inr stored
           /\ TableRows._parse_numeric_field stored = inr stored).
Proof.
  split.
  - intros s d Hs. split.
    + unfold TableRows._parse_numeric_field. by rewrite Hs.
    + apply parse_to_string. by eapply parse_returns_representable.
  - intros [v |]; [| by exists None].
    destruct (parse_string_returns v) as ([d |] & Hv & _).
    + exists (Some (Dec.to_string d)).
      unfold TableRows._parse_numeric_field. rewrite Hv. split; [done |].
      rewrite (parse_to_string d); [done |]. by eapply parse_returns_representable.
    + exists None. unfold TableRows._parse_numeric_field. by rewrite Hv.
Qed.

(** The amount 1.234,56 of an invoice: stored as 1234.56 and read back. *)
Lemma numeric_field_text_round_trip_witness :
  TableRows._parse_numeric_field (Some "1.234,56") = inr (Some "1234.56")
  /\ parse_italian_decimal (VStr "1234.56") = inr (Some (Dec.Fin false 123456 (-2))).
Proof.
  assert (Hs : parse_italian_decimal (VStr "1.234,56")
               = inr (Some (Dec.Fin false 123456 (-2)))) by (vm_compute; reflexivity).
  exact (proj1 numeric_field_text_round_trip "1.234,56" (Dec.Fin false 123456 (-2)) Hs).
Defined.

(** ** Items and groups of a page *)

Section AssociationConservation.
Import TableExtractor.

Lemma filter_below_succ {A : Type} (f : A -> nat) (n : nat) (l : list A) :
  Permutation (List.filter (fun x => Nat.ltb (f x) (S n)) l)
              (List.filter (fun x => Nat.ltb (f x) n) l
               ++ List.filter (fun x => Nat.eqb (f x) n) l).
Proof.
  induction l as [| x l IH]; simpl; [done |].
  destruct (Nat.ltb_spec (f x) (S n)), (Nat.ltb_spec (f x) n), (Nat.eqb_spec (f x) n);
    try lia; simpl.
  - by apply Permutation_skip.
  - etrans; [apply Permutation_skip, IH |]. apply Permutation_middle.
  - done.
Qed.

(** Sorting a list into the classes 0 .. n-1 of a function keeps every
    element that has a class. *)
Lemma classes_partition {A : Type} (f : A -> nat) (n : nat) (l : list A) :
  Permutation (flat_map (fun i => List.filter (fun x => Nat.eqb (f x) i) l) (seq 0 n))
              (List.filter (fun x => Nat.ltb (f x) n) l).
Proof.
  induction n as [| n IH].
  - simpl. induction l as [| x l IHl]; [done | simpl; done].
  - rewrite seq_S, flat_map_app. simpl. rewrite app_nil_r.
    etrans; [apply Permutation_app_tail, IH |].
    symmetry. apply filter_below_succ.
Qed.

Lemma filter_all {A : Type} (f : A -> bool) (l : list A) :
  (forall x, In x l -> f x = true) -> List.filter f l = l.
Proof.
  induction l as [| x l IH]; intros Hall; simpl; [done |].
  rewrite (Hall x) by (by left). f_equal. apply IH. intros y Hy. apply Hall. by right.
Qed.

Lemma flat_map_map_fst {A B C : Type} (F : C -> list (A * B)) (l : list C) :
  flat_map (fun i => map fst (F i)) l = map fst (flat_map F l).
Proof.
  induction l as [| i l IH]; simpl; [done |]. by rewrite map_app, IH.
Qed.

Lemma placed_partition (delivery_positions : list nat)
      (placed : list (ProductData.t * nat)) :
  delivery_positions <> [] ->
  Permutation
    (flat_map (fun i => placed_on delivery_positions i placed)
              (seq 0 (length delivery_positions)))
    (map fst placed).
Proof.
  intros Hne. unfold placed_on.
  rewrite (flat_map_map_fst
             (fun i => List.filter
                         (fun '(_, pos) => Nat.eqb (target delivery_positions pos) i)
                         placed)).
  apply Permutation_map.
  etrans.
  { erewrite flat_map_ext; [apply (classes_partition
                                      (fun x => target delivery_positions (snd x))) |].
    intros i. apply List.filter_ext. by intros [p pos]. }
  rewrite filter_all; [done |].
  intros [p pos] _. apply Nat.ltb_lt. by apply target_lt.
Qed.

Lemma map_fst_combine {A B : Type} (l : list A) (k : list B) :
  length k = length l -> map fst (combine l k) = l.
Proof.
  revert k. induction l as [| a l IH]; intros [| b k] Hlen; simpl in *; try done.
  f_equal. apply IH. lia.
Qed.

Lemma groups_by_index (groups all : list DeliveryData.t)
      (items : nat -> list ProductData.t) :
  length groups = length all ->
  (forall i d, all !! i = Some d ->
               groups !! i = Some (DeliveryData.set_products d (items i))) ->
  flat_map DeliveryData.products groups = flat_map items (seq 0 (length all))
  /\ map (fun d => DeliveryData.set_products d []) groups
     = map (fun d => DeliveryData.set_products d []) all.
Proof.
  revert groups items.
  induction all as [| d all IH] using rev_ind; intros groups items Hlen Hget.
  - destruct groups; [done | discriminate].
  - rewrite length_app in Hlen. simpl in Hlen.
    destruct groups as [| g groups _] using rev_ind; [simpl in Hlen; lia |].
    rewrite length_app in Hlen. simpl in Hlen.
    assert (Hl : length groups = length all) by lia.
    assert (Hlast : g = DeliveryData.set_products d (items (length all))).
    { specialize (Hget (length all) d). rewrite list_lookup_middle in Hget by done.
      specialize (Hget eq_refl). rewrite <- Hl, list_lookup_middle in Hget by done.
      rewrite Hl in Hget. congruence. }
    destruct (IH groups items Hl) as [IH1 IH2].
    { intros i d' Hi. specialize (Hget i d').
      rewrite lookup_app_l in Hget by (by eapply lookup_lt_Some).
      specialize (Hget Hi).
      rewrite lookup_app_l in Hget; [done |].
      rewrite Hl. by eapply lookup_lt_Some. }
    rewrite length_app. simpl length. rewrite Nat.add_1_r, seq_S.
    rewrite !flat_map_app, !map_app, IH1, IH2. simpl. rewrite !app_nil_r.
    by rewrite Hlast.
Qed.

Lemma cleared_no_products (l : list DeliveryData.t) :
  flat_map DeliveryData.products
           (map (fun d => DeliveryData.set_products d []) l) = [].
Proof. induction l as [| d l IH]; [done | exact IH]. Qed.

End AssociationConservation.

(** X2. The association keeps every item. On a page with groups and items,
    with a single group, or with groups whose series and number are made
    of letters and digits and every product position found, the call
    raises nothing, the groups keep their own fields and their order, and
    the items of the groups together are the items of the page, each once.
    When the search for the product positions raises on a page with
    several such groups, the call raises that exception, and it leaves
    every group of the page without items. *)
Theorem association_keeps_every_product :
  (forall (page_data : PageData.t) (positions : list nat),
      PageData.all_deliveries page_data <> [] ->
      PageData.products page_data <> [] ->
      length (PageData.all_deliveries page_data) = 1
      \/ (forallb TableExtractor.literal_key (PageData.all_deliveries page_data) = true
          /\ TableExtractor._find_product_positions_in_text
               (PageData.raw_text page_data) (PageData.products page_data)
             = inr positions) ->
      let result := TableExtractor._associate_products_with_deliveries page_data in
      snd result = None
      /\ Permutation
           (flat_map DeliveryData.products (PageData.all_deliveries (fst result)))
           (PageData.products page_data)
      /\ map (fun d => DeliveryData.set_products d [])
             (PageData.all_deliveries (fst result))
         = map (fun d => DeliveryData.set_products d [])
               (PageData.all_deliveries page_data)
      /\ PageData.products (fst result) = PageData.products page_data)
  /\ (forall (page_data : PageData.t) (e : exn),
         2 <= length (PageData.all_deliveries page_data) ->
         forallb TableExtractor.literal_key (PageData.all_deliveries page_data) = true ->
         PageData.products page_data <> [] ->
         TableExtractor._find_product_positions_in_text
           (PageData.raw_text page_data) (PageData.products page_data) = inl e ->
         let result := TableExtractor._associate_products_with_deliveries page_data in
         snd result = Some e
         /\ flat_map DeliveryData.products (PageData.all_deliveries (fst result)) = []).
Proof.
  split.
  - intros page_data positions Hds Hps Hcase result.
    destruct (PageData.all_deliveries page_data) as [| d1 [| d2 rest]] eqn:Hall;
      [done | |].
    + (* a single group *)
      unfold result, TableExtractor._associate_products_with_deliveries.
      rewrite Hall.
      destruct (PageData.products page_data) as [| p ps] eqn:Hprod; [done |].
      simpl. rewrite app_nil_r. repeat split; try done; by destruct d1.
    + destruct Hcase as [Hone | [_ Hpos]]; [simpl in Hone; lia |].
      assert (Hlen : 2 <= length (PageData.all_deliveries page_data))
        by (rewrite Hall; simpl; lia).
      destruct (associate_multiple page_data positions Hlen Hps Hpos)
        as (groups & Hrun & Hl & Hget).
      unfold result. rewrite Hrun. simpl fst. simpl snd.
      cbn [TableExtractor.with_deliveries PageData.all_deliveries PageData.products].
      set (dpos := TableExtractor._find_delivery_positions_in_text
                     (PageData.raw_text page_data)
                     (PageData.all_deliveries page_data)) in *.
      set (placed := combine (PageData.products page_data) positions) in *.
      destruct (groups_by_index groups (PageData.all_deliveries page_data)
                                (fun i => placed_on dpos i placed) Hl Hget)
        as [Hitems Hfields].
      rewrite <- Hall. repeat split; [| exact Hfields].
      rewrite Hitems.
      assert (Hdl : length dpos = length (PageData.all_deliveries page_data)).
      { unfold dpos, TableExtractor._find_delivery_positions_in_text.
        by rewrite length_map. }
      rewrite <- Hdl.
      etrans; [apply placed_partition |].
      * intros Hnil. rewrite Hnil in Hdl. simpl in Hdl. lia.
      * unfold placed. rewrite map_fst_combine; [done |].
        by apply (product_positions_length _ _ _ Hpos).
  - intros page_data e Hlen _ Hps Hpos result.
    unfold result, TableExtractor._associate_products_with_deliveries.
    destruct (PageData.all_deliveries page_data) as [| d1 [| d2 rest]] eqn:Hall;
      [simpl in Hlen; lia | simpl in Hlen; lia |].
    destruct (PageData.products page_data) as [| p ps] eqn:Hprod; [done |].
    cbn [map]. rewrite Hpos. simpl fst. simpl snd.
    split; [done |].
    cbn [TableExtractor.with_deliveries PageData.all_deliveries].
    apply (cleared_no_products (d1 :: d2 :: rest)).
Qed.

(** The page with two groups and three items, one of them not in the text. *)
Lemma association_keeps_every_product_witness :
  Permutation
    (flat_map DeliveryData.products
       (PageData.all_deliveries
          (fst (TableExtractor._associate_products_with_deliveries two_group_page))))
    (PageData.products two_group_page).
Proof.
  assert (Hpos : TableExtractor._find_product_positions_in_text
                   (PageData.raw_text two_group_page) (PageData.products two_group_page)
                 = inr [300; 950; 1000]) by (vm_compute; reflexivity).
  assert (Hkeys : forallb TableExtractor.literal_key
                          (PageData.all_deliveries two_group_page) = true)
    by (vm_compute; reflexivity).
  assert (Hds : PageData.all_deliveries two_group_page <> []) by discriminate.
  assert (Hps : PageData.products two_group_page <> []) by discriminate.
  destruct (proj1 association_keeps_every_product two_group_page [300; 950; 1000]
                  Hds Hps (or_intror (conj Hkeys Hpos))) as (_ & Hitems & _).
  exact Hitems.
Defined.

(** ** Rows with a product code *)

Section ProductRows.
Import CoordinateTableExtractor.

(** What identifies a row with a product code: its place in the table,
    its raw cells and its product code. *)
Definition row_identity (row : raw_row) : nat * list (option string) * option string :=
  (row_index row, raw_data row, get row "product_code").

Definition product_rows (rows : list raw_row)
  : list (nat * list (option string) * option string) :=
  map row_identity (List.filter has_product_code rows).

Lemma pull_frame (key : string) (prev_row row : raw_row) :
  row_index (pull key prev_row row) = row_index row
  /\ raw_data (pull key prev_row row) = raw_data row.
Proof. unfold pull. by destruct (_ && _). Qed.

Lemma pull_all_frame (prev_row row : raw_row) :
  row_index (pull_all prev_row row) = row_index row
  /\ raw_data (pull_all prev_row row) = raw_data row.
Proof.
  unfold pull_all. generalize pulled_fields as keys. intros keys. revert row.
  induction keys as [| key keys IH]; intros row; [done |].
  simpl. destruct (IH (pull key prev_row row)) as [-> ->]. apply pull_frame.
Qed.

Lemma pull_all_identity (prev_row row : raw_row) :
  row_identity (pull_all prev_row row) = row_identity row
  /\ has_product_code (pull_all prev_row row) = has_product_code row.
Proof.
  assert (Hcode : get (pull_all prev_row row) "product_code" = get row "product_code").
  { rewrite pull_all_get.
    destruct (decide ("product_code" ∈ pulled_fields)) as [Hin | _]; [| done].
    exfalso. revert Hin. unfold pulled_fields. rewrite !elem_of_cons, elem_of_nil.
    intros [? | [? | [? | [? | [? | []]]]]]; discriminate. }
  destruct (pull_all_frame prev_row row) as [Hi Hd].
  split.
  - unfold row_identity. by rewrite Hi, Hd, Hcode.
  - unfold has_product_code, get_or_empty. by rewrite Hcode.
Qed.

Lemma reconciled_identity (raw_rows : list raw_row) (i : nat) (row : raw_row) :
  row_identity (reconciled raw_rows i row) = row_identity row
  /\ has_product_code (reconciled raw_rows i row) = has_product_code row.
Proof.
  unfold reconciled. destruct i as [| j]; [done |].
  destruct (raw_rows !! j); [apply pull_all_identity | done].
Qed.

Lemma product_rows_snoc (rows : list raw_row) (row : raw_row) :
  product_rows (rows ++ [row])
  = product_rows rows ++ (if has_product_code row then [row_identity row] else []).
Proof.
  unfold product_rows. rewrite List.filter_app, map_app. simpl.
  by destruct (has_product_code row).
Qed.

(** One turn of the loop adds at most one row, and a row with a product
    code exactly when the row of the turn has one. *)
Lemma merge_iteration_rows (raw_rows merged : list raw_row) (i : nat) (row : raw_row) :
  raw_rows !! i = Some row ->
  product_rows (merge_iteration raw_rows merged i)
  = product_rows merged ++ (if has_product_code row then [row_identity row] else [])
  /\ length (merge_iteration raw_rows merged i) <= S (length merged).
Proof.
  intros Hi. destruct (has_product_code row) eqn:Hp.
  - rewrite (merge_iteration_primary raw_rows merged i row Hi Hp).
    destruct (reconciled_identity raw_rows i row) as [Hid Hcode].
    rewrite product_rows_snoc, Hcode, Hp, Hid, length_app. simpl. split; [done | lia].
  - unfold merge_iteration. rewrite Hi, Hp.
    assert (Hsame : product_rows (merged ++ [row]) = product_rows merged ++ []).
    { by rewrite product_rows_snoc, Hp. }
    assert (Hlen : length (merged ++ [row]) <= S (length merged)).
    { rewrite length_app. simpl. lia. }
    assert (Hkeep : product_rows merged = product_rows merged ++ [])
      by (by rewrite app_nil_r).
    destruct (Nat.ltb (i + 1) (length raw_rows)).
    + destruct (raw_rows !! (i + 1)) as [next_row |]; [| split; [done | lia]].
      destruct (has_product_code next_row); split; try done; lia.
    + destruct (has_meaningful_data row); split; try done; lia.
Qed.

Lemma merged_upto_rows (raw_rows : list raw_row) (n : nat) :
  n <= length raw_rows ->
  product_rows (merged_upto raw_rows n) = product_rows (take n raw_rows)
  /\ length (merged_upto raw_rows n) <= n.
Proof.
  induction n as [| n IH]; intros Hn; [done |].
  destruct (IH ltac:(lia)) as [IHrows IHlen].
  destruct (lookup_lt_is_Some_2 raw_rows n ltac:(lia)) as [row Hrow].
  rewrite merged_upto_S.
  destruct (merge_iteration_rows raw_rows (merged_upto raw_rows n) n row Hrow)
    as [Hrows Hlen].
  rewrite Hrows, IHrows, (take_S_r raw_rows n row Hrow), product_rows_snoc.
  split; [done | lia].
Qed.

End ProductRows.

(** X3. Row merging keeps the rows with a product code. The merged rows
    with a product code are the raw rows with a product code, in the same
    order, each with its row index, its raw cells and its product code; the
    merge returns at most as many rows as it is given, and no row for an
    empty list. *)
Theorem merge_paired_rows_keeps_product_rows
  (raw_rows : list CoordinateTableExtractor.raw_row) :
  let merged := CoordinateTableExtractor._merge_paired_rows raw_rows in
  product_rows merged = product_rows raw_rows
  /\ length (List.filter CoordinateTableExtractor.has_product_code raw_rows)
     <= length merged
  /\ length merged <= length raw_rows.
Proof.
  cbv zeta. unfold CoordinateTableExtractor._merge_paired_rows.
  destruct (merged_upto_rows raw_rows (length raw_rows) ltac:(lia)) as [Hrows Hlen].
  rewrite firstn_all in Hrows.
  split; [exact Hrows |]. split; [| exact Hlen].
  assert (Hcount : length (product_rows raw_rows)
                   = length (List.filter CoordinateTableExtractor.has_product_code
                                         raw_rows))
    by (unfold product_rows; by rewrite length_map).
  rewrite <- Hcount, <- Hrows. unfold product_rows. rewrite length_map.
  apply List.filter_length_le.
Qed.

(** ** Corrected items *)

Section Corrections.
Import OCRValidator.

(** Everything of an item but its total. *)
Definition item_frame (p : ProductData.t)
  : option string * option string * option string * option string
    * option string * option string :=
  (ProductData.product_code p, ProductData.description p, ProductData.customs_code p,
   ProductData.unit_of_measure p, ProductData.quantity p, ProductData.unit_price p).

(** Some error names the item's label and a calculation mismatch. *)
Definition mismatch_reported (index : nat) (errors : list string) : bool :=
  existsb (fun e => PyStr.contains (product_label index) e
                    && PyStr.contains "calculation mismatch" e) errors.

Lemma filter_nil_existsb {A : Type} (f : A -> bool) (l : list A) :
  List.filter f l = [] <-> existsb f l = false.
Proof.
  induction l as [| a l IH]; simpl; [done |].
  destruct (f a); simpl; [split; discriminate | exact IH].
Qed.

Lemma attempt_frame (product : ProductData.t) (index : nat) (errors : list string) :
  item_frame (_attempt_product_correction product index errors) = item_frame product.
Proof. reflexivity. Qed.

Lemma attempt_unreported (product : ProductData.t) (index : nat) (errors : list string) :
  mismatch_reported index errors = false ->
  _attempt_product_correction product index errors = product.
Proof.
  intros Hno. unfold _attempt_product_correction.
  apply filter_nil_existsb in Hno. unfold mismatch_reported in Hno.
  rewrite Hno. by destruct product.
Qed.

Lemma push_fold_app {A B : Type} (g : nat -> A -> B) (l : list A) :
  forall (start : nat) (acc : list B),
    fold_enumerate (fun acc i x => push acc (g i x)) start l acc
    = acc ++ fold_enumerate (fun acc i x => push acc (g i x)) start l [].
Proof.
  induction l as [| x l IH]; intros start acc; simpl.
  - by rewrite app_nil_r.
  - rewrite IH, (IH _ (push [] _)). unfold push. by rewrite <- app_assoc.
Qed.

Lemma push_fold_lookup {A B : Type} (g : nat -> A -> B) (l : list A) :
  forall (start k : nat),
    fold_enumerate (fun acc i x => push acc (g i x)) start l [] !! k
    = g (start + k) <$> l !! k.
Proof.
  induction l as [| x l IH]; intros start k; simpl; [done |].
  rewrite push_fold_app. unfold push. simpl.
  destruct k as [| k]; simpl.
  - by rewrite Nat.add_0_r.
  - rewrite IH. by replace (S start + k) with (start + S k) by lia.
Qed.

Lemma push_fold_map {A B C : Type} (g : nat -> A -> B) (h : B -> C) (h' : A -> C)
      (l : list A) :
  (forall i x, h (g i x) = h' x) ->
  forall start : nat,
    map h (fold_enumerate (fun acc i x => push acc (g i x)) start l []) = map h' l.
Proof.
  intros Hg. induction l as [| x l IH]; intros start; simpl; [done |].
  rewrite push_fold_app. unfold push. simpl. by rewrite Hg, IH.
Qed.

Lemma corrections_frame (products : list ProductData.t) (errors : list string) :
  map item_frame
      (ValidationResult.corrected_products (_generate_corrections products errors))
  = map item_frame products.
Proof.
  unfold _generate_corrections. cbn [ValidationResult.corrected_products].
  apply (push_fold_map (fun i product => _attempt_product_correction product i errors)
                       item_frame item_frame).
  intros i x. apply attempt_frame.
Qed.

Lemma corrections_lookup (products : list ProductData.t) (errors : list string) (i : nat) :
  ValidationResult.corrected_products (_generate_corrections products errors) !! i
  = (fun product => _attempt_product_correction product i errors) <$> products !! i.
Proof.
  unfold _generate_corrections. cbn [ValidationResult.corrected_products].
  apply (push_fold_lookup (fun i product => _attempt_product_correction product i errors)).
Qed.

Local Open Scope Z_scope.

Lemma truth_of_units_at (k : Z) (d : Dec.t) : units k d <> 0 -> Dec.truth d = true.
Proof.
  destruct d as [s c e | |]; try done. simpl.
  destruct (N.eqb_spec c 0) as [-> | ?]; [| done].
  unfold Dec.signed. destruct s; simpl; lia.
Qed.

(** An amount of at most 28 digits with a moderate number of decimal
    places is a value of the constructor. *)
Lemma plain_representable (k B : Z) (d : Dec.t) :
  0 <= k <= 1000 -> B < 10 ^ 28 -> plain k B d -> representable d.
Proof.
  intros Hk HB Hd. destruct d as [s c e | |]; try done.
  pose proof (units_bound_coeff _ _ _ _ _ Hd) as [Hc _].
  destruct Hd as [He _]. simpl.
  pose proof (ndigits_le c 28 ltac:(lia) ltac:(lia)) as Hn.
  unfold Dec.in_range, Dec.MIN_ETINY, Dec.MAX_EMAX.
  apply andb_true_iff. split; apply Z.leb_le; lia.
Qed.

(** The arithmetic check on an item whose total is the product of its
    quantity and unit price. *)
Lemma exact_total_passes (product : ProductData.t) (index : nat) (q u total : Dec.t) :
  parse_field (ProductData.quantity product) = inr (Some q) ->
  parse_field (ProductData.unit_price product) = inr (Some u) ->
  parse_field (ProductData.total_price product) = inr (Some total) ->
  plain 6 (10 ^ 12) q -> plain 6 (10 ^ 12) u ->
  units 6 q <> 0 -> units 6 u <> 0 ->
  Dec.mul q u = inr total ->
  _validate_price_calculation product index = None.
Proof.
  intros Hq Hu Ht Pq Pu Zq Zu Hmul.
  destruct (mul_plain 6 6 _ _ q u ltac:(lia) ltac:(lia) Pq Pu ltac:(lia))
    as (total' & Hmul' & Ptotal & Utotal).
  assert (total' = total) by congruence. subst total'.
  assert (Ztotal : units (6 + 6) total <> 0) by (rewrite Utotal; nia).
  unfold _validate_price_calculation, price_calculation.
  rewrite Hq, Hu, Ht. simpl bind.
  rewrite (truth_of_units _ Zq), (truth_of_units _ Zu), (truth_of_units_at _ _ Ztotal).
  simpl andb. cbv iota. rewrite Hmul. simpl bind.
  destruct (sub_plain (6 + 6) _ _ total total ltac:(lia) Ptotal Ptotal ltac:(lia))
    as (delta & -> & Pdelta & Udelta).
  simpl bind.
  destruct (abs_plain (6 + 6) _ delta ltac:(lia) Pdelta ltac:(lia))
    as (difference & -> & Pdiff & Udiff).
  simpl bind.
  assert (Prate0 : plain 3 1 tolerance_rate) by (simpl; lia).
  destruct (mul_plain (6 + 6) 3 _ _ total tolerance_rate ltac:(lia) ltac:(lia)
                      Ptotal Prate0 ltac:(lia))
    as (rate & -> & Prate & Urate).
  simpl bind.
  assert (Pfloor : plain (6 + 6 + 3) (10 ^ 13) tolerance_floor) by (simpl; lia).
  assert (Ufloor : units (6 + 6 + 3) tolerance_floor = 10 ^ 13) by reflexivity.
  unfold Dec.max, Dec.gt, Dec.compare_with.
  assert (Nrate : Dec.is_nan rate = false) by (destruct rate; done).
  assert (Ndiff : Dec.is_nan difference = false) by (destruct difference; done).
  rewrite Nrate. simpl bind.
  rewrite (cmp_plain (6 + 6 + 3) _ _ _ _ Prate Pfloor), Ufloor.
  set (tolerance := if match units (6 + 6 + 3) rate ?= 10 ^ 13 with
                       | Gt => true | _ => false end
                    then rate else tolerance_floor).
  assert (Ptol : plain (6 + 6 + 3) (10 ^ 24) tolerance
                 /\ 10 ^ 13 <= units (6 + 6 + 3) tolerance).
  { unfold tolerance.
    destruct (Z.compare_spec (units (6 + 6 + 3) rate) (10 ^ 13)).
    - split; [eapply plain_weaken; [| exact Pfloor]; lia | rewrite Ufloor; lia].
    - split; [eapply plain_weaken; [| exact Pfloor]; lia | rewrite Ufloor; lia].
    - split; [eapply plain_weaken; [| exact Prate]; lia | lia]. }
  destruct Ptol as [Ptol Utol].
  destruct (plain_rescale (6 + 6) 3 _ difference ltac:(lia) Pdiff) as [Pdiff15 Udiff15].
  assert (Ntol : Dec.is_nan tolerance = false) by (destruct tolerance; done).
  rewrite Ndiff, Ntol. simpl bind.
  rewrite (cmp_plain (6 + 6 + 3) _ _ _ _ Pdiff15 Ptol).
  rewrite Udiff15, Udiff, Udelta.
  replace (Z.abs (units (6 + 6) total - units (6 + 6) total) * 10 ^ 3) with 0 by lia.
  destruct (Z.compare_spec 0 (units (6 + 6 + 3) tolerance)); try lia; reflexivity.
Qed.

(** A reported item with a readable quantity and unit price gets their
    exact product as its total, and passes the arithmetic check. *)
Lemma attempt_repairs (product : ProductData.t) (index : nat) (errors : list string)
      (q u : Dec.t) :
  mismatch_reported index errors = true ->
  parse_field (ProductData.quantity product) = inr (Some q) ->
  parse_field (ProductData.unit_price product) = inr (Some u) ->
  plain 6 (10 ^ 12) q -> plain 6 (10 ^ 12) u ->
  units 6 q <> 0 -> units 6 u <> 0 ->
  exists total,
    Dec.mul q u = inr total
    /\ units 12 total = units 6 q * units 6 u
    /\ ProductData.total_price (_attempt_product_correction product index errors)
       = Some (Dec.to_string total)
    /\ parse_field (Some (Dec.to_string total)) = inr (Some total)
    /\ forall j, _validate_price_calculation
                   (_attempt_product_correction product index errors) j = None.
Proof.
  intros Hrep Hq Hu Pq Pu Zq Zu.
  destruct (mul_plain 6 6 _ _ q u ltac:(lia) ltac:(lia) Pq Pu ltac:(lia))
    as (total & Hmul & Ptotal & Utotal).
  exists total.
  assert (Hread : parse_field (Some (Dec.to_string total)) = inr (Some total)).
  { apply parse_to_string.
    apply (plain_representable (6 + 6) (10 ^ 12 * 10 ^ 12)); [lia | lia | done]. }
  assert (Htotal : ProductData.total_price
                     (_attempt_product_correction product index errors)
                   = Some (Dec.to_string total)).
  { unfold _attempt_product_correction. cbn [ProductData.total_price].
    destruct (List.filter _ errors) as [| e relevant] eqn:Hrel.
    { apply filter_nil_existsb in Hrel. unfold mismatch_reported in Hrep. congruence. }
    rewrite (parse_field_some_truthy _ _ Hq), (parse_field_some_truthy _ _ Hu).
    simpl andb. cbv iota. rewrite Hq, Hu. simpl bind.
    rewrite (truth_of_units _ Zq), (truth_of_units _ Zu). simpl andb. cbv iota.
    by rewrite Hmul. }
  repeat split; try done.
  intros j.
  apply (exact_total_passes _ j q u total); try done.
  by rewrite Htotal.
Qed.

End Corrections.

(** An item whose printed total is wrong: 2 at 3,50 with a total of 8. *)
Definition mispriced : ProductData.t :=
  ProductData.Make (Some "MMA00.1111.0009") None None (Some "MT")
                   (Some "2") (Some "3,50") (Some "8").

(** X4. Corrections rewrite the total only. The corrected items are as
    many as the items and agree with them, one by one, in product code,
    description, customs code, unit, quantity and unit price; an item for
    which no error names its label together with a calculation mismatch is
    returned as it is. An item that is so reported, with a quantity and a
    unit price that parse to amounts that are not zero (at most six
    decimal places, at most 10^6), gets as total the text of their exact
    product, which parses back to that product, and then passes the
    arithmetic check. *)
Theorem corrections_rewrite_the_total_only :
  (forall (products : list ProductData.t) (errors : list string),
      let corrected :=
        ValidationResult.corrected_products
          (OCRValidator._generate_corrections products errors) in
      map item_frame corrected = map item_frame products
      /\ length corrected = length products
      /\ forall (i : nat) (product : ProductData.t),
           products !! i = Some product ->
           mismatch_reported i errors = false ->
           corrected !! i = Some product)
  /\ (forall (products : list ProductData.t) (errors : list string) (i : nat)
             (product : ProductData.t) (q u : Dec.t),
         products !! i = Some product ->
         mismatch_reported i errors = true ->
         parse_field (ProductData.quantity product) = inr (Some q) ->
         parse_field (ProductData.unit_price product) = inr (Some u) ->
         plain 6 (10 ^ 12) q -> plain 6 (10 ^ 12) u ->
         (units 6 q <> 0)%Z -> (units 6 u <> 0)%Z ->
         exists (repaired : ProductData.t) (total : Dec.t),
           ValidationResult.corrected_products
             (OCRValidator._generate_corrections products errors) !! i = Some repaired
           /\ (units 12 total = units 6 q * units 6 u)%Z
           /\ ProductData.total_price repaired = Some (Dec.to_string total)
           /\ parse_field (ProductData.total_price repaired) = inr (Some total)
           /\ forall j, OCRValidator._validate_price_calculation repaired j = None).
Proof.
  split.
  - intros products errors corrected. unfold corrected.
    pose proof (corrections_frame products errors) as Hframe.
    split; [exact Hframe |]. split.
    + apply (f_equal (@length _)) in Hframe. by rewrite !length_map in Hframe.
    + intros i product Hi Hno.
      rewrite corrections_lookup, Hi. simpl.
      by rewrite (attempt_unreported _ _ _ Hno).
  - intros products errors i product q u Hi Hrep Hq Hu Pq Pu Zq Zu.
    destruct (attempt_repairs product i errors q u Hrep Hq Hu Pq Pu Zq Zu)
      as (total & _ & Utotal & Htotal & Hread & Hpass).
    exists (OCRValidator._attempt_product_correction product i errors), total.
    rewrite corrections_lookup, Hi, Htotal. by repeat split.
Qed.

(** The item of 2 at 3,50 printed with a total of 8: its total becomes 7.00. *)
Lemma corrections_rewrite_the_total_only_witness :
  exists repaired,
    ValidationResult.corrected_products
      (OCRValidator._generate_corrections
         [mispriced]
         (OCRValidator.pv_errors (OCRValidator._validate_products_consistency [mispriced])))
      !! 0 = Some repaired
    /\ ProductData.total_price repaired = Some "7.00"
    /\ OCRValidator._validate_price_calculation repaired 0 = None.
Proof.
  set (errors := OCRValidator.pv_errors
                   (OCRValidator._validate_products_consistency [mispriced])).
  assert (Hi : [mispriced] !! 0 = Some mispriced) by reflexivity.
  assert (Hrep : mismatch_reported 0 errors = true) by (vm_compute; reflexivity).
  assert (Hq : parse_field (ProductData.quantity mispriced)
               = inr (Some (Dec.Fin false 2 0))) by (vm_compute; reflexivity).
  assert (Hu : parse_field (ProductData.unit_price mispriced)
               = inr (Some (Dec.Fin false 350 (-2)))) by (vm_compute; reflexivity).
  assert (Pq : plain 6 (10 ^ 12) (Dec.Fin false 2 0)) by (simpl; lia).
  assert (Pu : plain 6 (10 ^ 12) (Dec.Fin false 350 (-2))) by (simpl; lia).
  assert (Zq : (units 6 (Dec.Fin false 2 0) <> 0)%Z) by (simpl; lia).
  assert (Zu : (units 6 (Dec.Fin false 350 (-2)) <> 0)%Z) by (simpl; lia).
  destruct (proj2 corrections_rewrite_the_total_only
                  [mispriced] errors 0 mispriced _ _ Hi Hrep Hq Hu Pq Pu Zq Zu)
    as (repaired & total & Hget & _ & _ & _ & Hpass).
  exists repaired. split; [exact Hget |]. split; [| apply Hpass].
  assert (Hsame : Some repaired
                  = Some (OCRValidator._attempt_product_correction mispriced 0 errors))
    by (rewrite <- Hget; vm_compute; reflexivity).
  injection Hsame as ->. vm_compute. reflexivity.
Defined.

(** ** The compiled items and texts *)

Section Compilation.
Import ResponseCompiler.

(** The items that the compilation takes for the page at index [i]. *)
Definition chosen_products (validation_results : list ValidationResult.t) (i : nat)
           (page : PageData.t) : list ProductData.t :=
  match validation_results !! i with
  | Some validation_result =>
      match ValidationResult.is_valid validation_result,
            ValidationResult.corrected_data validation_result with
      | false, Some corrected => ValidationResult.corrected_products corrected
      | _, _ => PageData.products page
      end
  | None => PageData.products page
  end.

Fixpoint chosen_from (validation_results : list ValidationResult.t) (start : nat)
         (pages : list PageData.t) : list ProductData.t :=
  match pages with
  | [] => []
  | page :: rest =>
      chosen_products validation_results start page
      ++ chosen_from validation_results (S start) rest
  end.

Lemma compile_products_from (validation_results : list ValidationResult.t)
      (pages : list PageData.t) :
  forall (start : nat) (acc : list ProductData.t),
    OCRValidator.fold_enumerate
      (fun all_products i page =>
         match validation_results !! i with
         | Some validation_result =>
             match ValidationResult.is_valid validation_result,
                   ValidationResult.corrected_data validation_result with
             | false, Some corrected =>
                 (all_products ++ ValidationResult.corrected_products corrected)%list
             | _, _ => (all_products ++ PageData.products page)%list
             end
         | None => (all_products ++ PageData.products page)%list
         end)
      start pages acc
    = acc ++ chosen_from validation_results start pages.
Proof.
  induction pages as [| page rest IH]; intros start acc; simpl.
  - by rewrite app_nil_r.
  - rewrite IH, app_assoc. f_equal. unfold chosen_products.
    destruct (validation_results !! start) as [v |]; [| done].
    by destruct (ValidationResult.is_valid v), (ValidationResult.corrected_data v).
Qed.

Lemma compile_products_chosen (pages : list PageData.t)
      (validation_results : list ValidationResult.t) :
  _compile_products pages validation_results = chosen_from validation_results 0 pages.
Proof. unfold _compile_products. by rewrite compile_products_from. Qed.

(** Pages whose results are valid, carry no correction or are missing
    give their own items. *)
Lemma chosen_uncorrected (validation_results : list ValidationResult.t)
      (pages : list PageData.t) :
  (forall i v, validation_results !! i = Some v ->
               ValidationResult.is_valid v = true
               \/ ValidationResult.corrected_data v = None) ->
  forall start, chosen_from validation_results start pages
                = flat_map PageData.products pages.
Proof.
  intros Hres. induction pages as [| page rest IH]; intros start; simpl; [done |].
  rewrite IH. f_equal. unfold chosen_products.
  destruct (validation_results !! start) as [v |] eqn:Hv; [| done].
  destruct (Hres _ _ Hv) as [-> | ->]; [done |].
  by destruct (ValidationResult.is_valid v).
Qed.

(** The validator's result for a page changes nothing but totals. *)
Lemma chosen_validated_frame (config : ProcessingConfig.t) (page : PageData.t)
      (validation_results : list ValidationResult.t) (i : nat) :
  validation_results !! i = Some (OCRValidator.validate_page_data config page) ->
  map item_frame (chosen_products validation_results i page)
  = map item_frame (PageData.products page).
Proof.
  intros Hres. unfold chosen_products. rewrite Hres.
  unfold OCRValidator.validate_page_data.
  destruct (negb (ProcessingConfig.enable_ocr_validation config)); [done |].
  cbn [ValidationResult.is_valid ValidationResult.corrected_data].
  destruct (_ && _); [done |]. simpl negb. cbv iota.
  apply corrections_frame.
Qed.

Lemma chosen_validated (config : ProcessingConfig.t)
      (validation_results : list ValidationResult.t) (pages : list PageData.t) :
  forall start : nat,
    (forall k page, pages !! k = Some page ->
                    validation_results !! (start + k)
                    = Some (OCRValidator.validate_page_data config page)) ->
    map item_frame (chosen_from validation_results start pages)
    = map item_frame (flat_map PageData.products pages).
Proof.
  induction pages as [| page rest IH]; intros start Hres; simpl; [done |].
  rewrite !map_app. f_equal.
  - apply (chosen_validated_frame config).
    specialize (Hres 0 page eq_refl). by rewrite Nat.add_0_r in Hres.
  - apply IH. intros k p Hk. specialize (Hres (S k) p Hk).
    by replace (S start + k) with (start + S k) by lia.
Qed.

Lemma map_lookup {A B : Type} (f : A -> B) (l : list A) (k : nat) :
  map f l !! k = f <$> l !! k.
Proof. revert k. induction l as [| x l IH]; intros [| k]; simpl; done. Qed.

(** The steps after the compilation of the items leave them as they are. *)
Lemma final_result_products (config : ProcessingConfig.t)
      (bill_data : option BillData.t) (pages : list PageData.t)
      (validation_results : list ValidationResult.t) :
  ExtractionResult.products
    (compile_final_result config bill_data pages validation_results)
  = _compile_products pages validation_results.
Proof.
  assert (Hkeep : forall result,
             ExtractionResult.products (_perform_final_validations config result)
             = ExtractionResult.products result).
  { intros result. unfold _perform_final_validations.
    destruct (negb _); [done |].
    by destruct (checksum _ _) as [e | [[|] [m |]]]. }
  unfold compile_final_result. cbv zeta.
  destruct (_extract_footer_information bill_data pages) as [e | bill'];
    cbn [finish ExtractionResult.products]; apply Hkeep.
Qed.

(** *** The stored texts *)

(** [f"page{page_data.page_number + 1}"] *)
Definition page_key (page : PageData.t) : string :=
  "page" ++ PyStr.of_nat (PageData.page_number page + 1).

Lemma of_nat_inj (a b : nat) : PyStr.of_nat a = PyStr.of_nat b -> a = b.
Proof.
  unfold PyStr.of_nat. intros H.
  apply (f_equal (Dec.digits_val 0)) in H. rewrite !digits_val_of_N in H. lia.
Qed.

Lemma page_key_inj (p q : PageData.t) :
  page_key p = page_key q -> PageData.page_number p = PageData.page_number q.
Proof.
  unfold page_key. rewrite !append_cons, !append_nil. intros H.
  injection H as H. apply of_nat_inj in H. lia.
Qed.

Lemma take_length_le (n : nat) (s : string) : String.length (PyStr.take n s) <= n.
Proof.
  unfold PyStr.take. revert s.
  induction n as [| n IH]; intros s; destruct s as [| c s]; simpl; try lia.
  specialize (IH s). lia.
Qed.

Lemma take_short (n : nat) (s : string) :
  String.length s <= n -> PyStr.take n s = s.
Proof.
  unfold PyStr.take. revert s.
  induction n as [| n IH]; intros s Hs; destruct s as [| c s]; simpl in *;
    try done; try lia.
  rewrite IH; [done | lia].
Qed.

Lemma compile_raw_text_snoc (pages : list PageData.t) (page : PageData.t) :
  _compile_raw_text (pages ++ [page])
  = <[page_key page := PyStr.take 5000 (PageData.raw_text page)]>
      (_compile_raw_text pages).
Proof. unfold _compile_raw_text. by rewrite fold_left_app. Qed.

Lemma compile_raw_text_lookup (pages : list PageData.t) (key text : string) :
  _compile_raw_text pages !! key = Some text ->
  exists before page after,
    pages = before ++ page :: after
    /\ key = page_key page
    /\ text = PyStr.take 5000 (PageData.raw_text page)
    /\ forall later, In later after -> page_key later <> key.
Proof.
  induction pages as [| page pages IH] using rev_ind; intros Hget.
  - unfold _compile_raw_text in Hget. simpl in Hget. by rewrite lookup_empty in Hget.
  - rewrite compile_raw_text_snoc in Hget.
    destruct (decide (page_key page = key)) as [Hk | Hk].
    + rewrite <- Hk, lookup_insert_eq in Hget. injection Hget as <-.
      exists pages, page, []. by repeat split.
    + rewrite lookup_insert_ne in Hget by done.
      destruct (IH Hget) as (before & p & after & -> & Hkey & Htext & Hlater).
      exists before, p, (after ++ [page]). repeat split; try done.
      * by rewrite <- app_assoc.
      * intros later [Hin | [<- | []]]%in_app_or; [by apply Hlater | done].
Qed.

Lemma compile_raw_text_last (before after : list PageData.t) (page : PageData.t) :
  (forall later, In later after -> page_key later <> page_key page) ->
  _compile_raw_text (before ++ page :: after) !! page_key page
  = Some (PyStr.take 5000 (PageData.raw_text page)).
Proof.
  induction after as [| last after IH] using rev_ind; intros Hlater.
  - rewrite compile_raw_text_snoc. apply lookup_insert_eq.
  - replace (before ++ page :: after ++ [last])
      with ((before ++ page :: after) ++ [last]) by (by rewrite <- app_assoc).
    rewrite compile_raw_text_snoc, lookup_insert_ne.
    + apply IH. intros later Hin. apply Hlater, in_or_app. by left.
    + apply Hlater, in_or_app. right. by left.
Qed.

End Compilation.

(** X5. The compiled items are the items of the pages. With the
    validator's results for the pages, in their order, the compiled list
    has as many items as the pages together, in the order of the pages, and
    each agrees with the page's item in product code, description, customs
    code, unit, quantity and unit price: a correction can only have
    rewritten a total. When every result is valid or carries no
    correction, or results are missing, the compiled list is exactly the
    items of the pages. For pages as the page extraction builds them,
    whose item lists the compilation of the groups leaves as they are, the
    final result holds this list, whether the compilation ends with or
    without an exception. *)
Theorem compiled_products_are_the_page_items :
  (forall (config : ProcessingConfig.t) (pages : list PageData.t),
      let compiled_items :=
        ResponseCompiler._compile_products
          pages (map (OCRValidator.validate_page_data config) pages) in
      map item_frame compiled_items = map item_frame (flat_map PageData.products pages)
      /\ length compiled_items = length (flat_map PageData.products pages))
  /\ (forall (pages : list PageData.t) (validation_results : list ValidationResult.t),
         (forall i v, validation_results !! i = Some v ->
                      ValidationResult.is_valid v = true
                      \/ ValidationResult.corrected_data v = None) ->
         ResponseCompiler._compile_products pages validation_results
         = flat_map PageData.products pages)
  /\ (forall (config : ProcessingConfig.t) (bill_data : option BillData.t)
             (pages : list PageData.t) (validation_results : list ValidationResult.t),
         Forall extracted pages ->
         ExtractionResult.products
           (ResponseCompiler.compile_final_result
              config bill_data pages validation_results)
         = ResponseCompiler._compile_products pages validation_results).
Proof.
  split; [| split; [| intros; apply final_result_products]].
  - intros config pages compiled_items.
    assert (Hframe : map item_frame compiled_items
                     = map item_frame (flat_map PageData.products pages)).
    { unfold compiled_items. rewrite compile_products_chosen.
      apply (chosen_validated config). intros k page Hk.
      rewrite map_lookup. simpl Nat.add. by rewrite Hk. }
    split; [exact Hframe |].
    apply (f_equal (@length _)) in Hframe. by rewrite !length_map in Hframe.
  - intros pages validation_results Hres.
    rewrite compile_products_chosen. by apply chosen_uncorrected.
Qed.

(** Two pages and no validation result. *)
Lemma compiled_products_are_the_page_items_witness :
  ResponseCompiler._compile_products [begun_page; continued_page] []
  = flat_map PageData.products [begun_page; continued_page].
Proof.
  apply (proj1 (proj2 compiled_products_are_the_page_items)).
  intros i v Hv. destruct i; discriminate Hv.
Defined.

(** X6. The stored raw text. Every entry of the compiled raw text is the
    first 5000 characters of the text of a page, under the key made of
    [page] and the page number plus one, and no later page has that
    number; it is never longer than 5000 characters, and it is the whole
    text when that has at most 5000 characters. Every page has its
    entry, and when two pages carry the same number the later one is
    stored. *)
Theorem raw_text_is_cut_page_by_page (pages : list PageData.t) :
  (forall (key text : string),
      ResponseCompiler._compile_raw_text pages !! key = Some text ->
      String.length text <= 5000
      /\ exists before page after,
           pages = before ++ page :: after
           /\ key = ("page" ++ PyStr.of_nat (PageData.page_number page + 1))%string
           /\ text = PyStr.take 5000 (PageData.raw_text page)
           /\ (String.length (PageData.raw_text page) <= 5000 ->
               text = PageData.raw_text page)
           /\ forall later, In later after ->
                            PageData.page_number later <> PageData.page_number page)
  /\ (forall before page after,
         pages = before ++ page :: after ->
         (forall later, In later after ->
                        PageData.page_number later <> PageData.page_number page) ->
         ResponseCompiler._compile_raw_text pages
           !! ("page" ++ PyStr.of_nat (PageData.page_number page + 1))%string
         = Some (PyStr.take 5000 (PageData.raw_text page)))
  /\ (forall page, In page pages ->
                   is_Some (ResponseCompiler._compile_raw_text pages
                              !! ("page" ++ PyStr.of_nat (PageData.page_number page + 1))%string)).
Proof.
  assert (Hlast : forall before page after,
             pages = before ++ page :: after ->
             (forall later, In later after ->
                            PageData.page_number later <> PageData.page_number page) ->
             ResponseCompiler._compile_raw_text pages !! page_key page
             = Some (PyStr.take 5000 (PageData.raw_text page))).
  { intros before page after -> Hlater. apply compile_raw_text_last.
    intros later Hin Hkey. by apply (Hlater later Hin), page_key_inj. }
  split; [| split].
  - intros key text Hget.
    destruct (compile_raw_text_lookup pages key text Hget)
      as (before & page & after & Hpages & Hkey & Htext & Hlater).
    split; [rewrite Htext; apply take_length_le |].
    exists before, page, after. repeat split; try done.
    + intros Hshort. by rewrite Htext, take_short.
    + intros later Hin Hnum. apply (Hlater later Hin). rewrite Hkey.
      unfold page_key. by rewrite Hnum.
  - exact Hlast.
  - clear Hlast. intros page Hin. fold (page_key page).
    induction pages as [| last pages IH] using rev_ind; [done |].
    rewrite compile_raw_text_snoc.
    destruct (decide (page_key last = page_key page)) as [Hk | Hk].
    + rewrite <- Hk, lookup_insert_eq. by eexists.
    + rewrite lookup_insert_ne by done.
      apply in_app_or in Hin as [Hin | [-> | []]]; [| done].
      by apply IH.
Qed.

(** Two pages with the numbers 0 and 1. *)
Lemma raw_text_is_cut_page_by_page_witness :
  ResponseCompiler._compile_raw_text [begun_page; continued_page] !! "page1"
  = Some (PyStr.take 5000 (PageData.raw_text begun_page)).
Proof.
  apply (proj1 (proj2 (raw_text_is_cut_page_by_page [begun_page; continued_page]))
               [] begun_page [continued_page] eq_refl).
  intros later [<- | []]. vm_compute. discriminate.
Defined.

(** ** The footer and the final result *)

Section FinalResult.
Import ResponseCompiler.

(** What the footer search never writes. *)
Definition bill_identity (bill : BillData.t)
  : option string * option string * option string * option string
    * option string * option string * option string :=
  (BillData.bill_number bill, BillData.bill_date bill, BillData.currency bill,
   BillData.customer_code bill, BillData.customer_name bill,
   BillData.customer_address bill, BillData.customer_vat_id bill).

(** A field that holds a value keeps it. *)
Definition kept (before after : option string) : Prop :=
  truthy before = true -> after = before.

(** A decimal field is as before, or the text of a decimal that is not
    zero and that parses back to itself. *)
Definition kept_or_amount (before after : option string) : Prop :=
  after = before
  \/ exists d, after = Some (Dec.to_string d)
               /\ Dec.truth d = true
               /\ parse_italian_decimal (VStr (Dec.to_string d)) = inr (Some d).

(** [bill'] is [bill] with footer fields filled in. *)
Definition completes (bill bill' : BillData.t) : Prop :=
  bill_identity bill' = bill_identity bill
  /\ kept (BillData.total_amount bill) (BillData.total_amount bill')
  /\ kept (BillData.gross_weight_kg bill) (BillData.gross_weight_kg bill')
  /\ kept (BillData.net_weight_kg bill) (BillData.net_weight_kg bill')
  /\ kept (BillData.shipping_term bill) (BillData.shipping_term bill')
  /\ (forall n, BillData.package_count bill = Some n -> n <> 0%Z ->
                BillData.package_count bill' = Some n)
  /\ kept_or_amount (BillData.total_amount bill) (BillData.total_amount bill')
  /\ kept_or_amount (BillData.gross_weight_kg bill) (BillData.gross_weight_kg bill')
  /\ kept_or_amount (BillData.net_weight_kg bill) (BillData.net_weight_kg bill').

Lemma kept_refl (a : option string) : kept a a.
Proof. by intros _. Qed.

Lemma kept_trans (a b c : option string) : kept a b -> kept b c -> kept a c.
Proof.
  unfold kept. intros Hab Hbc Ha. specialize (Hab Ha). subst b. by apply Hbc.
Qed.

Lemma kept_or_amount_refl (a : option string) : kept_or_amount a a.
Proof. by left. Qed.

Lemma kept_or_amount_trans (a b c : option string) :
  kept_or_amount a b -> kept_or_amount b c -> kept_or_amount a c.
Proof.
  intros [-> | Hab] Hbc; [done |].
  destruct Hbc as [-> | Hbc]; by right.
Qed.

Lemma completes_refl (bill : BillData.t) : completes bill bill.
Proof.
  unfold completes.
  repeat split; try apply kept_refl; try apply kept_or_amount_refl. done.
Qed.

Lemma completes_trans (a b c : BillData.t) :
  completes a b -> completes b c -> completes a c.
Proof.
  intros (Hi1 & Ht1 & Hg1 & Hn1 & Hs1 & Hp1 & At1 & Ag1 & An1)
         (Hi2 & Ht2 & Hg2 & Hn2 & Hs2 & Hp2 & At2 & Ag2 & An2).
  unfold completes. repeat split.
  - congruence.
  - by eapply kept_trans.
  - by eapply kept_trans.
  - by eapply kept_trans.
  - by eapply kept_trans.
  - intros n Hn Hnz. apply Hp2; [by apply Hp1 | done].
  - by eapply kept_or_amount_trans.
  - by eapply kept_or_amount_trans.
  - by eapply kept_or_amount_trans.
Qed.

(** What the loop over the patterns of a decimal field returns. *)
Lemma first_amount_some (patterns : list Re.t) (footer_text s : string) :
  first_amount patterns footer_text = Some s ->
  s <> EmptyString
  /\ exists d, s = Dec.to_string d
               /\ Dec.truth d = true
               /\ parse_italian_decimal (VStr (Dec.to_string d)) = inr (Some d).
Proof.
  induction patterns as [| r rest IH]; cbn [first_amount]; [discriminate |].
  destruct (Re.search r footer_text) as [m |]; [| exact IH].
  destruct (parse_italian_decimal (VStr (Re.group footer_text m 1)))
    as [e | [d |]] eqn:Hparse; try exact IH.
  destruct (Dec.truth d) eqn:Ht; [| exact IH].
  intros [= <-].
  pose proof (parse_returns_representable _ _ Hparse) as Hd.
  destruct (of_string_to_string d Hd) as (_ & Hne & _).
  split; [exact Hne |]. exists d. repeat split; try done. by apply parse_to_string.
Qed.

Lemma or_found_kept (current found : option string) :
  kept current (or_found current found).
Proof. intros Ht. unfold or_found. by rewrite Ht. Qed.

Lemma or_found_amount (current : option string) (patterns : list Re.t)
      (footer_text : string) :
  kept_or_amount current (or_found current (first_amount patterns footer_text)).
Proof.
  unfold or_found. destruct (truthy current); [by left |].
  destruct (first_amount patterns footer_text) as [s |] eqn:Hs; [| by left].
  destruct (first_amount_some _ _ _ Hs) as (_ & d & -> & Ht & Hp).
  right. by exists d.
Qed.

Lemma footer_of_page_completes (bill : BillData.t) (footer_text : string) :
  completes bill (footer_of_page bill footer_text).
Proof.
  unfold completes, footer_of_page.
  cbn [BillData.total_amount BillData.gross_weight_kg BillData.net_weight_kg
       BillData.shipping_term BillData.package_count].
  repeat split; try apply or_found_kept; try apply or_found_amount.
  intros n -> Hn. by destruct (Z.eqb_spec n 0).
Qed.

(** The search over a list of pages, on a bill. *)
Lemma footer_fold_completes (searched : list PageData.t) :
  forall bill : BillData.t,
  exists bill',
    fold_left
      (fun acc page =>
         let* bill_data := acc in
         if PyStr.is_empty (PageData.raw_text page) then inr bill_data
         else match bill_data with
              | Some bill => inr (Some (footer_of_page bill (PageData.raw_text page)))
              | None => inl (AttributeError
                               "'NoneType' object has no attribute 'total_amount'")
              end)
      searched (inr (Some bill))
    = inr (Some bill')
    /\ completes bill bill'.
Proof.
  induction searched as [| page rest IH]; intros bill; cbn [fold_left].
  - exists bill. split; [done | apply completes_refl].
  - simpl bind. destruct (PyStr.is_empty (PageData.raw_text page)); [apply IH |].
    destruct (IH (footer_of_page bill (PageData.raw_text page))) as (bill' & -> & Hc).
    exists bill'. split; [done |].
    eapply completes_trans; [apply footer_of_page_completes | exact Hc].
Qed.

Lemma pages_to_search_last_two (front : list PageData.t) (p q : PageData.t) :
  pages_to_search (front ++ [p; q]) = [q; p].
Proof.
  unfold pages_to_search. rewrite length_app. simpl length.
  replace (length front + 2 - 2) with (length front + 0) by lia.
  by rewrite skipn_app, Nat.add_0_r, skipn_all, Nat.sub_diag.
Qed.

Lemma pages_to_search_last (front : list PageData.t) (q : PageData.t) :
  exists rest, pages_to_search (front ++ [q]) = q :: rest.
Proof.
  destruct front as [| p front _] using rev_ind; [by exists [] |].
  exists [p]. rewrite <- app_assoc. apply pages_to_search_last_two.
Qed.

(** Once raised, the exception stays. *)
Lemma footer_fold_raised (searched : list PageData.t) (e : exn) :
  fold_left
    (fun acc page =>
       let* bill_data := acc in
       if PyStr.is_empty (PageData.raw_text page) then inr bill_data
       else match bill_data with
            | Some bill => inr (Some (footer_of_page bill (PageData.raw_text page)))
            | None => inl (AttributeError
                             "'NoneType' object has no attribute 'total_amount'")
            end)
    searched (inl e)
  = inl e.
Proof. induction searched as [| page rest IH]; [done | exact IH]. Qed.

(** The search without a bill: it raises at the first page with text. *)
Lemma footer_without_bill (pages : list PageData.t) :
  _extract_footer_information None pages
  = if forallb (fun page => PyStr.is_empty (PageData.raw_text page))
               (pages_to_search pages)
    then inr None
    else inl (AttributeError "'NoneType' object has no attribute 'total_amount'").
Proof.
  unfold _extract_footer_information.
  induction (pages_to_search pages) as [| page rest IH]; cbn [fold_left forallb];
    [done |].
  simpl bind. destruct (PyStr.is_empty (PageData.raw_text page)); simpl andb.
  - exact IH.
  - apply footer_fold_raised.
Qed.

Lemma forallb_is_empty (searched : list PageData.t) :
  forallb (fun page => PyStr.is_empty (PageData.raw_text page)) searched = true
  <-> forall page, In page searched -> PageData.raw_text page = EmptyString.
Proof.
  rewrite forallb_forall. split; intros H page Hin; specialize (H page Hin).
  - by destruct (PageData.raw_text page).
  - by rewrite H.
Qed.

(** Without a bill the checksum step records an error. *)
Lemma validations_without_bill (config : ProcessingConfig.t)
      (pages : list PageData.t) (validation_results : list ValidationResult.t) :
  ProcessingConfig.validate_checksums config = true ->
  ExtractionResult.parsing_errors
    (_perform_final_validations config (compiled None pages validation_results))
  <> [].
Proof.
  intros Hon. unfold _perform_final_validations. rewrite Hon. simpl negb. cbv iota.
  unfold checksum. cbn [compiled ExtractionResult.products ExtractionResult.bill_data].
  destruct (sum_totals _ zero_total) as [e | total]; simpl bind;
    cbn [with_validation ExtractionResult.parsing_errors compiled];
    unfold OCRValidator.push; discriminate.
Qed.

Lemma validations_off (config : ProcessingConfig.t) (result : ExtractionResult.t) :
  ProcessingConfig.validate_checksums config = false ->
  _perform_final_validations config result = result.
Proof. intros Hoff. unfold _perform_final_validations. by rewrite Hoff. Qed.

Lemma filter_invalid_nil (validation_results : list ValidationResult.t) :
  List.filter (fun v => negb (ValidationResult.is_valid v)) validation_results = []
  <-> forallb ValidationResult.is_valid validation_results = true.
Proof.
  induction validation_results as [| v rest IH]; simpl; [done |].
  destruct (ValidationResult.is_valid v); simpl; [exact IH |].
  split; discriminate.
Qed.

End FinalResult.

(** A bill without footer fields, and a last page that prints a total. *)
Definition open_bill : BillData.t :=
  BillData.Make (Some "2025/1234") None None None None None None
                None None None None None.
Definition total_page : PageData.t :=
  PageData.Make 1 "Tot importo: ( EUR ) 1.250,50" [] [] None [] [].

(** X7. The footer search on a bill. It raises nothing and returns the
    bill with footer fields filled in: bill number, date, currency and the
    customer fields are never written; a total, a weight or a shipping term
    that holds a value, and a package count that is not zero, are kept; a
    total or weight that changes becomes the text of a decimal that is not
    zero and parses back to itself. Only the last two pages are read, and
    a total found on the last page is the one stored when the bill had
    none. *)
Theorem footer_search_completes_the_bill :
  (forall (bill : BillData.t) (pages : list PageData.t),
      exists bill',
        ResponseCompiler._extract_footer_information (Some bill) pages
        = inr (Some bill')
        /\ completes bill bill')
  /\ (forall (bill_data : option BillData.t) (front : list PageData.t)
             (p q : PageData.t),
         ResponseCompiler._extract_footer_information bill_data (front ++ [p; q])
         = ResponseCompiler._extract_footer_information bill_data [p; q])
  /\ (forall (bill : BillData.t) (front : list PageData.t) (q : PageData.t)
             (s : string),
         truthy (BillData.total_amount bill) = false ->
         PageData.raw_text q <> EmptyString ->
         ResponseCompiler.first_amount ResponseCompiler.total_patterns
                                       (PageData.raw_text q) = Some s ->
         exists bill',
           ResponseCompiler._extract_footer_information (Some bill) (front ++ [q])
           = inr (Some bill')
           /\ BillData.total_amount bill' = Some s).
Proof.
  split; [| split].
  - intros bill pages. unfold ResponseCompiler._extract_footer_information.
    apply footer_fold_completes.
  - intros bill_data front p q.
    unfold ResponseCompiler._extract_footer_information.
    by rewrite pages_to_search_last_two.
  - intros bill front q s Hnone Htext Hfound.
    unfold ResponseCompiler._extract_footer_information.
    destruct (pages_to_search_last front q) as [rest ->].
    cbn [fold_left]. simpl bind.
    destruct (PyStr.is_empty (PageData.raw_text q)) eqn:He.
    { by destruct (PageData.raw_text q). }
    destruct (footer_fold_completes
                rest (ResponseCompiler.footer_of_page bill (PageData.raw_text q)))
      as (bill' & -> & Hc).
    exists bill'. split; [done |].
    destruct Hc as (_ & Hkept & _).
    destruct (first_amount_some _ _ _ Hfound) as (Hne & _).
    assert (Hset : BillData.total_amount
                     (ResponseCompiler.footer_of_page bill (PageData.raw_text q))
                   = Some s).
    { cbn [ResponseCompiler.footer_of_page BillData.total_amount].
      unfold ResponseCompiler.or_found. by rewrite Hnone, Hfound. }
    rewrite Hset in Hkept. apply Hkept. by destruct s.
Qed.

(** The total printed on the last page enters a bill that has none. *)
Lemma footer_search_completes_the_bill_witness :
  exists bill',
    ResponseCompiler._extract_footer_information
      (Some open_bill) ([begun_page] ++ [total_page])
    = inr (Some bill')
    /\ BillData.total_amount bill' = Some "1250.50".
Proof.
  apply (proj2 (proj2 footer_search_completes_the_bill) open_bill [begun_page] total_page).
  - reflexivity.
  - discriminate.
  - vm_compute. reflexivity.
Defined.

(** X8. Compiling without a bill. When one of the last two pages has
    text, the footer search raises on the missing bill: the result has
    success false, the message of a failed compilation, no bill, and the
    error of the attribute as its last parsing error. With checksum
    validation on, a result without a bill never has success true. With
    checksum validation off and no text on the last two pages, the result
    has success true, no error and no bill. *)
Theorem compiling_without_a_bill
  (config : ProcessingConfig.t) (pages : list PageData.t)
  (validation_results : list ValidationResult.t) :
  let result :=
    ResponseCompiler.compile_final_result config None pages validation_results in
  ((exists page, In page (ResponseCompiler.pages_to_search pages)
                 /\ PageData.raw_text page <> EmptyString) ->
   ExtractionResult.success result = false
   /\ ExtractionResult.message result = "Compilation failed with errors"
   /\ ExtractionResult.bill_data result = None
   /\ exists earlier,
        ExtractionResult.parsing_errors result
        = earlier ++ [("Error compiling final result: "
                       ++ "'NoneType' object has no attribute 'total_amount'")%string])
  /\ (ProcessingConfig.validate_checksums config = true ->
      ExtractionResult.success result = false
      /\ ExtractionResult.parsing_errors result <> [])
  /\ ((forall page, In page (ResponseCompiler.pages_to_search pages) ->
                    PageData.raw_text page = EmptyString) ->
      ProcessingConfig.validate_checksums config = false ->
      ExtractionResult.success result = true
      /\ ExtractionResult.parsing_errors result = []
      /\ ExtractionResult.bill_data result = None).
Proof.
  cbv zeta. unfold ResponseCompiler.compile_final_result. cbv zeta.
  rewrite footer_without_bill.
  split; [| split].
  - intros (page & Hin & Htext).
    destruct (forallb _ (ResponseCompiler.pages_to_search pages)) eqn:Hall.
    { exfalso. apply Htext. by apply (proj1 (forallb_is_empty _) Hall). }
    cbn [ResponseCompiler.finish ExtractionResult.success ExtractionResult.message
         ExtractionResult.bill_data ExtractionResult.parsing_errors].
    repeat split. by eexists.
  - intros Hon.
    pose proof (validations_without_bill config pages validation_results Hon) as Herr.
    destruct (forallb _ (ResponseCompiler.pages_to_search pages));
      cbn [ResponseCompiler.finish ExtractionResult.success
           ExtractionResult.parsing_errors].
    + split; [| exact Herr].
      destruct (ExtractionResult.parsing_errors _); [done | reflexivity].
    + split; [done |]. unfold OCRValidator.push. by intros [_ ?]%app_eq_nil.
  - intros Hempty Hoff.
    rewrite (proj2 (forallb_is_empty _) Hempty).
    rewrite (validations_off _ _ Hoff).
    cbn [ResponseCompiler.finish ResponseCompiler.compiled ExtractionResult.success
         ExtractionResult.parsing_errors ExtractionResult.bill_data].
    by repeat split.
Qed.

(** A page with text and no bill. *)
Lemma compiling_without_a_bill_witness :
  ExtractionResult.success
    (ResponseCompiler.compile_final_result ProcessingConfig.default None
                                           [total_page] [])
  = false
  /\ ExtractionResult.message
       (ResponseCompiler.compile_final_result ProcessingConfig.default None
                                              [total_page] [])
     = "Compilation failed with errors".
Proof.
  destruct (proj1 (compiling_without_a_bill ProcessingConfig.default [total_page] []))
    as (Hs & Hm & _).
  - exists total_page. split; [by left | discriminate].
  - by split.
Defined.

(** X9. The final message. The result says that parsing completed
    successfully exactly when it has no parsing error, the checksum flag
    is set and every page result is valid. With checksum validation off
    the flag is never set: the message is never the one of a success, and
    a result without parsing errors says that checksum validation failed. *)
Theorem final_message_of_a_clean_run
  (config : ProcessingConfig.t) (bill_data : option BillData.t)
  (pages : list PageData.t) (validation_results : list ValidationResult.t) :
  let result :=
    ResponseCompiler.compile_final_result config bill_data pages validation_results in
  (ExtractionResult.message result = "Invoice parsing completed successfully."
   <-> ExtractionResult.parsing_errors result = []
       /\ ExtractionResult.validation_checksum_ok result = true
       /\ forallb ValidationResult.is_valid validation_results = true)
  /\ (ProcessingConfig.validate_checksums config = false ->
      ExtractionResult.validation_checksum_ok result = false
      /\ ExtractionResult.message result <> "Invoice parsing completed successfully."
      /\ (ExtractionResult.parsing_errors result = [] ->
          ExtractionResult.message result
          = "Invoice parsing completed but checksum validation failed.")).
Proof.
  cbv zeta.
  assert (Hmsg : forall result,
             result = ResponseCompiler.compile_final_result
                        config bill_data pages validation_results ->
             (ExtractionResult.message result = "Invoice parsing completed successfully."
              <-> ExtractionResult.parsing_errors result = []
                  /\ ExtractionResult.validation_checksum_ok result = true
                  /\ forallb ValidationResult.is_valid validation_results = true)
             /\ (ExtractionResult.parsing_errors result = [] ->
                 ExtractionResult.validation_checksum_ok result = false ->
                 ExtractionResult.message result
                 = "Invoice parsing completed but checksum validation failed.")).
  { intros result ->. unfold ResponseCompiler.compile_final_result. cbv zeta.
    destruct (ResponseCompiler._extract_footer_information bill_data pages)
      as [e | bill'].
    - cbn [ResponseCompiler.finish ExtractionResult.message
           ExtractionResult.parsing_errors ExtractionResult.validation_checksum_ok].
      unfold OCRValidator.push. split.
      + split; [discriminate |]. by intros [[_ ?]%app_eq_nil _].
      + by intros [_ ?]%app_eq_nil.
    - cbn [ResponseCompiler.finish ExtractionResult.message
           ExtractionResult.parsing_errors ExtractionResult.validation_checksum_ok].
      unfold ResponseCompiler._generate_final_message.
      cbn [ResponseCompiler.finish ExtractionResult.success
           ExtractionResult.parsing_errors ExtractionResult.validation_checksum_ok
           ExtractionResult.validation_results].
      set (validated := ResponseCompiler._perform_final_validations config _).
      assert (Hres : ExtractionResult.validation_results validated = validation_results).
      { unfold validated, ResponseCompiler._perform_final_validations.
        destruct (negb _); [done |].
        by destruct (ResponseCompiler.checksum _ _) as [e | [[|] [m |]]]. }
      rewrite Hres.
      destruct (ExtractionResult.parsing_errors validated) as [| error errors].
      + simpl Nat.eqb. simpl negb. cbv iota.
        destruct (ExtractionResult.validation_checksum_ok validated);
          simpl negb; cbv iota.
        * split; [| discriminate].
          destruct (List.filter _ validation_results) as [| v failed] eqn:Hfailed.
          -- apply filter_invalid_nil in Hfailed. by split.
          -- split; [simpl; discriminate |].
             intros (_ & _ & Hall). apply filter_invalid_nil in Hall. congruence.
        * split; [| done]. split; [discriminate |]. by intros (_ & ? & _).
      + simpl Nat.eqb. simpl negb. cbv iota. split; [| discriminate].
        split; [discriminate |]. by intros [? _]. }
  destruct (Hmsg _ eq_refl) as [Hiff Hfailed].
  split; [exact Hiff |].
  intros Hoff.
  assert (Hflag : ExtractionResult.validation_checksum_ok
                    (ResponseCompiler.compile_final_result
                       config bill_data pages validation_results) = false).
  { rewrite compiled_checksum_flag, (validations_off _ _ Hoff). reflexivity. }
  split; [exact Hflag |]. split.
  - intros Hm. apply Hiff in Hm as (_ & Hok & _). congruence.
  - intros Hnone. by apply Hfailed.
Qed.

(** A bill and a page without text, with checksum validation off. *)
Lemma final_message_of_a_clean_run_witness :
  ExtractionResult.message
    (ResponseCompiler.compile_final_result
       (ProcessingConfig.Make true 0.8%float false) (Some open_bill)
       [PageData.Make 0 "" [] [] None [] []] [])
  = "Invoice parsing completed but checksum validation failed.".
Proof.
  destruct (proj2 (final_message_of_a_clean_run
                     (ProcessingConfig.Make true 0.8%float false) (Some open_bill)
                     [PageData.Make 0 "" [] [] None [] []] [])
                  eq_refl) as (_ & _ & Hmessage).
  apply Hmessage. vm_compute. reflexivity.
Defined.

(** ** Cleaned text fields *)

Section CleanedFields.
Import TableRows.

Lemma strip_empty_of_empty (v : string) :
  PyStr.is_empty v = true -> PyStr.strip v = EmptyString.
Proof. by destruct v. Qed.

Lemma is_empty_true (s : string) : PyStr.is_empty s = true <-> s = EmptyString.
Proof. by destruct s. Qed.

Lemma upper_points_nonempty (c : ascii) : PyCase.upper_points c <> [].
Proof.
  unfold PyCase.upper_points.
  repeat match goal with |- context [if ?b then _ else _] => destruct b end;
    discriminate.
Qed.

Lemma upper_length (s : string) : String.length s <= length (PyCase.upper s).
Proof.
  unfold PyCase.upper. induction s as [| c s IH]; [done |].
  cbn [String.list_ascii_of_string flat_map String.length]. rewrite length_app.
  pose proof (upper_points_nonempty c).
  destruct (PyCase.upper_points c); [done |]. simpl. lia.
Qed.

(** The first ten characters of a text that is not [NAN] are not [NAN]. *)
Lemma take_not_nan (line : string) :
  PyCase.upper_is line "NAN" = false ->
  PyCase.upper_is (PyStr.take 10 line) "NAN" = false.
Proof.
  intros Hline.
  destruct (Nat.le_gt_cases (String.length line) 10) as [Hshort | Hlong].
  - by rewrite take_short.
  - unfold PyCase.upper_is. apply bool_decide_eq_false. intros Heq.
    apply (f_equal (@length _)) in Heq.
    pose proof (upper_length (PyStr.take 10 line)) as Hlen.
    rewrite take_length in Hlen by lia. rewrite Heq in Hlen. simpl in Hlen. lia.
Qed.

Lemma first_standard_some (lines : list string) (unit : string) :
  first_standard lines = Some unit ->
  In unit standard_units
  /\ exists line, In line lines /\ PyCase.upper_is (PyStr.strip line) unit = true.
Proof.
  induction lines as [| line rest IH]; cbn [first_standard]; [discriminate |].
  destruct (List.find _ standard_units) as [found |] eqn:Hfind.
  - intros [= <-]. apply find_some in Hfind as [Hin Hup].
    split; [exact Hin |]. exists line. split; [by left | exact Hup].
  - intros Hrest. destruct (IH Hrest) as (Hin & l & Hl & Hup).
    split; [exact Hin |]. exists l. split; [by right | exact Hup].
Qed.

Lemma first_standard_found (lines : list string) (line unit : string) :
  In line lines -> In unit standard_units ->
  PyCase.upper_is (PyStr.strip line) unit = true ->
  exists found, first_standard lines = Some found.
Proof.
  intros Hline Hunit Hup.
  induction lines as [| first rest IH]; [done |]. cbn [first_standard].
  destruct (List.find _ standard_units) as [found |] eqn:Hfind; [by exists found |].
  destruct Hline as [-> | Hline]; [| by apply IH].
  by rewrite (find_none _ _ Hfind unit Hunit) in Hup.
Qed.

Lemma first_text_some (lines : list string) (u : string) :
  first_text lines = Some u ->
  exists line, In line lines
               /\ PyStr.strip line <> EmptyString
               /\ PyCase.upper_is (PyStr.strip line) "NAN" = false
               /\ u = PyStr.take 10 (PyStr.strip line).
Proof.
  induction lines as [| line rest IH]; cbn [first_text]; [discriminate |].
  destruct (PyStr.nonempty (PyStr.strip line)) eqn:Hne; simpl andb.
  - destruct (PyCase.upper_is (PyStr.strip line) "NAN") eqn:Hnan; simpl negb; cbv iota.
    + intros Hrest. destruct (IH Hrest) as (l & Hl & H). exists l. split; [by right | done].
    + intros [= <-]. exists line. repeat split; try done; [by left |].
      intros Hempty. by rewrite Hempty in Hne.
  - intros Hrest. destruct (IH Hrest) as (l & Hl & H). exists l. split; [by right | done].
Qed.

End CleanedFields.

(** X10. Cleaned string fields. A value that [clean_string_field] returns
    is the stripped text of its argument: it is not empty, it is not [nan]
    in any case of the letters, it has no white space at either end, and
    cleaning it again returns it unchanged. The function returns None
    exactly for None, for a text that is blank and for a text that is
    [nan] once stripped and in lower case. *)
Theorem clean_string_field_contract :
  (forall (value : option string) (cleaned : string),
      Helpers.clean_string_field value = Some cleaned ->
      (exists v, value = Some v /\ cleaned = PyStr.strip v)
      /\ cleaned <> EmptyString
      /\ PyStr.lower cleaned <> "nan"
      /\ PyStr.strip cleaned = cleaned
      /\ Helpers.clean_string_field (Some cleaned) = Some cleaned)
  /\ (forall value : option string,
         Helpers.clean_string_field value = None
         <-> match value with
             | None => True
             | Some v => PyStr.strip v = EmptyString
                         \/ PyStr.lower (PyStr.strip v) = "nan"
             end).
Proof.
  assert (Hsome : forall v cleaned,
             Helpers.clean_string_field (Some v) = Some cleaned ->
             cleaned = PyStr.strip v
             /\ cleaned <> EmptyString
             /\ PyStr.lower cleaned <> "nan").
  { intros v cleaned. unfold Helpers.clean_string_field.
    destruct (PyStr.is_empty v); [discriminate |].
    destruct (PyStr.is_empty (PyStr.strip v)) eqn:He; [discriminate |].
    destruct (String.eqb_spec (PyStr.lower (PyStr.strip v)) "nan") as [| Hnan];
      [discriminate |].
    simpl orb. cbv iota. intros [= <-]. repeat split; try done.
    intros Hempty. by rewrite Hempty in He. }
  split.
  - intros [v |] cleaned Hclean; [| discriminate].
    destruct (Hsome v cleaned Hclean) as (-> & Hne & Hnan).
    split; [by exists v |]. repeat split; try done; [apply strip_idem |].
    unfold Helpers.clean_string_field. rewrite strip_idem.
    destruct (PyStr.strip v) as [| c s] eqn:Hs; [done |].
    rewrite <- Hs in *.
    assert (He : PyStr.is_empty (PyStr.strip v) = false) by (by rewrite Hs).
    rewrite He. apply String.eqb_neq in Hnan. by rewrite Hnan.
  - intros [v |]; [| done]. unfold Helpers.clean_string_field.
    destruct (PyStr.is_empty v) eqn:Hv.
    { split; [| done]. intros _. left. by apply strip_empty_of_empty. }
    destruct (PyStr.is_empty (PyStr.strip v)) eqn:He.
    { split; [| done]. intros _. left. by apply is_empty_true. }
    destruct (String.eqb_spec (PyStr.lower (PyStr.strip v)) "nan") as [Hnan | Hnan];
      simpl orb; cbv iota.
    + split; [| done]. intros _. by right.
    + split; [discriminate |]. intros [Hempty | Hn]; [| done].
      by rewrite Hempty in He.
Qed.

(** A code between blanks. *)
Lemma clean_string_field_contract_witness :
  PyStr.strip "  5208.3900 " <> EmptyString
  /\ Helpers.clean_string_field (Some (PyStr.strip "  5208.3900 "))
     = Some (PyStr.strip "  5208.3900 ").
Proof.
  assert (Hclean : Helpers.clean_string_field (Some "  5208.3900 ")
                   = Some (PyStr.strip "  5208.3900 ")) by (vm_compute; reflexivity).
  destruct (proj1 clean_string_field_contract _ _ Hclean) as (_ & Hne & _ & _ & Hagain).
  by split.
Defined.

(** X11. Cleaned units of measure. A unit that [_clean_unit_of_measure]
    returns is not empty, has at most ten characters and is not [NAN] in
    upper case; it is one of MT, KG, PZ, NR, KM, or the first ten
    characters of a stripped line of the text when no line is one of these
    units. A line that is a standard unit once stripped and in upper case
    makes the result a standard unit, whatever text comes before it. *)
Theorem clean_unit_of_measure_contract :
  (forall (unit_str : option string) (u : string),
      TableRows._clean_unit_of_measure unit_str = Some u ->
      u <> EmptyString
      /\ String.length u <= 10
      /\ PyCase.upper_is u "NAN" = false
      /\ (In u TableRows.standard_units
          \/ exists text line,
               unit_str = Some text
               /\ In line (PyStr.split_char "010" text)
               /\ u = PyStr.take 10 (PyStr.strip line)
               /\ forall other unit,
                    In other (PyStr.split_char "010" text) ->
                    In unit TableRows.standard_units ->
                    PyCase.upper_is (PyStr.strip other) unit = false))
  /\ (forall (text line unit : string),
         In line (PyStr.split_char "010" text) ->
         In unit TableRows.standard_units ->
         PyCase.upper_is (PyStr.strip line) unit = true ->
         exists found,
           TableRows._clean_unit_of_measure (Some text) = Some found
           /\ In found TableRows.standard_units).
Proof.
  split.
  - intros [text |] u; [| discriminate]. unfold TableRows._clean_unit_of_measure.
    destruct (PyStr.is_empty text); [discriminate |].
    destruct (TableRows.first_standard (PyStr.split_char "010" text))
      as [unit |] eqn:Hstd.
    + intros [= <-]. destruct (first_standard_some _ _ Hstd) as [Hin _].
      assert (Hunit : unit <> EmptyString /\ String.length unit <= 10
                      /\ PyCase.upper_is unit "NAN" = false).
      { unfold TableRows.standard_units in Hin. simpl in Hin.
        destruct Hin as [<- | [<- | [<- | [<- | [<- | []]]]]];
          (split; [discriminate | split; [simpl; lia | vm_compute; reflexivity]]). }
      destruct Hunit as (? & ? & ?). repeat split; try done. by left.
    + intros Htext.
      destruct (first_text_some _ _ Htext) as (line & Hin & Hne & Hnan & ->).
      repeat split.
      * apply take_nonempty; [lia | done].
      * apply take_length_le.
      * by apply take_not_nan.
      * right. exists text, line. repeat split; try done.
        intros other unit Hother Hunit.
        destruct (PyCase.upper_is (PyStr.strip other) unit) eqn:Hup; [| done].
        destruct (first_standard_found _ _ _ Hother Hunit Hup) as [found Hfound].
        congruence.
  - intros text line unit Hline Hunit Hup.
    destruct (first_standard_found _ _ _ Hline Hunit Hup) as [found Hfound].
    exists found. destruct (first_standard_some _ _ Hfound) as [Hin _].
    split; [| exact Hin].
    unfold TableRows._clean_unit_of_measure.
    destruct text as [| c text]; [| by rewrite Hfound].
    exfalso. simpl in Hline. destruct Hline as [<- | []].
    unfold TableRows.standard_units in Hunit. simpl in Hunit.
    destruct Hunit as [<- | [<- | [<- | [<- | [<- | []]]]]];
      vm_compute in Hup; discriminate.
Qed.

(** A cell of two lines, the unit on the second in lower case. *)
Lemma clean_unit_of_measure_contract_witness :
  exists found,
    TableRows._clean_unit_of_measure
      (Some (String "C" (String "o" (String "t" (String "010" " mt ")))))
    = Some found
    /\ In found TableRows.standard_units.
Proof.
  apply (proj2 clean_unit_of_measure_contract
               (String "C" (String "o" (String "t" (String "010" " mt "))))
               " mt " "MT").
  - vm_compute. right. by left.
  - by left.
  - vm_compute. reflexivity.
Defined.

(** ** Header columns *)

Section Headers.
Import HeaderColumns.

(** The header cell is mapped to the column [name]. *)
Definition names (name : string) (header : option string) : bool :=
  match header with
  | Some h => PyStr.nonempty h && bool_decide (matched_column (PyStr.strip h) = Some name)
  | None => false
  end.

(** One turn of the loop over the headers. *)
Definition header_step (column_mapping : gmap string nat) (idx : nat)
           (header : option string) : gmap string nat :=
  match header with
  | Some h =>
      if PyStr.nonempty h then
        match matched_column (PyStr.strip h) with
        | Some column_name => <[column_name := idx]> column_mapping
        | None => column_mapping
        end
      else column_mapping
  | None => column_mapping
  end.

Lemma mapped_headers_fold (header_row : list (option string)) :
  mapped_headers header_row = OCRValidator.fold_enumerate header_step 0 header_row ∅.
Proof. reflexivity. Qed.

Lemma header_step_lookup (column_mapping : gmap string nat) (idx : nat)
      (header : option string) (name : string) :
  header_step column_mapping idx header !! name
  = if names name header then Some idx else column_mapping !! name.
Proof.
  unfold header_step, names. destruct header as [h |]; [| done].
  destruct (PyStr.nonempty h); [| done]. simpl andb.
  destruct (matched_column (PyStr.strip h)) as [column_name |].
  - destruct (decide (column_name = name)) as [-> | Hne].
    + by rewrite bool_decide_eq_true_2, lookup_insert_eq.
    + rewrite bool_decide_eq_false_2 by congruence. by rewrite lookup_insert_ne.
  - by rewrite bool_decide_eq_false_2.
Qed.

Lemma mapped_headers_snoc (header_row : list (option string)) (header : option string) :
  mapped_headers (header_row ++ [header])
  = header_step (mapped_headers header_row) (length header_row) header.
Proof. rewrite !mapped_headers_fold, fold_enumerate_app. reflexivity. Qed.

(** The loop maps a column to the last header cell that names it. *)
Lemma mapped_headers_spec (header_row : list (option string)) (name : string)
      (idx : nat) :
  mapped_headers header_row !! name = Some idx
  <-> (exists header, header_row !! idx = Some header /\ names name header = true)
      /\ forall k header, idx < k -> header_row !! k = Some header ->
                          names name header = false.
Proof.
  revert idx. induction header_row as [| last header_row IH] using rev_ind; intros idx.
  - rewrite mapped_headers_fold. simpl. rewrite lookup_empty.
    split; [discriminate |]. by intros [(header & Hget & _) _].
  - rewrite mapped_headers_snoc, header_step_lookup.
    destruct (names name last) eqn:Hlast.
    + split.
      * intros [= <-]. split.
        -- exists last. by rewrite list_lookup_middle.
        -- intros k header Hk Hget. apply lookup_lt_Some in Hget.
           rewrite length_app in Hget. simpl in Hget. lia.
      * intros [(header & Hget & Hnames) Hlater].
        destruct (Nat.lt_trichotomy idx (length header_row)) as [Hlt | [-> | Hgt]].
        -- specialize (Hlater (length header_row) last Hlt).
           rewrite list_lookup_middle in Hlater by done.
           specialize (Hlater eq_refl). congruence.
        -- done.
        -- apply lookup_lt_Some in Hget. rewrite length_app in Hget.
           simpl in Hget. lia.
    + rewrite IH. split.
      * intros [(header & Hget & Hnames) Hlater]. split.
        -- exists header. split; [| done]. by apply lookup_app_l_Some.
        -- intros k h Hk Hgetk.
           destruct (Nat.lt_trichotomy k (length header_row)) as [Hlt | [-> | Hgt]].
           ++ rewrite lookup_app_l in Hgetk by done. by apply (Hlater k).
           ++ rewrite list_lookup_middle in Hgetk by done. congruence.
           ++ apply lookup_lt_Some in Hgetk. rewrite length_app in Hgetk.
              simpl in Hgetk. lia.
      * intros [(header & Hget & Hnames) Hlater].
        assert (Hlt : idx < length header_row).
        { destruct (Nat.lt_trichotomy idx (length header_row)) as [Hlt | [-> | Hgt]];
            [done | |].
          - rewrite list_lookup_middle in Hget by done. congruence.
          - apply lookup_lt_Some in Hget. rewrite length_app in Hget.
            simpl in Hget. lia. }
        split.
        -- exists header. split; [| done]. by rewrite lookup_app_l in Hget.
        -- intros k h Hk Hgetk. apply (Hlater k h Hk). by apply lookup_app_l_Some.
Qed.

Lemma names_spec (name : string) (header : option string) :
  names name header = true
  <-> exists h, header = Some h /\ h <> EmptyString
                /\ matched_column (PyStr.strip h) = Some name.
Proof.
  unfold names. destruct header as [h |].
  - rewrite andb_true_iff, bool_decide_eq_true. split.
    + intros [Hne Hm]. exists h. repeat split; try done. intros ->. discriminate.
    + intros (h' & [= <-] & Hne & Hm). split; [by destruct h | done].
  - split; [discriminate |]. by intros (h & ? & _).
Qed.

Definition column_names : list string :=
  ["product_code"; "voce_dog"; "unit_of_measure"; "quantity"; "unit_price";
   "total_price"].

Lemma matched_column_known (header_text name : string) :
  matched_column header_text = Some name -> In name column_names.
Proof.
  unfold matched_column.
  destruct (List.find _ header_mappings) as [entry |] eqn:Hfind; [| discriminate].
  intros [= <-]. apply find_some in Hfind as [Hin _].
  unfold header_mappings in Hin. simpl in Hin. unfold column_names. simpl.
  repeat (destruct Hin as [<- | Hin]; [tauto |]). done.
Qed.

(** What the special case for the description adds. *)
Lemma map_headers_lookup (header_row : list (option string)) (name : string) :
  _map_headers_to_columns header_row !! name
  = if bool_decide (name = "description")
    then if bool_decide (mapped_headers header_row !! "product_code" = Some 0)
         then List.find (fun idx => blank (default None (header_row !! idx)))
                        (seq 1 (Nat.min 4 (length header_row) - 1))
         else None
    else mapped_headers header_row !! name.
Proof.
  assert (Hnone : mapped_headers header_row !! "description" = None).
  { destruct (mapped_headers header_row !! "description") as [idx |] eqn:Hget; [| done].
    apply mapped_headers_spec in Hget as [(header & _ & Hnames) _].
    apply names_spec in Hnames as (h & _ & _ & Hm).
    apply matched_column_known in Hm. unfold column_names in Hm. simpl in Hm.
    repeat (destruct Hm as [Hm | Hm]; [discriminate |]). done. }
  unfold _map_headers_to_columns.
  destruct (decide (name = "description")) as [-> | Hname].
  - rewrite (bool_decide_eq_true_2 ("description" = "description")) by done.
    destruct (bool_decide (mapped_headers header_row !! "product_code" = Some 0));
      [| exact Hnone].
    destruct (List.find _ _) as [idx |]; [apply lookup_insert_eq | exact Hnone].
  - rewrite (bool_decide_eq_false_2 (name = "description")) by done.
    destruct (bool_decide (mapped_headers header_row !! "product_code" = Some 0));
      [| done].
    destruct (List.find _ _) as [idx |]; [| done]. by rewrite lookup_insert_ne.
Qed.

(** A column other than the description is mapped to the last header cell
    that names it. *)
Lemma map_headers_column (row : list (option string)) (name : string) (idx : nat) :
  name <> "description" ->
  (_map_headers_to_columns row !! name = Some idx
   <-> (exists h, row !! idx = Some (Some h) /\ h <> EmptyString
                  /\ matched_column (PyStr.strip h) = Some name)
       /\ forall k h, idx < k -> row !! k = Some (Some h) -> h <> EmptyString ->
                      matched_column (PyStr.strip h) <> Some name).
Proof.
  intros Hname.
  rewrite map_headers_lookup, (bool_decide_eq_false_2 (name = "description")) by done.
  rewrite mapped_headers_spec. split.
  - intros [(header & Hget & Hnames) Hlater]. split.
    + apply names_spec in Hnames as (h & -> & Hne & Hm). by exists h.
    + intros k h Hk Hgetk Hne Hm.
      assert (Hn : names name (Some h) = true) by (apply names_spec; by exists h).
      by rewrite (Hlater k (Some h) Hk Hgetk) in Hn.
  - intros [(h & Hget & Hne & Hm) Hlater]. split.
    + exists (Some h). split; [done |]. apply names_spec. by exists h.
    + intros k header Hk Hgetk.
      destruct (names name header) eqn:Hn; [| done].
      apply names_spec in Hn as (h' & -> & Hne' & Hm').
      by destruct (Hlater k h' Hk Hgetk Hne').
Qed.

Lemma map_headers_index (header_row : list (option string)) (name : string)
      (idx : nat) :
  _map_headers_to_columns header_row !! name = Some idx ->
  idx < length header_row /\ In name ("description" :: column_names).
Proof.
  intros Hget.
  destruct (decide (name = "description")) as [-> | Hname].
  - split; [| by left].
    rewrite map_headers_lookup in Hget.
    rewrite (bool_decide_eq_true_2 ("description" = "description")) in Hget by done.
    destruct (bool_decide _); [| discriminate].
    apply find_some in Hget as [Hin _]. apply in_seq in Hin. lia.
  - apply (map_headers_column header_row name idx Hname) in Hget
      as [(h & Hget & _ & Hm) _].
    split; [by eapply lookup_lt_Some |]. right. by eapply matched_column_known.
Qed.

End Headers.

(** X12. The mapping of the header row. Every index of the mapping is a
    place of the header row and every name is one of the six column names
    or the description. A column other than the description is mapped to
    an index exactly when the header cell there is not empty, names the
    column once stripped, and no later cell names it: the last such cell
    wins. The description is mapped only with the product code at index 0,
    to an index from 1 to 3 whose header cell is missing or blank. A header
    cell of white space only names the product code. *)
Theorem header_mapping_contract (header_row : list (option string)) :
  let column_mapping := HeaderColumns._map_headers_to_columns header_row in
  (forall (name : string) (idx : nat),
      column_mapping !! name = Some idx ->
      idx < length header_row
      /\ In name ("description" :: column_names))
  /\ (forall (name : string) (idx : nat),
         name <> "description" ->
         (column_mapping !! name = Some idx
          <-> (exists h, header_row !! idx = Some (Some h) /\ h <> EmptyString
                         /\ HeaderColumns.matched_column (PyStr.strip h) = Some name)
              /\ forall k h, idx < k -> header_row !! k = Some (Some h) ->
                             h <> EmptyString ->
                             HeaderColumns.matched_column (PyStr.strip h) <> Some name))
  /\ (forall idx : nat,
         column_mapping !! "description" = Some idx ->
         column_mapping !! "product_code" = Some 0
         /\ 1 <= idx <= 3
         /\ HeaderColumns.blank (default None (header_row !! idx)) = true)
  /\ (forall h : string,
         h <> EmptyString -> PyStr.strip h = EmptyString ->
         HeaderColumns._map_headers_to_columns (header_row ++ [Some h])
           !! "product_code"
         = Some (length header_row)).
Proof.
  cbv zeta.
  pose proof map_headers_column as Hcolumn.
  split; [| split; [| split]].
  - apply map_headers_index.
  - apply Hcolumn.
  - intros idx Hget.
    rewrite map_headers_lookup in Hget.
    rewrite (bool_decide_eq_true_2 ("description" = "description")) in Hget by done.
    rewrite (map_headers_lookup header_row "product_code").
    rewrite (bool_decide_eq_false_2 ("product_code" = "description")) by discriminate.
    destruct (bool_decide _) eqn:Hcode; [| discriminate].
    apply bool_decide_eq_true in Hcode.
    apply find_some in Hget as [Hin Hblank]. apply in_seq in Hin.
    split; [exact Hcode |]. split; [lia | exact Hblank].
  - intros h Hne Hblank.
    apply (Hcolumn (header_row ++ [Some h]) "product_code" (length header_row));
      [discriminate |].
    split.
    + exists h. rewrite list_lookup_middle by done. repeat split; try done.
      rewrite Hblank. reflexivity.
    + intros k h' Hk Hget. apply lookup_lt_Some in Hget.
      rewrite length_app in Hget. simpl in Hget. lia.
Qed.

(** The header row of the price list, with a blank second cell. *)
Lemma header_mapping_contract_witness :
  HeaderColumns._map_headers_to_columns
    [Some "Prodotto/Var/Tg"; Some ""; Some "Voce dog"; Some "UM"] !! "description"
  = Some 1
  /\ HeaderColumns._map_headers_to_columns
       [Some "Prodotto/Var/Tg"; Some ""; Some "Voce dog"; Some "UM"] !! "product_code"
     = Some 0.
Proof.
  assert (Hget : HeaderColumns._map_headers_to_columns
                   [Some "Prodotto/Var/Tg"; Some ""; Some "Voce dog"; Some "UM"]
                   !! "description" = Some 1) by (vm_compute; reflexivity).
  split; [exact Hget |].
  apply (proj1 (proj2 (proj2 (header_mapping_contract _))) 1 Hget).
Defined.

(** X13. The cells of a processed row. The processed row has an entry for
    every column of the mapping and for no other; every value has no white
    space at either end; a column whose index lies beyond the row holds the
    empty text, and a column whose cell holds a text holds that text
    stripped. With the mapping of a header row and a row at least as long,
    no column is beyond the row. *)
Theorem processed_row_contract
  (row : list (option string)) (column_mapping : gmap string nat) :
  let row_data := HeaderColumns._process_table_row row column_mapping in
  (forall name : string,
      is_Some (row_data !! name) <-> is_Some (column_mapping !! name))
  /\ (forall (name v : string), row_data !! name = Some v -> PyStr.strip v = v)
  /\ (forall (name : string) (idx : nat),
         column_mapping !! name = Some idx -> length row <= idx ->
         row_data !! name = Some EmptyString)
  /\ (forall (name : string) (idx : nat) (v : string),
         column_mapping !! name = Some idx -> row !! idx = Some (Some v) ->
         row_data !! name = Some (PyStr.strip v))
  /\ (forall (header_row : list (option string)) (name : string) (idx : nat),
         column_mapping = HeaderColumns._map_headers_to_columns header_row ->
         length header_row <= length row ->
         column_mapping !! name = Some idx ->
         exists cell, row !! idx = Some cell).
Proof.
  cbv zeta. unfold HeaderColumns._process_table_row.
  split; [| split; [| split; [| split]]].
  - intros name. rewrite lookup_fmap. by rewrite fmap_is_Some.
  - intros name v. rewrite lookup_fmap.
    destruct (column_mapping !! name) as [idx |]; [| discriminate].
    simpl. intros [= <-].
    destruct (row !! idx) as [[cell |] |]; try done.
    destruct (PyStr.nonempty cell); [apply strip_idem | done].
  - intros name idx Hget Hlen. rewrite lookup_fmap, Hget. simpl.
    by rewrite (lookup_ge_None_2 row idx Hlen).
  - intros name idx v Hget Hcell. rewrite lookup_fmap, Hget. simpl. rewrite Hcell.
    by destruct v.
  - intros header_row name idx -> Hlen Hget.
    apply map_headers_index in Hget as [Hidx _].
    apply lookup_lt_is_Some_2. lia.
Qed.

(** A row shorter than its header row. *)
Lemma processed_row_contract_witness :
  HeaderColumns._process_table_row
    [Some " MMA00.1234.5678 "]
    (HeaderColumns._map_headers_to_columns [Some "Prodotto/Var/Tg"; Some "UM"])
    !! "unit_of_measure"
  = Some EmptyString.
Proof.
  apply (proj1 (proj2 (proj2 (processed_row_contract
                                [Some " MMA00.1234.5678 "]
                                (HeaderColumns._map_headers_to_columns
                                   [Some "Prodotto/Var/Tg"; Some "UM"]))))
               "unit_of_measure" 1).
  - vm_compute. reflexivity.
  - simpl. lia.
Defined.

(** ** The rows of a structured table *)

Section StructuredRows.
Import TableRows.

(** A numeric field of an item: nothing, or the text of a decimal that
    parses back to it. *)
Definition amount_text (field : option string) : Prop :=
  field = None
  \/ exists d, field = Some (Dec.to_string d)
               /\ parse_italian_decimal (VStr (Dec.to_string d)) = inr (Some d).

(** A text field of an item: nothing, or a text that is not empty, not
    [nan] and without white space at either end. *)
Definition cleaned_text (field : option string) : Prop :=
  field = None
  \/ exists s, field = Some s /\ s <> EmptyString /\ PyStr.strip s = s
               /\ PyStr.lower s <> "nan".

Lemma parsed_amount_text (value field : option string) :
  caught (_parse_numeric_field value) = Some field -> amount_text field.
Proof.
  destruct value as [v |]; [| intros [= <-]; by left].
  unfold _parse_numeric_field.
  destruct (parse_italian_decimal (VStr v)) as [e | [d |]] eqn:Hparse;
    simpl; try discriminate; intros [= <-]; [| by left].
  right. exists d. split; [done |].
  apply parse_to_string. by eapply parse_returns_representable.
Qed.

Lemma cleaned_field_text (value : option string) :
  cleaned_text (Helpers.clean_string_field value).
Proof.
  destruct value as [v |]; [| by left]. unfold Helpers.clean_string_field.
  destruct (PyStr.is_empty v); [by left |].
  destruct (PyStr.is_empty (PyStr.strip v)) eqn:He; [by left |].
  destruct (String.eqb_spec (PyStr.lower (PyStr.strip v)) "nan") as [| Hnan];
    [by left |].
  simpl orb. cbv iota. right. exists (PyStr.strip v).
  repeat split; try done; [| apply strip_idem].
  intros Hempty. by rewrite Hempty in He.
Qed.

(** What a row gives when it gives an item. *)
Lemma product_from_row_some (df : grid) (row_index : nat)
      (col_map : gmap string (option nat)) (product : ProductData.t) :
  _extract_product_from_row df row_index col_map = Some product ->
  row_index < length df
  /\ (exists code, ProductData.product_code product = Some code
                   /\ code <> EmptyString
                   /\ PyStr.strip code = code
                   /\ PyStr.startswith "total" (PyStr.lower code) = false)
  /\ amount_text (ProductData.quantity product)
  /\ amount_text (ProductData.unit_price product)
  /\ amount_text (ProductData.total_price product)
  /\ cleaned_text (ProductData.customs_code product)
  /\ cleaned_text (ProductData.unit_of_measure product).
Proof.
  unfold _extract_product_from_row.
  destruct (df !! row_index) as [row_data |] eqn:Hrow; [| discriminate].
  apply lookup_lt_Some in Hrow.
  destruct (col_map !! "product_code_raw") as [code_label |]; [| discriminate].
  destruct (item row_data code_label) as [code_cell |]; [| discriminate].
  cbv zeta.
  destruct (PyStr.is_empty
              (PyStr.strip (hd EmptyString
                               (PyStr.split_char "010" (PyStr.strip code_cell)))))
    eqn:Hempty; [discriminate |].
  destruct (PyStr.startswith _ _) eqn:Htotal; [discriminate |].
  simpl orb. cbv iota.
  destruct (col_map !! "line_total") as [total_label |]; [| discriminate].
  destruct (negb (meaningful _)); [discriminate |].
  destruct (col_map !! "quantity") as [quantity_label |]; [| discriminate].
  destruct (caught (_parse_numeric_field (get Some row_data quantity_label None)))
    as [quantity |] eqn:Hq; [| discriminate].
  destruct (col_map !! "unit_price") as [price_label |]; [| discriminate].
  destruct (caught (_parse_numeric_field (get Some row_data price_label None)))
    as [unit_price |] eqn:Hu; [| discriminate].
  destruct (caught (_parse_numeric_field (Some _))) as [total_price |] eqn:Ht;
    [| discriminate].
  intros [= <-].
  cbn [ProductData.product_code ProductData.quantity ProductData.unit_price
       ProductData.total_price ProductData.customs_code ProductData.unit_of_measure].
  split; [exact Hrow |]. split.
  { eexists. split; [reflexivity |]. repeat split; try done; [| apply strip_idem].
    intros Hcode. by rewrite Hcode in Hempty. }
  split; [by eapply parsed_amount_text |].
  split; [by eapply parsed_amount_text |].
  split; [by eapply parsed_amount_text |].
  split.
  - exact (cleaned_field_text
             (Some (get id row_data (default None (col_map !! "customs_code"))
                        EmptyString))).
  - exact (cleaned_field_text
             (Some (get id row_data (default None (col_map !! "unit_measure"))
                        EmptyString))).
Qed.

(** The loop over the rows, from the items found so far. *)
Lemma structured_fold (df : grid) (col_map : gmap string (option nat))
      (rows : list nat) :
  forall products : list ProductData.t,
    fold_left
      (fun products row_index =>
         match _extract_product_from_row df row_index col_map with
         | Some product => OCRValidator.push products product
         | None => products
         end)
      rows products
    = products ++ omap (fun row_index => _extract_product_from_row df row_index col_map)
                       rows.
Proof.
  induction rows as [| row_index rows IH]; intros products; simpl.
  - by rewrite app_nil_r.
  - rewrite IH.
    destruct (_extract_product_from_row df row_index col_map) as [product |]; [| done].
    unfold OCRValidator.push. by rewrite <- app_assoc.
Qed.

Lemma structured_rows (df : grid) (col_map : gmap string (option nat)) :
  _extract_products_structured df col_map
  = omap (fun row_index => _extract_product_from_row df row_index col_map)
         (seq 1 (length df - 1)).
Proof. unfold _extract_products_structured. by rewrite structured_fold. Qed.

Lemma omap_length_le {A B : Type} (f : A -> option B) (l : list A) :
  length (omap f l) <= length l.
Proof.
  induction l as [| x l IH]; [done |].
  change (omap f (x :: l))
    with (match f x with Some y => y :: omap f l | None => omap f l end).
  destruct (f x); simpl; lia.
Qed.

Lemma omap_In {A B : Type} (f : A -> option B) (l : list A) (y : B) :
  In y (omap f l) -> exists x, In x l /\ f x = Some y.
Proof.
  induction l as [| x l IH]; simpl; [done |].
  destruct (f x) as [b |] eqn:Hfx.
  - intros [<- | Hin].
    + exists x. split; [by left | done].
    + destruct (IH Hin) as (x' & Hx' & Hf). exists x'. split; [by right | done].
  - intros Hin. destruct (IH Hin) as (x' & Hx' & Hf). exists x'. split; [by right | done].
Qed.

End StructuredRows.

(** A table with a header row, an item, a footer row and an item whose
    quantity cannot be read. *)
Definition priced_grid : grid :=
  [ ["Prodotto/Var/Tg"; "Descrizione"; "Voce dog"; "UM"; "Q.ta fatt";
     "Prezzo unitario"; "Importo"];
    [" MMA00.1234.5678 "; "Tessuto"; "5806"; "MT"; "34,19"; "3,712"; "126,911"];
    ["Totale"; ""; ""; ""; ""; ""; "126,911"];
    ["MMA00.1234.5679"; "nan"; " "; "mt"; "x"; ""; "1.250,50"] ].

(** X14. The items of a structured table. The structured extraction
    returns at most one item for each row after the header row, and every
    item comes from such a row. Its product code is not empty, has no
    white space at either end and does not begin with [total] in any case
    of the letters; its quantity, unit price and total are each nothing or
    the text of a decimal that parses back to that decimal; its customs
    code and unit are each nothing or a text that is not empty, not [nan]
    and without white space at either end. A table of at least two rows
    whose required columns are mapped is read by this extraction. *)
Theorem structured_rows_give_clean_items
  (df : grid) (col_map : gmap string (option nat)) :
  let products := TableRows._extract_products_structured df col_map in
  length products <= length df - 1
  /\ (forall product : ProductData.t,
         In product products ->
         (exists row_index,
             1 <= row_index < length df
             /\ TableRows._extract_product_from_row df row_index col_map
                = Some product)
         /\ (exists code, ProductData.product_code product = Some code
                          /\ code <> EmptyString
                          /\ PyStr.strip code = code
                          /\ PyStr.startswith "total" (PyStr.lower code) = false)
         /\ amount_text (ProductData.quantity product)
         /\ amount_text (ProductData.unit_price product)
         /\ amount_text (ProductData.total_price product)
         /\ cleaned_text (ProductData.customs_code product)
         /\ cleaned_text (ProductData.unit_of_measure product))
  /\ (forall flexible : grid -> gmap string (option nat) -> list ProductData.t,
         2 <= length df ->
         TableExtractor._validate_required_columns col_map = true ->
         TableExtractor._extract_products_from_table
           TableRows._extract_products_structured flexible df col_map
         = products).
Proof.
  cbv zeta. rewrite structured_rows. split; [| split].
  - etrans; [apply omap_length_le |]. by rewrite length_seq.
  - intros product Hin.
    apply omap_In in Hin as (row_index & Hrow & Hproduct).
    apply in_seq in Hrow.
    destruct (product_from_row_some _ _ _ _ Hproduct) as (Hlt & Hrest).
    split; [| exact Hrest].
    exists row_index. split; [lia | exact Hproduct].
  - intros flexible Hlen Hvalid.
    unfold TableExtractor._extract_products_from_table. rewrite Hvalid.
    destruct (Nat.ltb_spec (length df) 2); [lia |]. apply structured_rows.
Qed.

(** The table above gives two items; the second has no quantity. *)
Lemma structured_rows_give_clean_items_witness :
  amount_text (Some "1250.50")
  /\ cleaned_text (Some "mt")
  /\ TableExtractor._extract_products_from_table
       TableRows._extract_products_structured (fun _ _ => []) priced_grid
       (TableExtractor._map_table_columns priced_grid)
     = [ ProductData.Make (Some "MMA00.1234.5678") (Some "Tessuto") (Some "5806")
                          (Some "MT") (Some "34.19") (Some "3.712") (Some "126.911");
         ProductData.Make (Some "MMA00.1234.5679") None None (Some "mt")
                          None None (Some "1250.50") ].
Proof.
  assert (Hrun : TableRows._extract_products_structured
                   priced_grid (TableExtractor._map_table_columns priced_grid)
                 = [ ProductData.Make (Some "MMA00.1234.5678") (Some "Tessuto")
                                      (Some "5806") (Some "MT") (Some "34.19")
                                      (Some "3.712") (Some "126.911");
                     ProductData.Make (Some "MMA00.1234.5679") None None (Some "mt")
                                      None None (Some "1250.50") ])
    by (vm_compute; reflexivity).
  destruct (structured_rows_give_clean_items
              priced_grid (TableExtractor._map_table_columns priced_grid))
    as (_ & Hitems & Hchosen).
  rewrite Hrun in Hitems, Hchosen.
  destruct (Hitems (ProductData.Make (Some "MMA00.1234.5679") None None (Some "mt")
                                     None None (Some "1250.50")))
    as (_ & _ & _ & _ & Htotal & _ & Hunit); [right; by left |].
  split; [exact Htotal |]. split; [exact Hunit |].
  apply Hchosen; [simpl; lia | vm_compute; reflexivity].
Defined.
